(** * line-gas-bot: a shallow embedding of the event-dispatch,
    conversation state machine, row store and chunked-delivery code

    The development follows the TypeScript sources:
    - [utils/messageFormatter.ts]   -> [Module MessageFormatter]
    - [constants/messageConstants.ts] -> [Module MessageConstants]
    - [services/spreadsheetService.ts] -> [Module SpreadsheetService]
    - [utils/logger.ts]             -> [Module Logger]
    - [models/user.ts], [models/message.ts] -> [Module User], [Module Message]
    - [services/lineService.ts]     -> [Module LineService]
    - [handlers/textHandler.ts]     -> [Module TextHandler]
    - [handlers/defaultHandler.ts]  -> [Module DefaultHandler]
    - [handlers/imageHandler.ts]    -> [Module ImageHandler]
    - [handlers/postbackHandler.ts] -> [Module PostbackHandler]
      ([parsePostbackData])
    - [factories/handlerFactory.ts] -> [Module HandlerFactory]

    JavaScript strings are sequences of UTF-16 code units; mutable service
    singletons (the spreadsheet, the logger, the console, the HTTP transport)
    are the fields of one [World] record threaded through a small
    state-and-exception monad. *)

From stdpp Require Import strings gmap list sorting.
From Equations Require Import Equations.
From Stdlib Require Import ZArith Lia DecimalString.

Open Scope Z_scope.

(** ** JavaScript strings *)

(** A UTF-16 code unit and a JavaScript string.  [length], [substring],
    [includes], [trim] and [===] all work on code units. *)
Definition code_unit := N.
Definition jsstring := list code_unit.

(** Source literals are written in this file as UTF-8 text; [js] turns such a
    literal into the code units the JavaScript engine holds.  [utf8_points]
    decodes the bytes to code points, [utf16_units] encodes one code point. *)
Fixpoint utf8_points (need : nat) (acc : N) (bs : list N) : list N :=
  match bs with
  | [] => []
  | b :: bs' =>
      match need with
      | O =>
          if (b <? 128)%N then b :: utf8_points 0 0%N bs'
          else if (b <? 224)%N then utf8_points 1 (b mod 32)%N bs'
          else if (b <? 240)%N then utf8_points 2 (b mod 16)%N bs'
          else utf8_points 3 (b mod 8)%N bs'
      | S O => (acc * 64 + b mod 64)%N :: utf8_points 0 0%N bs'
      | S n => utf8_points n (acc * 64 + b mod 64)%N bs'
      end
  end.

Definition utf16_units (cp : N) : list code_unit :=
  if (cp <? 65536)%N then [cp]
  else [(55296 + (cp - 65536) / 1024)%N; (56320 + (cp - 65536) mod 1024)%N].

Fixpoint bytes_of_string (s : string) : list N :=
  match s with
  | EmptyString => []
  | String a s' => Ascii.N_of_ascii a :: bytes_of_string s'
  end.

Definition js (s : string) : jsstring :=
  utf8_points 0 0%N (bytes_of_string s) ≫= utf16_units.
Arguments js s%_string : simpl never.

(** [String(n)] / [n.toString()] for an integral number. *)
Definition N_to_js (n : N) : jsstring :=
  js (DecimalString.NilZero.string_of_uint (N.to_uint n)).

Definition Z_to_js (z : Z) : jsstring :=
  if z <? 0 then js "-" ++ N_to_js (Z.to_N (- z)) else N_to_js (Z.to_N z).

(** [s.startsWith(p)] and the split of [s] around the first occurrence of
    [p], which is what [includes], [indexOf] and [replace] search for. *)
Fixpoint startsWith (p s : jsstring) : bool :=
  match p, s with
  | [], _ => true
  | _ :: _, [] => false
  | a :: p', b :: s' => if (a =? b)%N then startsWith p' s' else false
  end.

Fixpoint find_first (p s : jsstring) : option (jsstring * jsstring) :=
  if startsWith p s then Some ([], drop (length p) s)
  else match s with
       | [] => None
       | c :: s' =>
           match find_first p s' with
           | Some (before, after) => Some (c :: before, after)
           | None => None
           end
       end.

(** [s.includes(p)]. *)
Definition includes (s p : jsstring) : bool :=
  match find_first p s with Some _ => true | None => false end.

(** ECMAScript GetSubstitution for a string pattern (no capture groups): in
    the replacement text [$$] is a dollar sign, [$&] the matched text,
    [$`] the text before the match and [$'] the text after it; every other
    use of [$] stands for itself. *)
Fixpoint GetSubstitution (matched before after tpl : jsstring) : jsstring :=
  match tpl with
  | [] => []
  | c :: rest =>
      if (c =? 36)%N then
        match rest with
        | d :: rest' =>
            if (d =? 36)%N then 36%N :: GetSubstitution matched before after rest'
            else if (d =? 38)%N then matched ++ GetSubstitution matched before after rest'
            else if (d =? 96)%N then before ++ GetSubstitution matched before after rest'
            else if (d =? 39)%N then after ++ GetSubstitution matched before after rest'
            else c :: GetSubstitution matched before after rest
        | [] => [c]
        end
      else c :: GetSubstitution matched before after rest
  end.

(** [s.replace(p, v)] with a string pattern: only the first occurrence. *)
Definition replace (s p v : jsstring) : jsstring :=
  match find_first p s with
  | None => s
  | Some (before, after) => before ++ GetSubstitution p before after v ++ after
  end.

(** WhiteSpace and LineTerminator code units, as stripped by [trim] and
    skipped by [parseInt]. *)
Definition isWhiteSpace (c : code_unit) : bool :=
  ((9 <=? c) && (c <=? 13) || (c =? 32) || (c =? 160) || (c =? 5760)
   || (8192 <=? c) && (c <=? 8202) || (c =? 8232) || (c =? 8233)
   || (c =? 8239) || (c =? 8287) || (c =? 12288) || (c =? 65279))%N.

Fixpoint trimStart (s : jsstring) : jsstring :=
  match s with
  | c :: s' => if isWhiteSpace c then trimStart s' else s
  | [] => []
  end.

Definition trim (s : jsstring) : jsstring :=
  rev (trimStart (rev (trimStart s))).

(** The value of a digit in radix [R], if [c] is one. *)
Definition digit_value (R : N) (c : code_unit) : option N :=
  let v :=
    if ((48 <=? c) && (c <=? 57))%N then Some (c - 48)%N
    else if ((97 <=? c) && (c <=? 122))%N then Some (c - 87)%N
    else if ((65 <=? c) && (c <=? 90))%N then Some (c - 55)%N
    else None in
  match v with
  | Some d => if (d <? R)%N then Some d else None
  | None => None
  end.

(** The longest prefix of radix-[R] digits, folded to its value; [None] when
    that prefix is empty. *)
Fixpoint digits_prefix (R : N) (acc : option N) (s : jsstring) : option N :=
  match s with
  | [] => acc
  | c :: s' =>
      match digit_value R c with
      | Some d => digits_prefix R (Some (default 0%N acc * R + d)%N) s'
      | None => acc
      end
  end.

(** [parseInt(text)] without a radix: leading white space is skipped, one
    sign is read, a [0x]/[0X] prefix switches to radix 16, and the longest
    digit prefix is the value; whatever follows the digits is ignored.
    [None] is NaN.  The value is kept as the integer the digits denote (the
    Number it is rounded to stands in the same order to 1 and 120), and the
    sign of zero is not kept. *)
Definition parseInt (text : jsstring) : option Z :=
  let str := trimStart text in
  let '(sign, str) :=
    match str with
    | c :: str' =>
        if (c =? 45)%N then (-1, str') else if (c =? 43)%N then (1, str') else (1, str)
    | [] => (1, str)
    end in
  let '(R, str) :=
    match str with
    | z :: x :: str' =>
        if ((z =? 48) && ((x =? 120) || (x =? 88)))%N then (16%N, str') else (10%N, str)
    | _ => (10%N, str)
    end in
  match digits_prefix R None str with
  | None => None
  | Some mathInt => Some (sign * Z.of_N mathInt)
  end.

(** [text.substring(0, end)] for an integral [end]: a negative end counts as
    0 and an end beyond the text as its length. *)
Definition substring0 (text : jsstring) (end_ : Z) : jsstring :=
  take (Z.to_nat end_) text.

(** [s.split(sep)] for a separator of one code unit: the pieces between the
    separators, empty pieces included; never the empty list. *)
Fixpoint split_on (sep : code_unit) (s : jsstring) : list jsstring :=
  match s with
  | [] => [[]]
  | c :: s' =>
      if (c =? sep)%N then [] :: split_on sep s'
      else match split_on sep s' with
           | piece :: pieces => (c :: piece) :: pieces
           | [] => [[c]]
           end
  end.

(** ECMAScript ParseHexOctet on two code units. *)
Definition ParseHexOctet (h1 h2 : code_unit) : option N :=
  match digit_value 16 h1, digit_value 16 h2 with
  | Some a, Some b => Some (16 * a + b)%N
  | _, _ => None
  end.

(** One continuation octet of an escaped UTF-8 sequence: a percent sign, two
    hexadecimal digits, and a value of the form 10xxxxxx, of which the six
    low bits are returned. *)
Definition continuation (p h1 h2 : code_unit) : option N :=
  if (p =? 37)%N then
    match ParseHexOctet h1 h2 with
    | Some b => if ((128 <=? b) && (b <? 192))%N then Some (b mod 64)%N else None
    | None => None
    end
  else None.

(** The code point of a decoded sequence is appended as UTF-16 when the
    octets are a valid UTF-8 encoding: not overlong (at least [least]), no
    surrogate, at most U+10FFFF. *)
Definition emit (least cp : N) (tail : option jsstring) : option jsstring :=
  if ((least <=? cp) && (cp <=? 1114111) && negb ((55296 <=? cp) && (cp <=? 57343)))%N
  then app (utf16_units cp) <$> tail
  else None.

(** [decodeURIComponent(s)], the ECMAScript Decode operation with an empty
    set of preserved escapes; [None] is URIError. *)
Fixpoint decodeURIComponent (s : jsstring) : option jsstring :=
  match s with
  | [] => Some []
  | c :: rest =>
      if (c =? 37)%N then
        match rest with
        | h1 :: h2 :: rest1 =>
            match ParseHexOctet h1 h2 with
            | None => None
            | Some B =>
                if (B <? 128)%N then cons B <$> decodeURIComponent rest1
                else if (B <? 192)%N then None
                else if (B <? 224)%N then
                  match rest1 with
                  | p1 :: a1 :: a2 :: rest2 =>
                      match continuation p1 a1 a2 with
                      | Some x1 =>
                          emit 128 ((B mod 32) * 64 + x1)%N (decodeURIComponent rest2)
                      | None => None
                      end
                  | _ => None
                  end
                else if (B <? 240)%N then
                  match rest1 with
                  | p1 :: a1 :: a2 :: p2 :: b1 :: b2 :: rest2 =>
                      match continuation p1 a1 a2, continuation p2 b1 b2 with
                      | Some x1, Some x2 =>
                          emit 2048 (((B mod 16) * 64 + x1) * 64 + x2)%N
                            (decodeURIComponent rest2)
                      | _, _ => None
                      end
                  | _ => None
                  end
                else if (B <? 248)%N then
                  match rest1 with
                  | p1 :: a1 :: a2 :: p2 :: b1 :: b2 :: p3 :: c1 :: c2 :: rest2 =>
                      match continuation p1 a1 a2, continuation p2 b1 b2,
                            continuation p3 c1 c2 with
                      | Some x1, Some x2, Some x3 =>
                          emit 65536 ((((B mod 8) * 64 + x1) * 64 + x2) * 64 + x3)%N
                            (decodeURIComponent rest2)
                      | _, _, _ => None
                      end
                  | _ => None
                  end
                else None
            end
        | _ => None
        end
      else cons c <$> decodeURIComponent rest
  end.

(** ** Values, rows and events *)

(** The JSON values the registration flow stores in a user's attribute map
    ([name] is a string, [age] a number). *)
Inductive jsval :=
| JStr (s : jsstring)
| JNum (z : Z).

(** [UserData] and a message's [content]: objects used as string-keyed maps.
    The sheet keeps them as JSON text; the model keeps the map itself, that is
    [JSON.parse (JSON.stringify d)] is taken to be [d]. *)
Abbreviation JsObject := (gmap jsstring jsval).

(** [v || ''] followed by [String(...)], for an attribute that may be
    missing. *)
Definition or_empty (v : option jsval) : jsstring :=
  match v with
  | Some (JStr s) => s
  | Some (JNum z) => if z =? 0 then [] else Z_to_js z
  | None => []
  end.

(** [UserRow]: userId, displayName, state, data, createdAt, updatedAt.
    Dates are their time value in milliseconds. *)
Record UserRow := mkUserRow {
  ur_userId : jsstring;
  ur_displayName : option jsstring;
  ur_state : jsstring;
  ur_data : JsObject;
  ur_createdAt : Z;
  ur_updatedAt : option Z
}.

(** The tuple type fixes [userData.length] at 6. *)
Definition UserRow_length (_ : UserRow) : Z := 6.

(** What [range.getValues()] hands back for a row of the Users sheet.  A
    cell written as [null] is an empty cell, and an empty cell is read as
    ['']: the display name read is always a string, and the sixth value is a
    date or [''] ([None] here), never [null]. *)
Record UserValues := mkUserValues {
  uv_userId : jsstring;
  uv_displayName : jsstring;
  uv_state : jsstring;
  uv_data : JsObject;
  uv_createdAt : Z;
  uv_updatedAt : option Z
}.

Definition getValues_row (r : UserRow) : UserValues :=
  mkUserValues (ur_userId r) (default [] (ur_displayName r)) (ur_state r)
    (ur_data r) (ur_createdAt r) (ur_updatedAt r).

(** [MessageRow]: userId, type, content, timestamp. *)
Record MessageRow := mkMessageRow {
  mr_userId : jsstring;
  mr_type : jsstring;
  mr_content : JsObject;
  mr_timestamp : Z
}.

(** A row of the Logs sheet: timestamp, level, message. *)
Record LogRow := mkLogRow {
  lr_timestamp : Z;
  lr_level : jsstring;
  lr_message : jsstring
}.

Inductive ConsoleLevel := ConsoleLog | ConsoleWarn | ConsoleError.

(** The three POST requests of [LineService], with their JSON payloads. *)
Inductive Request :=
| Reply (replyToken text : jsstring)
| Push (to text : jsstring)
| LoadingStart (chatId : jsstring) (loadingSeconds : Z).

Definition url_of (r : Request) : jsstring :=
  match r with
  | Reply _ _ => js "https://api.line.me/v2/bot/message/reply"
  | Push _ _ => js "https://api.line.me/v2/bot/message/push"
  | LoadingStart _ _ => js "https://api.line.me/v2/bot/chat/loading/start"
  end.

(** What [UrlFetchApp.fetch] does with a request: it answers with a status
    code and a body, or it raises. *)
Inductive FetchResult :=
| Response (code : Z) (body : jsstring)
| FetchRaises (message : jsstring).

(** [models/lineEvent.ts]. *)
Inductive EventType :=
| ev_message | ev_follow | ev_unfollow | ev_join | ev_leave | ev_memberJoined
| ev_memberLeft | ev_postback | ev_beacon | ev_accountLink | ev_things.

Inductive MessageType :=
| msg_text | msg_image | msg_video | msg_audio | msg_file | msg_location
| msg_sticker.

Inductive SourceType := src_user | src_group | src_room.

#[global] Instance EventType_eq_dec : EqDecision EventType.
Proof. solve_decision. Defined.
#[global] Instance MessageType_eq_dec : EqDecision MessageType.
Proof. solve_decision. Defined.

Record LineSource := mkLineSource {
  source_type : SourceType;
  source_userId : option jsstring;
  source_groupId : option jsstring;
  source_roomId : option jsstring
}.

Record LineMessage := mkLineMessage {
  message_id : jsstring;
  message_type : MessageType;
  message_text : option jsstring
}.

Record LinePostback := mkLinePostback {
  postback_data : jsstring;
  postback_params : option (list (jsstring * jsstring))
}.

Record LineEvent := mkLineEvent {
  event_type : EventType;
  event_replyToken : option jsstring;
  event_source : LineSource;
  event_timestamp : Z;
  event_message : option LineMessage;
  event_postback : option LinePostback
}.

(** JavaScript truthiness of an optional string: [undefined] and [''] are
    falsy. *)
Definition truthy (s : option jsstring) : bool :=
  match s with
  | Some (_ :: _) => true
  | _ => false
  end.

(** ** The world the services act on *)

(** - [spreadsheetId]: the private field of [SpreadsheetService];
    - [openByIdError]: when set, [SpreadsheetApp.openById] raises with this
      message (the medium is unavailable);
    - [sheetUsers], [sheetMessages], [sheetLogs]: the data rows below the
      header row of each sheet, [None] while the sheet does not exist;
    - [loggerInitialized], [loggerDebugMode]: the fields of [Logger];
    - [console]: what was written to the console;
    - [now]: the clock read by [new Date()];
    - [UrlFetch]: the transport, which may depend on how many requests went
      out before; [fetched]: the requests sent so far. *)
Record World := mkWorld {
  spreadsheetId : option jsstring;
  openByIdError : option jsstring;
  sheetUsers : option (list UserRow);
  sheetMessages : option (list MessageRow);
  sheetLogs : option (list LogRow);
  loggerInitialized : bool;
  loggerDebugMode : bool;
  console : list (ConsoleLevel * jsstring);
  now : Z;
  UrlFetch : nat -> Request -> FetchResult;
  fetched : list Request
}.

Definition set_sheetUsers (v : option (list UserRow)) (w : World) : World :=
  mkWorld (spreadsheetId w) (openByIdError w) v (sheetMessages w) (sheetLogs w)
    (loggerInitialized w) (loggerDebugMode w) (console w) (now w) (UrlFetch w)
    (fetched w).

Definition set_sheetMessages (v : option (list MessageRow)) (w : World) : World :=
  mkWorld (spreadsheetId w) (openByIdError w) (sheetUsers w) v (sheetLogs w)
    (loggerInitialized w) (loggerDebugMode w) (console w) (now w) (UrlFetch w)
    (fetched w).

Definition set_sheetLogs (v : option (list LogRow)) (w : World) : World :=
  mkWorld (spreadsheetId w) (openByIdError w) (sheetUsers w) (sheetMessages w) v
    (loggerInitialized w) (loggerDebugMode w) (console w) (now w) (UrlFetch w)
    (fetched w).

Definition set_logger (initialized debugMode : bool) (w : World) : World :=
  mkWorld (spreadsheetId w) (openByIdError w) (sheetUsers w) (sheetMessages w)
    (sheetLogs w) initialized debugMode (console w) (now w) (UrlFetch w)
    (fetched w).

Definition set_console (v : list (ConsoleLevel * jsstring)) (w : World) : World :=
  mkWorld (spreadsheetId w) (openByIdError w) (sheetUsers w) (sheetMessages w)
    (sheetLogs w) (loggerInitialized w) (loggerDebugMode w) v (now w)
    (UrlFetch w) (fetched w).

Definition set_now (v : Z) (w : World) : World :=
  mkWorld (spreadsheetId w) (openByIdError w) (sheetUsers w) (sheetMessages w)
    (sheetLogs w) (loggerInitialized w) (loggerDebugMode w) (console w) v
    (UrlFetch w) (fetched w).

Definition set_UrlFetch (v : nat -> Request -> FetchResult) (w : World) : World :=
  mkWorld (spreadsheetId w) (openByIdError w) (sheetUsers w) (sheetMessages w)
    (sheetLogs w) (loggerInitialized w) (loggerDebugMode w) (console w) (now w)
    v (fetched w).

Definition set_fetched (v : list Request) (w : World) : World :=
  mkWorld (spreadsheetId w) (openByIdError w) (sheetUsers w) (sheetMessages w)
    (sheetLogs w) (loggerInitialized w) (loggerDebugMode w) (console w) (now w)
    (UrlFetch w) v.

(** The data rows of each sheet; a sheet that does not exist has none. *)
Definition users (w : World) : list UserRow := default [] (sheetUsers w).
Definition messages (w : World) : list MessageRow := default [] (sheetMessages w).
Definition logs (w : World) : list LogRow := default [] (sheetLogs w).

(** ** Computations: state, exceptions and loops that may not finish *)

(** A call returns a value, raises an [Error] with a message, or is still
    running when the iteration budget given to it is used up ([Hang]).  The
    world reached so far is kept in every case. *)
Inductive outcome (A : Type) :=
| Ok (a : A)
| Throw (e : jsstring)
| Hang.
Arguments Ok {A} a.
Arguments Throw {A} e.
Arguments Hang {A}.

Definition M (A : Type) : Type := World -> outcome A * World.

Definition ret {A} (a : A) : M A := fun w => (Ok a, w).

Definition bind {A B} (c : M A) (k : A -> M B) : M B :=
  fun w =>
    match c w with
    | (Ok a, w') => k a w'
    | (Throw e, w') => (Throw e, w')
    | (Hang, w') => (Hang, w')
    end.

Definition throw {A} (e : jsstring) : M A := fun w => (Throw e, w).

(** [try { c } catch (error) { h error.message }]. *)
Definition try_catch {A} (c : M A) (h : jsstring -> M A) : M A :=
  fun w =>
    match c w with
    | (Throw e, w') => h e w'
    | r => r
    end.

Definition get : M World := fun w => (Ok w, w).
Definition modify (f : World -> World) : M unit := fun w => (Ok tt, f w).

(** A pure loop that may not finish: [None] is "still running". *)
Definition lift_option {A} (o : option A) : M A :=
  fun w => match o with Some a => (Ok a, w) | None => (Hang, w) end.

Notation "'let*' x ':=' c 'in' k" := (bind c (fun x => k))
  (at level 10, x name, c at level 100, k at level 200).
Notation "'do*' c 'in' k" := (bind c (fun _ => k))
  (at level 10, c at level 100, k at level 200).

Definition console_log (m : jsstring) : M unit :=
  modify (fun w => set_console (console w ++ [(ConsoleLog, m)]) w).
Definition console_warn (m : jsstring) : M unit :=
  modify (fun w => set_console (console w ++ [(ConsoleWarn, m)]) w).
Definition console_error (m : jsstring) : M unit :=
  modify (fun w => set_console (console w ++ [(ConsoleError, m)]) w).

(** [new Date()]. *)
Definition new_Date : M Z := fun w => (Ok (now w), w).

(** [Utilities.sleep(ms)]: the clock moves on. *)
Definition Utilities_sleep (ms : Z) : M unit :=
  modify (fun w => set_now (now w + ms) w).

(** ** Constants *)

Module MessageConstants.
Definition WELCOME : jsstring :=
  js "こんにちは！「登録」と入力すると登録を開始できます。".
Definition ERROR : jsstring := js "エラーが発生しました。".
Definition HELP : jsstring := js "ヘルプメッセージです。".
Definition UNKNOWN_ACTION : jsstring := js "不明なアクションです。".
Definition ANALYSIS_CONTINUED : jsstring :=
  [10; 10]%N ++ js "(前のメッセージの続き)".
Definition DEFAULT_RESPONSE : jsstring := js "デフォルトの応答です。".
Definition REGISTRATION_START : jsstring :=
  js "登録を開始します。名前を教えてください。".
Definition INVALID_NAME : jsstring := js "名前は2文字以上で入力してください。".
Definition NAME_CONFIRMED : jsstring :=
  js "名前「{name}」を確認しました。年齢を教えてください。".
Definition INVALID_AGE : jsstring :=
  js "年齢は1から120の範囲で入力してください。".
Definition REGISTRATION_COMPLETED : jsstring :=
  js "登録が完了しました！" ++ [10; 10]%N ++ js "名前: {name}" ++ [10]%N
  ++ js "年齢: {age}".
End MessageConstants.

Module StatusConstants.
(** Modelled from the spec: [constants/statusConstants.ts] is not among the
    sources; the specification names the four conversation states INITIAL,
    WAITING_NAME, WAITING_AGE and REGISTERED, kept in the state column as
    text.  Only their being four different strings matters below. *)
Definition INITIAL : jsstring := js "INITIAL".
Definition WAITING_NAME : jsstring := js "WAITING_NAME".
Definition WAITING_AGE : jsstring := js "WAITING_AGE".
Definition REGISTERED : jsstring := js "REGISTERED".
End StatusConstants.

(** ** utils/messageFormatter.ts *)

Module MessageFormatter.

(** [while (result.includes(placeholder)) result = result.replace(placeholder, value)];
    [fuel] bounds the number of iterations, [None] means the loop is still
    running when it is used up. *)
Fixpoint replace_while (fuel : nat) (result placeholder value : jsstring)
  : option jsstring :=
  if includes result placeholder then
    match fuel with
    | O => None
    | S fuel' => replace_while fuel' (replace result placeholder value) placeholder value
    end
  else Some result.

(** [format(template, params)]; [params] lists the object's own keys in
    [Object.keys] order, each with its value already turned into a string. *)
Fixpoint format_keys (fuel : nat) (result : jsstring)
  (params : list (jsstring * jsstring)) : option jsstring :=
  match params with
  | [] => Some result
  | (key, value) :: params' =>
      let placeholder := js "{" ++ key ++ js "}" in
      match replace_while fuel result placeholder value with
      | Some result' => format_keys fuel result' params'
      | None => None
      end
  end.

Definition format (fuel : nat) (template : jsstring)
  (params : list (jsstring * jsstring)) : option jsstring :=
  format_keys fuel template params.

(** [truncate(text, maxLength, suffix = '...')], for an integral
    [maxLength]. *)
Definition truncate (text : jsstring) (maxLength : Z) (suffix : option jsstring)
  : jsstring :=
  let suffix := default (js "...") suffix in
  if Z.of_nat (length text) <=? maxLength then text
  else substring0 text (maxLength - Z.of_nat (length suffix)) ++ suffix.

End MessageFormatter.

(** ** services/spreadsheetService.ts *)

(** [Array.prototype.slice(0, end)]. *)
Definition slice0 {A} (l : list A) (end_ : Z) : list A :=
  let len := Z.of_nat (length l) in
  let final := if end_ <? 0 then Z.max (len + end_) 0 else Z.min end_ len in
  take (Z.to_nat final) l.

(** [Array.prototype.sort(compareFn)]: a stable sort; [a] is placed before
    [b] unless [compareFn a b > 0]. *)
Fixpoint sort_insert {A} (compareFn : A -> A -> Z) (a : A) (l : list A) : list A :=
  match l with
  | [] => [a]
  | b :: l' =>
      if compareFn a b <=? 0 then a :: b :: l'
      else b :: sort_insert compareFn a l'
  end.

Definition Array_sort {A} (compareFn : A -> A -> Z) (l : list A) : list A :=
  foldr (sort_insert compareFn) [] l.

Module SpreadsheetService.

(** [getSpreadsheet()]. *)
Definition getSpreadsheet : M unit :=
  let* w := get in
  match spreadsheetId w with
  | None => throw (js "Spreadsheet ID is not set")
  | Some _ =>
      match openByIdError w with
      | Some e => throw e
      | None => ret tt
      end
  end.

(** [ensureSheetExists(ss, config)]: a missing sheet is created with its
    header row, so it starts with no data rows. *)
Definition ensureSheetExists {R} (name : jsstring)
  (sheet : World -> option (list R))
  (set_sheet : option (list R) -> World -> World) : M unit :=
  let* w := get in
  match sheet w with
  | Some _ => ret tt
  | None =>
      do* console_log (name ++ js " sheet not found, creating a new one...") in
      do* modify (set_sheet (Some [])) in
      console_log (name ++ js " sheet created successfully")
  end.

(** [findUserRow(sheet, userId)]: [values] is the header row followed by the
    data rows, so the scan starts at index 1 and the data row at index [i] of
    [values] is sheet row [i + 1].  0 means "not found". *)
Fixpoint findUserRow_from (i : Z) (rows : list UserRow) (userId : jsstring) : Z :=
  match rows with
  | [] => 0
  | r :: rows' =>
      if decide (ur_userId r = userId) then i + 1
      else findUserRow_from (i + 1) rows' userId
  end.

Definition findUserRow (rows : list UserRow) (userId : jsstring) : Z :=
  findUserRow_from 1 rows userId.

(** The catch blocks of the service: log to the console and raise again. *)
Definition rethrow {A} (what : jsstring) (c : M A) : M A :=
  try_catch c (fun e => do* console_error (what ++ e) in throw e).

(** "Add updatedAt if it is not included": [if (userData.length <= 5)
    userData.push(new Date())]. *)
Definition push_updatedAt_if_missing (userData : UserRow) : M UserRow :=
  if UserRow_length userData <=? 5 then
    let* d := new_Date in
    ret (mkUserRow (ur_userId userData) (ur_displayName userData)
           (ur_state userData) (ur_data userData) (ur_createdAt userData)
           (Some d))
  else ret userData.

(** [saveUserData(userData)].  Sheet row [n] is data row [n - 2]. *)
Definition saveUserData (userData : UserRow) : M unit :=
  rethrow (js "Error saving user data: ")
    (do* getSpreadsheet in
     do* ensureSheetExists (js "Users") sheetUsers set_sheetUsers in
     let* w := get in
     let userId := ur_userId userData in
     let existingRow := findUserRow (users w) userId in
     if 0 <? existingRow then
       let* userData := push_updatedAt_if_missing userData in
       modify (fun w =>
         set_sheetUsers
           (Some (<[Z.to_nat (existingRow - 2) := userData]> (users w))) w)
     else
       let* userData := push_updatedAt_if_missing userData in
       modify (fun w => set_sheetUsers (Some (users w ++ [userData])) w)).

(** [getUserDataByUserId(userId)].  The row is handed on as it is stored;
    the values the caller holds are [getValues_row] of it, a cell written as
    [null] being read as [''].  The one caller, [User.findByUserId], tests
    the sixth value for truthiness only and passes the display name on as
    it is, so that a [None] read from a row stands for ['']. *)
Definition getUserDataByUserId (userId : jsstring) : M (option UserRow) :=
  rethrow (js "Error getting user data: ")
    (do* getSpreadsheet in
     do* ensureSheetExists (js "Users") sheetUsers set_sheetUsers in
     let* w := get in
     let row := findUserRow (users w) userId in
     if 0 <? row then ret (users w !! Z.to_nat (row - 2))
     else ret None).

(** [saveMessageData(messageData)]. *)
Definition saveMessageData (messageData : MessageRow) : M unit :=
  rethrow (js "Error saving message data: ")
    (do* getSpreadsheet in
     do* ensureSheetExists (js "Messages") sheetMessages set_sheetMessages in
     modify (fun w => set_sheetMessages (Some (messages w ++ [messageData])) w)).

(** [getMessagesByUserId(userId, limit = 10)]. *)
Definition getMessagesByUserId (userId : jsstring) (limit : option Z)
  : M (list MessageRow) :=
  let limit := default 10 limit in
  rethrow (js "Error getting messages: ")
    (do* getSpreadsheet in
     do* ensureSheetExists (js "Messages") sheetMessages set_sheetMessages in
     let* w := get in
     let values := messages w in
     let messages := filter (fun row => mr_userId row = userId) values in
     let messages :=
       Array_sort (fun a b => mr_timestamp b - mr_timestamp a) messages in
     ret (slice0 messages limit)).

(** [saveLog(level, message)]: nothing is raised from here. *)
Definition saveLog (level message : jsstring) : M unit :=
  try_catch
    (let* w := get in
     match spreadsheetId w with
     | None => ret tt
     | Some _ =>
         do* getSpreadsheet in
         do* ensureSheetExists (js "Logs") sheetLogs set_sheetLogs in
         let* d := new_Date in
         modify (fun w => set_sheetLogs (Some (logs w ++ [mkLogRow d level message])) w)
     end)
    (fun e => console_error (js "Failed to save log to sheet: " ++ e)).

(** [initializeSheets()]: the three configured sheets, in the order of
    [sheetConfigs]. *)
Definition initializeSheets : M unit :=
  rethrow (js "Initialize sheets error: ")
    (do* getSpreadsheet in
     do* ensureSheetExists (js "Users") sheetUsers set_sheetUsers in
     do* ensureSheetExists (js "Messages") sheetMessages set_sheetMessages in
     ensureSheetExists (js "Logs") sheetLogs set_sheetLogs).

End SpreadsheetService.

(** ** utils/logger.ts *)

Module Logger.

Definition saveToSheet (level message : jsstring) : M unit :=
  try_catch
    (let* w := get in
     if loggerInitialized w then SpreadsheetService.saveLog level message
     else ret tt)
    (fun e => console_error (js "Failed to save log to sheet: Error: " ++ e)).

Definition log (message : jsstring) : M unit :=
  do* console_log (js "[INFO] " ++ message) in
  saveToSheet (js "INFO") message.

Definition debug (message : jsstring) : M unit :=
  let* w := get in
  if loggerDebugMode w then
    do* console_log (js "[DEBUG] " ++ message) in
    saveToSheet (js "DEBUG") message
  else ret tt.

Definition warn (message : jsstring) : M unit :=
  do* console_warn (js "[WARN] " ++ message) in
  saveToSheet (js "WARN") message.

Definition error (message : jsstring) : M unit :=
  do* console_error (js "[ERROR] " ++ message) in
  saveToSheet (js "ERROR") message.

(** [initialize(isDebugMode = false)]. *)
Definition initialize (isDebugMode : option bool) : M unit :=
  modify (set_logger true (default false isDebugMode)).

(** [setDebugMode(isDebug)]. *)
Definition setDebugMode (isDebug : bool) : M unit :=
  modify (fun w => set_logger (loggerInitialized w) isDebug w).

End Logger.

(** ** models/user.ts *)

Module User.

Record t := mk {
  userId : jsstring;
  displayName : option jsstring;
  state : jsstring;
  data : JsObject;
  createdAt : Z;
  updatedAt : option Z
}.

Definition set_state (v : jsstring) (u : t) : t :=
  mk (userId u) (displayName u) v (data u) (createdAt u) (updatedAt u).
Definition set_data (v : JsObject) (u : t) : t :=
  mk (userId u) (displayName u) (state u) v (createdAt u) (updatedAt u).
Definition set_createdAt (v : Z) (u : t) : t :=
  mk (userId u) (displayName u) (state u) (data u) v (updatedAt u).
Definition set_updatedAt (v : option Z) (u : t) : t :=
  mk (userId u) (displayName u) (state u) (data u) (createdAt u) v.

(** [new User(userId, displayName = null)]. *)
Definition new (userId : jsstring) (displayName : option jsstring) : M t :=
  let* d := new_Date in
  ret (mk userId displayName StatusConstants.INITIAL ∅ d None).

Definition to_row (this : t) : UserRow :=
  mkUserRow (userId this) (displayName this) (state this) (data this)
    (createdAt this) (updatedAt this).

(** [save()]: a failure of the sheet is logged and reported as [false]. *)
Definition save (this : t) : M bool :=
  try_catch
    (do* SpreadsheetService.saveUserData (to_row this) in
     ret true)
    (fun e =>
       do* Logger.error (js "User save error: " ++ e) in
       ret false).

(** [User.findByUserId(userId)].  The display name is passed on as read:
    for an empty cell the object holds [''], for which the model keeps the
    cell's [None]; the field is not inspected anywhere, only written back to
    its cell by [save]. *)
Definition findByUserId (userId : jsstring) : M (option t) :=
  try_catch
    (let* userData := SpreadsheetService.getUserDataByUserId userId in
     match userData with
     | None => ret None
     | Some userData =>
         let* user := new (ur_userId userData) (ur_displayName userData) in
         let user := set_state (ur_state userData) user in
         let user := set_data (ur_data userData) user in
         let user := set_createdAt (ur_createdAt userData) user in
         let user :=
           match ur_updatedAt userData with
           | Some d => set_updatedAt (Some d) user
           | None => user
           end in
         ret (Some user)
     end)
    (fun e =>
       do* Logger.error (js "Find user error: " ++ e) in
       ret None).

(** [updateState(newState)] and [updateData(newData)] change the object and
    save it; the object after the call is returned next to the result. *)
Definition updateState (newState : jsstring) (this : t) : M (bool * t) :=
  let this := set_state newState this in
  let* d := new_Date in
  let this := set_updatedAt (Some d) this in
  let* saved := save this in
  ret (saved, this).

Definition updateData (newData : JsObject) (this : t) : M (bool * t) :=
  let this := set_data (newData ∪ data this) this in
  let* d := new_Date in
  let this := set_updatedAt (Some d) this in
  let* saved := save this in
  ret (saved, this).

End User.

(** ** models/message.ts *)

Module Message.

Record t := mk {
  userId : jsstring;
  type : jsstring;
  content : JsObject;
  timestamp : Z
}.

Definition new (userId type : jsstring) (content : JsObject) : M t :=
  let* d := new_Date in
  ret (mk userId type content d).

Definition save (this : t) : M bool :=
  try_catch
    (do* SpreadsheetService.saveMessageData
           (mkMessageRow (userId this) (type this) (content this) (timestamp this)) in
     ret true)
    (fun e =>
       do* Logger.error (js "Message save error: " ++ e) in
       ret false).

(** The [Message] built from a row by [getHistoryByUserId]: the content
    cell is parsed back into the object it was written from (see
    [JsObject]) and the timestamp cell is the stored date. *)
Definition of_row (data : MessageRow) : t :=
  mk (mr_userId data) (mr_type data) (mr_content data) (mr_timestamp data).

(** [Message.getHistoryByUserId(userId, limit = 10)]. *)
Definition getHistoryByUserId (userId : jsstring) (limit : option Z)
  : M (list t) :=
  try_catch
    (let* messagesData :=
       SpreadsheetService.getMessagesByUserId userId (Some (default 10 limit)) in
     ret (of_row <$> messagesData))
    (fun e =>
       do* Logger.error (js "Get message history error: " ++ e) in
       ret []).

End Message.

(** ** services/lineService.ts *)

Module LineService.

Definition MAX_MESSAGE_LENGTH : nat := 4000.

(** [post(url, payload)]: the request is handed to [UrlFetchApp.fetch]; an
    answer is logged and returned whatever its code, a raised error is logged
    and turned into code 500. *)
Definition post (r : Request) : M (Z * jsstring) :=
  try_catch
    (let* w := get in
     do* modify (set_fetched (fetched w ++ [r])) in
     match UrlFetch w (length (fetched w)) r with
     | FetchRaises m => throw m
     | Response responseCode responseBody =>
         do* Logger.log (js "LINE API response code: " ++ Z_to_js responseCode) in
         do* (if 400 <=? responseCode
              then Logger.error (js "LINE API error: " ++ responseBody)
              else ret tt) in
         ret (responseCode, responseBody)
     end)
    (fun e =>
       do* Logger.error (js "Error in post: " ++ e) in
       ret (500, e)).

Definition replyText (replyToken text : jsstring) : M (Z * jsstring) :=
  post (Reply replyToken text).

Definition pushText (userId text : jsstring) : M (Z * jsstring) :=
  post (Push userId text).

Definition sendLoadingAnimation (userId : jsstring) (loadingSeconds : option Z)
  : M unit :=
  do* post (LoadingStart userId (default 20 loadingSeconds)) in
  ret tt.

(** The slice taken by one turn of the loop of [sendLongMessage]. *)
Definition currentPart (remainingText : jsstring) : jsstring :=
  if (MAX_MESSAGE_LENGTH <? length remainingText)%nat
  then take MAX_MESSAGE_LENGTH remainingText
  else remainingText.

(** [while (remainingText.length > 0) { sleep; push; cut; messageCount++ }],
    returning the final [messageCount]. *)
Equations push_loop (userId remainingText : jsstring) (messageCount : Z)
  (w : World) : outcome Z * World by wf (length remainingText) lt :=
push_loop userId [] messageCount w := (Ok messageCount, w);
push_loop userId (c :: rest) messageCount w
  with (do* Utilities_sleep 500 in
        pushText userId
          (MessageConstants.ANALYSIS_CONTINUED ++ currentPart (c :: rest))) w => {
  | (Ok _, w') :=
      push_loop userId (drop (length (currentPart (c :: rest))) (c :: rest))
        (messageCount + 1) w';
  | (Throw e, w') := (Throw e, w');
  | (Hang, w') := (Hang, w') }.
Next Obligation.
  rewrite length_drop. unfold currentPart.
  destruct (Nat.ltb_spec MAX_MESSAGE_LENGTH (length (c :: rest))).
  - rewrite length_take. unfold MAX_MESSAGE_LENGTH in *. simpl length in *. lia.
  - simpl length. lia.
Qed.

(** [sendLongMessage(userId, replyToken, text)]. *)
Definition sendLongMessage (userId replyToken text : jsstring) : M bool :=
  try_catch
    (if (length text <=? MAX_MESSAGE_LENGTH)%nat then
       do* replyText replyToken text in
       ret true
     else
       let firstPart := take MAX_MESSAGE_LENGTH text in
       do* replyText replyToken firstPart in
       let remainingText := drop MAX_MESSAGE_LENGTH text in
       let* messageCount := push_loop userId remainingText 1 in
       do* Logger.log
             (js "Sent long message in " ++ Z_to_js messageCount ++ js " parts") in
       ret true)
    (fun e =>
       do* Logger.error (js "Error in sendLongMessage: " ++ e) in
       ret false).

End LineService.

(** ** handlers/textHandler.ts *)

Module TextHandler.

(** [handleInitialState(text, user)]. *)
Definition handleInitialState (text : jsstring) (user : User.t)
  : M (jsstring * User.t) :=
  if decide (text = js "登録") then
    let* r := User.updateState StatusConstants.WAITING_NAME user in
    ret (MessageConstants.REGISTRATION_START, r.2)
  else if decide (text = js "ヘルプ") then
    ret (MessageConstants.HELP, user)
  else
    ret (MessageConstants.WELCOME, user).

(** [handleWaitingNameState(text, user)]. *)
Definition handleWaitingNameState (fuel : nat) (text : jsstring) (user : User.t)
  : M (jsstring * User.t) :=
  if (length (trim text) <? 2)%nat then
    ret (MessageConstants.INVALID_NAME, user)
  else
    let* r := User.updateData {[ js "name" := JStr text ]} user in
    let* r := User.updateState StatusConstants.WAITING_AGE r.2 in
    let* response :=
      lift_option
        (MessageFormatter.format fuel MessageConstants.NAME_CONFIRMED
           [(js "name", text)]) in
    ret (response, r.2).

(** [handleWaitingAgeState(text, user)]. *)
Definition handleWaitingAgeState (fuel : nat) (text : jsstring) (user : User.t)
  : M (jsstring * User.t) :=
  match parseInt text with
  | None => ret (MessageConstants.INVALID_AGE, user)
  | Some age =>
      if (age <? 1) || (120 <? age) then
        ret (MessageConstants.INVALID_AGE, user)
      else
        let* r := User.updateData {[ js "age" := JNum age ]} user in
        let* r := User.updateState StatusConstants.REGISTERED r.2 in
        let user := r.2 in
        let* response :=
          lift_option
            (MessageFormatter.format fuel MessageConstants.REGISTRATION_COMPLETED
               [(js "name", or_empty (User.data user !! js "name"));
                (js "age", Z_to_js age)]) in
        ret (response, user)
  end.

(** [handleRegisteredState(text, user)]. *)
Definition handleRegisteredState (fuel : nat) (text : jsstring) (user : User.t)
  : M (jsstring * User.t) :=
  if decide (text = js "ヘルプ") then
    ret (MessageConstants.HELP, user)
  else
    let* response :=
      lift_option
        (MessageFormatter.format fuel MessageConstants.DEFAULT_RESPONSE
           [(js "name", or_empty (User.data user !! js "name"))]) in
    ret (response, user).

(** [switch (user.state)]. *)
Definition respond (fuel : nat) (text : jsstring) (user : User.t)
  : M (jsstring * User.t) :=
  if decide (User.state user = StatusConstants.INITIAL) then
    handleInitialState text user
  else if decide (User.state user = StatusConstants.WAITING_NAME) then
    handleWaitingNameState fuel text user
  else if decide (User.state user = StatusConstants.WAITING_AGE) then
    handleWaitingAgeState fuel text user
  else if decide (User.state user = StatusConstants.REGISTERED) then
    handleRegisteredState fuel text user
  else
    ret (MessageConstants.ERROR, user).

(** The text of the event, as [event.message?.text]. *)
Definition event_text (event : LineEvent) : option jsstring :=
  event_message event ≫= message_text.

(** "Get the user or create a new one". *)
Definition find_or_create (userId : jsstring) : M User.t :=
  let* user := User.findByUserId userId in
  match user with
  | Some user => ret user
  | None =>
      let* user := User.new userId None in
      do* User.save user in
      ret user
  end.

(** [handle(event)]; [fuel] bounds the loops of [MessageFormatter.format]. *)
Definition handle (fuel : nat) (event : LineEvent) : M unit :=
  try_catch
    (do* Logger.log
           (js "TextHandler handling message: "
            ++ default (js "undefined") (event_text event)) in
     let userId := source_userId (event_source event) in
     let text := default [] (event_text event) in
     if negb (truthy userId) || negb (truthy (Some text)) then ret tt
     else
       let userId := default [] userId in
       let* message :=
         Message.new userId (js "text") {[ js "text" := JStr text ]} in
       do* Message.save message in
       let* user := find_or_create userId in
       let* r := respond fuel text user in
       do* LineService.replyText (default [] (event_replyToken event)) r.1 in
       ret tt)
    (fun e =>
       do* Logger.error (js "TextHandler error: " ++ e) in
       if truthy (event_replyToken event) then
         do* LineService.replyText (default [] (event_replyToken event))
               MessageConstants.ERROR in
         ret tt
       else ret tt).

End TextHandler.

(** ** handlers/defaultHandler.ts *)

(** The text of [event.type]. *)
Definition event_type_name (t : EventType) : jsstring :=
  match t with
  | ev_message => js "message"
  | ev_follow => js "follow"
  | ev_unfollow => js "unfollow"
  | ev_join => js "join"
  | ev_leave => js "leave"
  | ev_memberJoined => js "memberJoined"
  | ev_memberLeft => js "memberLeft"
  | ev_postback => js "postback"
  | ev_beacon => js "beacon"
  | ev_accountLink => js "accountLink"
  | ev_things => js "things"
  end.

Module DefaultHandler.

(** [handle(event)]. *)
Definition handle (event : LineEvent) : M unit :=
  try_catch
    (do* Logger.log
           (js "DefaultHandler handling event type: "
            ++ event_type_name (event_type event)) in
     if truthy (event_replyToken event) then
       Logger.log
         (js "DefaultHandler replying to event with replyToken: "
          ++ default [] (event_replyToken event))
     else ret tt)
    (fun e => Logger.error (js "DefaultHandler error: " ++ e)).

End DefaultHandler.

(** ** handlers/imageHandler.ts *)

Module ImageHandler.

(** [handle(event)]. *)
Definition handle (event : LineEvent) : M unit :=
  try_catch
    (do* Logger.log (js "ImageHandler handling image message") in
     let userId := source_userId (event_source event) in
     let messageId := message_id <$> event_message event in
     if negb (truthy userId) || negb (truthy messageId) then
       do* Logger.error (js "Missing userId or messageId") in
       ret tt
     else
       let userId := default [] userId in
       let messageId := default [] messageId in
       let* message :=
         Message.new userId (js "image") {[ js "messageId" := JStr messageId ]} in
       do* Message.save message in
       LineService.sendLoadingAnimation userId None)
    (fun e =>
       do* Logger.error (js "ImageHandler error: " ++ e) in
       if truthy (event_replyToken event) then
         do* LineService.replyText (default [] (event_replyToken event))
               MessageConstants.ERROR in
         ret tt
       else ret tt).

End ImageHandler.

(** ** handlers/postbackHandler.ts *)

Module PostbackHandler.

(** [result[key] = value] on an object literal: the key [__proto__] names
    the prototype, and assigning a string to it adds no property. *)
Definition assign (result : gmap jsstring jsstring) (key value : jsstring)
  : gmap jsstring jsstring :=
  if decide (key = js "__proto__") then result else <[key := value]> result.

(** The body of the [forEach] of [parsePostbackData]: the new [result], or
    the message of the URIError raised by [decodeURIComponent]. *)
Definition parse_part (part : jsstring) (result : gmap jsstring jsstring)
  : gmap jsstring jsstring + jsstring :=
  let pieces := split_on 61%N part in
  let key := pieces !! 0%nat in
  let value := pieces !! 1%nat in
  if truthy key && truthy value then
    match decodeURIComponent (default [] key) with
    | None => inr (js "URI malformed")
    | Some k =>
        match decodeURIComponent (default [] value) with
        | None => inr (js "URI malformed")
        | Some v => inl (assign result k v)
        end
    end
  else inl result.

(** [data.split('&').forEach(...)]: the object as it is when the loop ends,
    and the error that ended it early if there is one. *)
Fixpoint forEach_parts (parts : list jsstring) (result : gmap jsstring jsstring)
  : gmap jsstring jsstring * option jsstring :=
  match parts with
  | [] => (result, None)
  | part :: parts' =>
      match parse_part part result with
      | inl result' => forEach_parts parts' result'
      | inr e => (result, Some e)
      end
  end.

(** [parsePostbackData(data)]. *)
Definition parsePostbackData (data : jsstring) : M (gmap jsstring jsstring) :=
  let '(result, raised) := forEach_parts (split_on 38%N data) ∅ in
  match raised with
  | None => ret result
  | Some e =>
      do* Logger.error (js "Parse postback data error: " ++ e) in
      ret result
  end.

End PostbackHandler.

(** ** factories/handlerFactory.ts *)

Module HandlerFactory.

Inductive Handler := TextHandler | ImageHandler | PostbackHandler | DefaultHandler.

(** [createHandler(event)]. *)
Definition createHandler (event : LineEvent) : Handler :=
  if decide (event_type event = ev_message) then
    match message_type <$> event_message event with
    | Some msg_text => TextHandler
    | Some msg_image => ImageHandler
    | _ => DefaultHandler
    end
  else if decide (event_type event = ev_postback) then
    PostbackHandler
  else
    DefaultHandler.

End HandlerFactory.

(** * Concrete inputs *)

(** A running deployment: spreadsheet configured, logger initialised, no
    sheet created yet, and a transport that answers 200 to everything. *)
Definition fresh_world : World :=
  mkWorld (Some (js "sheet-1")) None None None None true false [] 1000
    (fun _ _ => Response 200 (js "{}")) [].

(** The same deployment with the platform unreachable: every fetch raises. *)
Definition transport_down (w : World) : World :=
  set_UrlFetch (fun _ _ => FetchRaises (js "Timeout")) w.

(** A text of 9000 code units. *)
Definition text_9000 : jsstring := replicate (Z.to_nat 9000) 97%N.

(** Message rows of user U1 at times 10 < 20 < 30, and one of user U2. *)
Definition msg_t1 : MessageRow :=
  mkMessageRow (js "U1") (js "text") {[ js "text" := JStr (js "one") ]} 10.
Definition msg_t2 : MessageRow :=
  mkMessageRow (js "U1") (js "text") {[ js "text" := JStr (js "two") ]} 20.
Definition msg_t3 : MessageRow :=
  mkMessageRow (js "U1") (js "text") {[ js "text" := JStr (js "three") ]} 30.
Definition msg_other : MessageRow :=
  mkMessageRow (js "U2") (js "text") {[ js "text" := JStr (js "hi") ]} 25.

(** A store holding them out of order. *)
Definition history_world : World :=
  set_sheetMessages (Some [msg_t2; msg_other; msg_t3; msg_t1]) fresh_world.

(** A stored user U1, registered at time 100 and updated at time 500, and
    the row of a freshly constructed [User] for the same id, whose
    [updatedAt] is still [null]. *)
Definition stored_U1 : UserRow :=
  mkUserRow (js "U1") None StatusConstants.WAITING_NAME ∅ 100 (Some 500).
Definition new_U1 : UserRow :=
  mkUserRow (js "U1") None StatusConstants.INITIAL ∅ 900 None.
Definition world_with_U1 : World :=
  set_sheetUsers (Some [stored_U1]) fresh_world.

(** Text-message events of user U1 and of a source without a user id. *)
Definition text_event (userId : option jsstring) (replyToken : option jsstring)
  (text : jsstring) : LineEvent :=
  mkLineEvent ev_message replyToken (mkLineSource src_user userId None None) 0
    (Some (mkLineMessage (js "m1") msg_text (Some text))) None.

Definition event_without_user : LineEvent :=
  text_event None (Some (js "token")) (js "hello").

(** The deployment before [initialize] managed to set the spreadsheet id:
    every sheet access raises "Spreadsheet ID is not set". *)
Definition store_down_world : World :=
  mkWorld None None None None None false false [] 1000
    (fun _ _ => Response 200 (js "{}")) [].

(** User U1 greeting the bot, with a reply token. *)
Definition hello_event : LineEvent :=
  text_event (Some (js "U1")) (Some (js "token")) (js "hello").

Definition user_U1 : User.t :=
  User.mk (js "U1") None StatusConstants.INITIAL ∅ 1000 None.

Definition hello_message : Message.t :=
  Message.mk (js "U1") (js "text") {[ js "text" := JStr (js "hello") ]} 1000.

(** User U1 half-way through registration: the name "Al" is stored and the
    age is awaited. *)
Definition awaiting_age_U1 : UserRow :=
  mkUserRow (js "U1") None StatusConstants.WAITING_AGE
    {[ js "name" := JStr (js "Al") ]} 100 (Some 500).
Definition world_awaiting_age : World :=
  set_sheetUsers (Some [awaiting_age_U1]) fresh_world.

Definition U1_says (text : string) : LineEvent :=
  text_event (Some (js "U1")) (Some (js "token")) (js text).

(** The row of U1 after the text "{name}" was taken as the name, at the
    clock of [fresh_world]. *)
Definition placeholder_named_U1 : UserRow :=
  mkUserRow (js "U1") None StatusConstants.WAITING_AGE
    ({[ js "name" := JStr (js "{name}") ]} ∪ ∅) 100 (Some 1000).

(** The row of U1 once registered with age 30. *)
Definition registered_U1 : UserRow :=
  mkUserRow (js "U1") None StatusConstants.REGISTERED
    ({[ js "age" := JNum 30 ]} ∪ {[ js "name" := JStr (js "Al") ]}) 100
    (Some 1000).

(** The scenario of the specification: a new user U1 registers as "Al",
    first answers the age question with "thirty", then with "30". *)
Definition after (text : string) (w : World) : World :=
  (TextHandler.handle 10 (U1_says text) w).2.

Definition scenario_1 : World := after "登録" fresh_world.
Definition scenario_2 : World := after "Al" scenario_1.
Definition scenario_3 : World := after "thirty" scenario_2.
Definition scenario_4 : World := after "30" scenario_3.

Definition last_reply (w : World) : option jsstring :=
  match last (fetched w) with
  | Some (Reply _ text) => Some text
  | _ => None
  end.

Definition last_reply_includes (w : World) (part : string) : bool :=
  match last_reply w with
  | Some text => includes text (js part)
  | None => false
  end.

(** A stored user whose state column was edited by hand. *)
Definition archived_U1 : UserRow :=
  mkUserRow (js "U1") None (js "ARCHIVED") ∅ 100 (Some 500).

(** A second user, stored before U1. *)
Definition stored_U2 : UserRow :=
  mkUserRow (js "U2") None StatusConstants.REGISTERED
    {[ js "name" := JStr (js "Bo") ]} 50 (Some 60).
Definition two_users_world : World :=
  set_sheetUsers (Some [stored_U2; stored_U1]) fresh_world.

Definition archived_world : World :=
  set_sheetUsers (Some [archived_U1]) fresh_world.

(** An image message of user U1, and the same without a message. *)
Definition image_event : LineEvent :=
  mkLineEvent ev_message (Some (js "token"))
    (mkLineSource src_user (Some (js "U1")) None None) 0
    (Some (mkLineMessage (js "m7") msg_image None)) None.

Definition event_without_message : LineEvent :=
  mkLineEvent ev_message (Some (js "token"))
    (mkLineSource src_user (Some (js "U1")) None None) 0 None None.

(** The deployment with the spreadsheet deleted: opening it raises. *)
Definition sheet_gone_world : World :=
  mkWorld (Some (js "sheet-1")) (Some (js "Document is missing")) None None None
    true false [] 1000 (fun _ _ => Response 200 (js "{}")) [].

(** The deployment before the logger is initialised. *)
Definition uninitialised_world : World :=
  mkWorld (Some (js "sheet-1")) None None None None false false [] 1000
    (fun _ _ => Response 200 (js "{}")) [].

(** A message of U1 written later than every stored one. *)
Definition msg_t4 : Message.t :=
  Message.mk (js "U1") (js "text") {[ js "text" := JStr (js "four") ]} 40.

(** Stores holding U1 before the registration starts and after it ended. *)
Definition world_initial_U1 : World :=
  set_sheetUsers (Some [new_U1]) fresh_world.
Definition world_registered_U1 : World :=
  set_sheetUsers (Some [registered_U1]) fresh_world.

(** * Vocabulary of the statements *)

(** The console and the Logs sheet are only ever added to. *)
Definition grows (w w' : World) : Prop :=
  console w `prefix_of` console w' /\ logs w `prefix_of` logs w'.

(** [log_only w w']: [w'] differs from [w] at most in the console and in the
    Logs sheet. *)
Definition log_only (w w' : World) : Prop :=
  spreadsheetId w' = spreadsheetId w /\ openByIdError w' = openByIdError w
  /\ sheetUsers w' = sheetUsers w /\ sheetMessages w' = sheetMessages w
  /\ loggerInitialized w' = loggerInitialized w
  /\ loggerDebugMode w' = loggerDebugMode w
  /\ now w' = now w /\ UrlFetch w' = UrlFetch w /\ fetched w' = fetched w
  /\ grows w w'.

(** [sent_only w r w']: [w'] is [w] with the one request [r] handed to the
    transport, plus log entries. *)
Definition sent_only (w : World) (r : Request) (w' : World) : Prop :=
  spreadsheetId w' = spreadsheetId w /\ openByIdError w' = openByIdError w
  /\ sheetUsers w' = sheetUsers w /\ sheetMessages w' = sheetMessages w
  /\ loggerInitialized w' = loggerInitialized w
  /\ loggerDebugMode w' = loggerDebugMode w
  /\ now w' = now w /\ UrlFetch w' = UrlFetch w
  /\ fetched w' = fetched w ++ [r]
  /\ grows w w'.

(** The message kind of an event, as [event.message?.type]. *)
Definition event_message_type (event : LineEvent) : option MessageType :=
  message_type <$> event_message event.

(** The slices of at most [MAX_MESSAGE_LENGTH] code units into which a text
    is cut, in order: "repeatedly take up to 4000 units from the
    remainder". *)
Equations slices (l : jsstring) : list jsstring by wf (length l) lt :=
slices [] := [];
slices (c :: rest) :=
  take LineService.MAX_MESSAGE_LENGTH (c :: rest)
  :: slices (drop LineService.MAX_MESSAGE_LENGTH (c :: rest)).
Next Obligation.
  rewrite length_drop. unfold LineService.MAX_MESSAGE_LENGTH. simpl length. lia.
Qed.

(** The text carried by a request, with the continuation marker taken off a
    push. *)
Definition sent_slice (r : Request) : jsstring :=
  match r with
  | Reply _ text => text
  | Push _ text => drop (length MessageConstants.ANALYSIS_CONTINUED) text
  | LoadingStart _ _ => []
  end.

Definition continued_push (userId part : jsstring) : Request :=
  Push userId (MessageConstants.ANALYSIS_CONTINUED ++ part).

(** The requests [sendLongMessage] hands to the transport: one reply with the
    first slice, then one marked push for each slice of the rest. *)
Definition chunk_requests (userId replyToken text : jsstring) : list Request :=
  Reply replyToken (take LineService.MAX_MESSAGE_LENGTH text)
  :: (continued_push userId <$> slices (drop LineService.MAX_MESSAGE_LENGTH text)).

(** The spreadsheet can be opened: its id is set and the medium answers. *)
Definition store_ok (w : World) : Prop :=
  is_Some (spreadsheetId w) /\ openByIdError w = None.

(** [w'] is [w] except that sheets may have been created (empty) and lines
    written to the console. *)
Definition same_rows (w w' : World) : Prop :=
  spreadsheetId w' = spreadsheetId w /\ openByIdError w' = openByIdError w
  /\ users w' = users w /\ messages w' = messages w /\ logs w' = logs w
  /\ loggerInitialized w' = loggerInitialized w
  /\ loggerDebugMode w' = loggerDebugMode w
  /\ now w' = now w /\ UrlFetch w' = UrlFetch w /\ fetched w' = fetched w
  /\ console w `prefix_of` console w'.

Definition newest_first (a b : MessageRow) : Z := mr_timestamp b - mr_timestamp a.

Definition not_older (a b : MessageRow) : Prop := mr_timestamp b <= mr_timestamp a.

Definition has_id (userId : jsstring) (r : UserRow) : Prop := ur_userId r = userId.

#[global] Instance has_id_dec userId r : Decision (has_id userId r).
Proof. unfold has_id. apply _. Defined.

(** The rows after [saveUserData userData]. *)
Definition upserted (userData : UserRow) (rows : list UserRow) : list UserRow :=
  match list_find (has_id (ur_userId userData)) rows with
  | Some (k, _) => <[k := userData]> rows
  | None => rows ++ [userData]
  end.

(** [step w w' us ms fs]: [w'] has the configuration and the clock of [w],
    user rows [us], message rows [ms] and sent requests [fs]; the console and
    the Logs sheet are left open.  [quiet w w'] says that nothing but the
    console and the Logs sheet changed. *)
Definition step (w w' : World) (us : list UserRow) (ms : list MessageRow)
  (fs : list Request) : Prop :=
  spreadsheetId w' = spreadsheetId w /\ openByIdError w' = openByIdError w
  /\ loggerInitialized w' = loggerInitialized w
  /\ loggerDebugMode w' = loggerDebugMode w /\ UrlFetch w' = UrlFetch w
  /\ now w' = now w
  /\ users w' = us /\ messages w' = ms /\ fetched w' = fs
  /\ grows w w'.

Definition quiet (w w' : World) : Prop :=
  step w w' (users w) (messages w) (fetched w).

#[global] Instance store_ok_dec w : Decision (store_ok w).
Proof.
  unfold store_ok. destruct (spreadsheetId w), (openByIdError w);
    first [left; split; [eexists; reflexivity|reflexivity]
          |right; intros [[? ?] ?]; congruence].
Defined.

(** The wording of C2 on overwrites: when a row with the user's id exists,
    the record found after the upsert has its updated-timestamp set. *)
Definition overwrite_sets_updatedAt (userData : UserRow) (w : World) : Prop :=
  is_Some (list_find (has_id (ur_userId userData)) (users w)) ->
  exists r,
    (SpreadsheetService.getUserDataByUserId (ur_userId userData)
       (SpreadsheetService.saveUserData userData w).2).1 = Ok (Some r)
    /\ is_Some (ur_updatedAt r).

Definition Message_row (m : Message.t) : MessageRow :=
  mkMessageRow (Message.userId m) (Message.type m) (Message.content m)
    (Message.timestamp m).

(** The [User] object [findByUserId] builds from a row. *)
Definition User_of_row (r : UserRow) : User.t :=
  User.mk (ur_userId r) (ur_displayName r) (ur_state r) (ur_data r)
    (ur_createdAt r) (ur_updatedAt r).

(** The rows held after an attempt to write one: the write takes place when
    the spreadsheet is available and not otherwise. *)
Definition saved_users (w : World) (row : UserRow) : list UserRow :=
  if decide (store_ok w) then upserted row (users w) else users w.

Definition saved_messages (w : World) (row : MessageRow) : list MessageRow :=
  if decide (store_ok w) then messages w ++ [row] else messages w.

(** What [findByUserId] answers: the first row with the id when the
    spreadsheet is available, [null] otherwise. *)
Definition found_user (w : World) (userId : jsstring) : option User.t :=
  if decide (store_ok w)
  then User_of_row <$> (snd <$> list_find (has_id userId) (users w))
  else None.

(** The object after [updateState] / [updateData]: changed and stamped with
    the current time, whether or not the save went through. *)
Definition state_updated (w : World) (newState : jsstring) (this : User.t) : User.t :=
  User.set_updatedAt (Some (now w)) (User.set_state newState this).

Definition data_updated (w : World) (newData : JsObject) (this : User.t) : User.t :=
  User.set_updatedAt (Some (now w)) (User.set_data (newData ∪ User.data this) this).

(** The Logs sheet after one [Logger] call: a row is added when the logger is
    initialised and the spreadsheet available. *)
Definition log_written (w : World) (level message : jsstring) : list LogRow :=
  if loggerInitialized w && bool_decide (store_ok w)
  then logs w ++ [mkLogRow (now w) level message]
  else logs w.

(** The line [handle] logs first: the text, or [undefined] when there is
    none. *)
Definition handling_message (event : LineEvent) : jsstring :=
  js "TextHandler handling message: "
  ++ default (js "undefined") (TextHandler.event_text event).

(** The guard of [handle]: no user id, or no text. *)
Definition ignored (event : LineEvent) : Prop :=
  truthy (source_userId (event_source event)) = false
  \/ truthy (TextHandler.event_text event) = false.

(** The wording of C10: on an ignored event the whole store is unchanged. *)
Definition ignored_event_changes_nothing (fuel : nat) (event : LineEvent)
  (w : World) : Prop :=
  ignored event ->
  let w' := (TextHandler.handle fuel event w).2 in
  users w' = users w /\ messages w' = messages w /\ logs w' = logs w
  /\ fetched w' = fetched w.

Definition accepted (event : LineEvent) (userId text : jsstring) : Prop :=
  source_userId (event_source event) = Some userId /\ userId <> []
  /\ TextHandler.event_text event = Some text /\ text <> [].

Definition text_message_row (w : World) (userId text : jsstring) : MessageRow :=
  mkMessageRow userId (js "text") {[ js "text" := JStr text ]} (now w).

Definition fresh_user (w : World) (userId : jsstring) : User.t :=
  User.mk userId None StatusConstants.INITIAL ∅ (now w) None.

(** The user [handle] works with, and the user rows once it has it. *)
Definition current_user (w : World) (userId : jsstring) : User.t :=
  default (fresh_user w userId) (found_user w userId).

Definition users_with_current (w : World) (userId : jsstring) : list UserRow :=
  match found_user w userId with
  | Some _ => users w
  | None => saved_users w (User.to_row (fresh_user w userId))
  end.

(** The rest of [handle] once the user is at hand. *)
Definition reply_to (event : LineEvent) (response : jsstring) : M unit :=
  do* LineService.replyText (default [] (event_replyToken event)) response in
  ret tt.

Definition on_error (event : LineEvent) (e : jsstring) : M unit :=
  do* Logger.error (js "TextHandler error: " ++ e) in
  if truthy (event_replyToken event) then
    do* LineService.replyText (default [] (event_replyToken event))
          MessageConstants.ERROR in
    ret tt
  else ret tt.

Definition handle_rest (fuel : nat) (event : LineEvent) (text : jsstring)
  (user : User.t) : M unit :=
  try_catch
    (let* r := TextHandler.respond fuel text user in reply_to event r.1)
    (on_error event).

(** The wording of C4: when the store write raises, the handler leaves its
    normal flow, so that the only request it may still send is the generic
    error reply. *)
Definition failed_write_is_fatal (fuel : nat) (event : LineEvent) (w : World)
  : Prop :=
  (exists row e w1, SpreadsheetService.saveMessageData row w = (Throw e, w1)) ->
  forall r, r ∈ fetched (TextHandler.handle fuel event w).2 ->
            exists replyToken, r = Reply replyToken MessageConstants.ERROR.

(** The two saves of the name and age handlers. *)
Definition saved_twice (w : World) (r1 r2 : UserRow) : list UserRow :=
  if decide (store_ok w) then upserted r2 (upserted r1 (users w)) else users w.

Definition twice_updated (w : World) (newData : JsObject) (newState : jsstring)
  (user : User.t) : User.t :=
  state_updated w newState (data_updated w newData user).

(** The test of the age handler: [isNaN(age) || age < 1 || age > 120]. *)
Definition age_refused (text : jsstring) : Prop :=
  parseInt text = None
  \/ exists age, parseInt text = Some age /\ (age < 1 \/ 120 < age).

(** The row of a user after [updateData newData] and [updateState newState]
    at the clock of [w]. *)
Definition row_updated (w : World) (row : UserRow) (newData : JsObject)
  (newState : jsstring) : UserRow :=
  mkUserRow (ur_userId row) (ur_displayName row) newState
    (newData ∪ ur_data row) (ur_createdAt row) (Some (now w)).

(** The specification's reading of the age test: the text is an integer,
    that is an optional sign followed by decimal digits and nothing else. *)
Definition is_digit (c : code_unit) : bool := ((48 <=? c) && (c <=? 57))%N.

Definition is_integer_text (text : jsstring) : bool :=
  let digits :=
    match text with
    | c :: rest => if ((c =? 45) || (c =? 43))%N then rest else text
    | [] => []
    end in
  match digits with
  | [] => false
  | _ => forallb is_digit digits
  end.

(** The wording of C5 on texts that are not integers: the state stays
    WAITING_AGE, that is the user rows are as before. *)
Definition non_integer_age_rejected (fuel : nat) (event : LineEvent) (w : World)
  : Prop :=
  forall text,
    TextHandler.event_text event = Some text -> is_integer_text text = false ->
    users (TextHandler.handle fuel event w).2 = users w.

(** The row of a user after [updateState newState] at the clock of [w]. *)
Definition row_in_state (w : World) (row : UserRow) (newState : jsstring) : UserRow :=
  mkUserRow (ur_userId row) (ur_displayName row) newState (ur_data row)
    (ur_createdAt row) (Some (now w)).

(** The reply of the INITIAL and REGISTERED rows of the table. *)
Definition initial_reply (text : jsstring) : jsstring :=
  if decide (text = js "登録") then MessageConstants.REGISTRATION_START
  else if decide (text = js "ヘルプ") then MessageConstants.HELP
  else MessageConstants.WELCOME.

Definition registered_reply (text : jsstring) : jsstring :=
  if decide (text = js "ヘルプ") then MessageConstants.HELP
  else MessageConstants.DEFAULT_RESPONSE.

(** The number of opening braces of a text, and texts holding neither an
    opening brace nor a dollar sign. *)
Definition count_brace (s : list N) : nat :=
  length (filter (fun c => c = 123%N) s).

Definition plain (s : jsstring) : Prop := (123%N ∉ s) /\ (36%N ∉ s).

Inductive upserts (userId : jsstring) : list UserRow -> list UserRow -> Prop :=
| upserts_none us : upserts userId us us
| upserts_more us row us' :
    ur_userId row = userId -> upserts userId (upserted row us) us' ->
    upserts userId us us'.

Definition ids (us : list UserRow) : list jsstring := ur_userId <$> us.

Definition others_kept (userId : jsstring) (us us' : list UserRow) : Prop :=
  forall j r, us !! j = Some r -> ur_userId r <> userId -> us' !! j = Some r.

(** A stored state that is none of the four conversation states. *)
Definition unknown_state (state : jsstring) : Prop :=
  state <> StatusConstants.INITIAL /\ state <> StatusConstants.WAITING_NAME
  /\ state <> StatusConstants.WAITING_AGE /\ state <> StatusConstants.REGISTERED.

(** The two ids the image handler asks for: [event.source.userId] and
    [event.message?.id], both non-empty. *)
Definition image_ids (event : LineEvent) (userId messageId : jsstring) : Prop :=
  source_userId (event_source event) = Some userId /\ userId <> []
  /\ message_id <$> event_message event = Some messageId /\ messageId <> [].

Definition image_ids_missing (event : LineEvent) : Prop :=
  truthy (source_userId (event_source event)) = false
  \/ truthy (message_id <$> event_message event) = false.

(** The rows of [userId] are all older than [timestamp]. *)
Definition all_older (userId : jsstring) (timestamp : Z) (rows : list MessageRow)
  : Prop :=
  Forall (fun row => mr_userId row = userId -> mr_timestamp row < timestamp) rows.

(** A text without an opening brace. *)
Definition brace_free (s : jsstring) : Prop := 123%N ∉ s.

(** The number of slices of a text of [n] code units: [n / 4000], rounded
    up. *)
Definition slice_count (n : nat) : nat :=
  ((n + (LineService.MAX_MESSAGE_LENGTH - 1)) / LineService.MAX_MESSAGE_LENGTH)%nat.

(** The replies that quote what was registered. *)
Definition name_confirmed_reply (name : jsstring) : jsstring :=
  js "名前「" ++ name ++ js "」を確認しました。年齢を教えてください。".


(** Postback data in query form: [k=v] entries joined by [&]. *)
Definition entry_text (kv : jsstring * jsstring) : jsstring :=
  kv.1 ++ [61%N] ++ kv.2.

Fixpoint joined (parts : list jsstring) : jsstring :=
  match parts with
  | [] => []
  | part :: parts' =>
      match parts' with
      | [] => part
      | _ => part ++ [38%N] ++ joined parts'
      end
  end.

(** A key or value that needs no escaping: not empty, and free of [%], [&]
    and [=]. *)
Definition unescaped (s : jsstring) : Prop :=
  s <> [] /\ (37%N ∉ s) /\ (38%N ∉ s) /\ (61%N ∉ s).

Definition plain_entry (kv : jsstring * jsstring) : Prop :=
  unescaped kv.1 /\ unescaped kv.2 /\ kv.1 <> js "__proto__".

(** The object built by assigning the entries in order. *)
Definition assigned (kvs : list (jsstring * jsstring)) : gmap jsstring jsstring :=
  foldl (fun m kv => <[kv.1 := kv.2]> m) ∅ kvs.

(** * Properties *)

(** ** Logging and posting never fail and leave the user and message sheets alone *)

Lemma grows_refl w : grows w w.
Proof. split; reflexivity. Qed.

Lemma grows_trans w1 w2 w3 : grows w1 w2 -> grows w2 w3 -> grows w1 w3.
Proof. intros [? ?] [? ?]. split; etrans; eassumption. Qed.

(** Goals such as [l `prefix_of` (l ++ [a]) ++ [b]]. *)
Ltac solve_prefix :=
  first [reflexivity
        |apply prefix_nil
        |eexists; rewrite <- ?app_assoc; reflexivity].

Ltac solve_frame :=
  repeat split; try reflexivity; try solve_prefix.

Lemma log_only_refl w : log_only w w.
Proof. solve_frame. Qed.

Lemma log_only_trans w1 w2 w3 : log_only w1 w2 -> log_only w2 w3 -> log_only w1 w3.
Proof.
  unfold log_only. intros (?&?&?&?&?&?&?&?&?&?) (?&?&?&?&?&?&?&?&?&?).
  repeat split; try congruence; eapply grows_trans; eassumption.
Qed.

Lemma set_console_log_only w extra :
  log_only w (set_console (console w ++ extra) w).
Proof. destruct w. solve_frame. Qed.

Ltac unfold_M :=
  cbv [bind ret throw try_catch get modify console_log console_warn
       console_error new_Date lift_option].

Lemma saveLog_log_only level message w :
  exists w', SpreadsheetService.saveLog level message w = (Ok tt, w') /\ log_only w w'.
Proof.
  unfold SpreadsheetService.saveLog, SpreadsheetService.getSpreadsheet,
    SpreadsheetService.ensureSheetExists.
  destruct w as [sid err su sm sl li ld co nw uf fe]. unfold_M. simpl.
  destruct sid; [|eexists; split; [reflexivity|apply log_only_refl]].
  destruct err; simpl; [eexists; split; [reflexivity|unfold logs; solve_frame]|].
  destruct sl; simpl; eexists; (split; [reflexivity|unfold logs; solve_frame]).
Qed.

Lemma saveToSheet_log_only level message w :
  exists w', Logger.saveToSheet level message w = (Ok tt, w') /\ log_only w w'.
Proof.
  unfold Logger.saveToSheet. unfold_M.
  destruct (loggerInitialized w).
  - destruct (saveLog_log_only level message w) as (w' & -> & H). eauto.
  - eexists; split; [reflexivity|apply log_only_refl].
Qed.

Lemma Logger_log_only message w :
  exists w', Logger.log message w = (Ok tt, w') /\ log_only w w'.
Proof.
  unfold Logger.log. unfold_M.
  match goal with |- context [Logger.saveToSheet ?l ?m ?w0] =>
    destruct (saveToSheet_log_only l m w0) as (w' & -> & H) end.
  exists w'. split; [reflexivity|].
  eapply log_only_trans; [apply set_console_log_only|exact H].
Qed.

Lemma Logger_error_only message w :
  exists w', Logger.error message w = (Ok tt, w') /\ log_only w w'
             /\ (ConsoleError, js "[ERROR] " ++ message) ∈ console w'.
Proof.
  unfold Logger.error. unfold_M.
  match goal with |- context [Logger.saveToSheet ?l ?m ?w0] =>
    destruct (saveToSheet_log_only l m w0) as (w' & -> & H) end.
  exists w'. split; [reflexivity|]. split.
  - eapply log_only_trans; [apply set_console_log_only|exact H].
  - destruct H as (_&_&_&_&_&_&_&_&_&[[k Hk] _]). rewrite Hk.
    destruct w; simpl. set_solver.
Qed.

Lemma sent_only_intro w r w' :
  log_only (set_fetched (fetched w ++ [r]) w) w' -> sent_only w r w'.
Proof. destruct w. unfold log_only, sent_only, grows, logs. simpl. tauto. Qed.

(** [post] returns whatever the transport does. *)
Lemma post_returns r w :
  exists res w', LineService.post r w = (Ok res, w') /\ sent_only w r w'.
Proof.
  unfold LineService.post. unfold_M.
  destruct (UrlFetch w (length (fetched w)) r) as [code body|m] eqn:E.
  - match goal with |- context [Logger.log ?m ?w0] =>
      destruct (Logger_log_only m w0) as (w1 & -> & H1) end.
    destruct (400 <=? code).
    + destruct (Logger_error_only (js "LINE API error: " ++ body) w1)
        as (w2 & -> & H2 & _).
      do 2 eexists; split; [reflexivity|].
      apply sent_only_intro. eapply log_only_trans; eassumption.
    + do 2 eexists; split; [reflexivity|]. now apply sent_only_intro.
  - match goal with |- context [Logger.error ?m ?w0] =>
      destruct (Logger_error_only m w0) as (w1 & -> & H1 & _) end.
    do 2 eexists; split; [reflexivity|]. now apply sent_only_intro.
Qed.

(** ** Handler selection *)

(** C7. For every inbound event the factory yields one handler, chosen by
    first match: a message event whose message kind is text gets the
    TextHandler; a message event whose message kind is image gets the
    ImageHandler; a postback event gets the PostbackHandler; every other
    event (another event kind, or a message of another or no message kind)
    gets the DefaultHandler. *)
Theorem createHandler_first_match (event : LineEvent) :
  (HandlerFactory.createHandler event = HandlerFactory.TextHandler
   <-> event_type event = ev_message /\ event_message_type event = Some msg_text)
  /\ (HandlerFactory.createHandler event = HandlerFactory.ImageHandler
      <-> event_type event = ev_message /\ event_message_type event = Some msg_image)
  /\ (HandlerFactory.createHandler event = HandlerFactory.PostbackHandler
      <-> event_type event = ev_postback)
  /\ (HandlerFactory.createHandler event = HandlerFactory.DefaultHandler
      <-> ~ (event_type event = ev_message /\ event_message_type event = Some msg_text)
          /\ ~ (event_type event = ev_message /\ event_message_type event = Some msg_image)
          /\ event_type event <> ev_postback).
Proof.
  unfold HandlerFactory.createHandler, event_message_type.
  destruct (event_type event), (message_type <$> event_message event) as [[]|];
    simpl; repeat split; try congruence; try tauto; intuition congruence.
Qed.

(** ** Placeholder substitution *)

(** A replacement that gives back the text it was applied to is repeated for
    ever. *)
Lemma replace_while_stuck result placeholder value :
  includes result placeholder = true ->
  replace result placeholder value = result ->
  forall fuel, MessageFormatter.replace_while fuel result placeholder value = None.
Proof.
  intros Hin Hfix fuel. induction fuel as [|fuel IH]; simpl; rewrite Hin.
  - reflexivity.
  - rewrite Hfix. exact IH.
Qed.

Lemma replace_while_stuck_witness :
  includes (js "{name}") (js "{name}") = true
  /\ replace (js "{name}") (js "{name}") (js "{name}") = js "{name}"
  /\ MessageFormatter.replace_while 7 (js "{name}") (js "{name}") (js "{name}") = None.
Proof.
  split; [reflexivity|]. split; [reflexivity|].
  apply (replace_while_stuck (js "{name}") (js "{name}") (js "{name}"));
    reflexivity.
Defined.

(** C9, at the input where it fails: the template ["{name}"] formatted with
    the parameter map [{name: "{name}"}] never yields a result, whatever the
    number of loop iterations allowed; the loop re-finds the placeholder it
    has just written. *)
Theorem format_own_placeholder_never_returns (fuel : nat) :
  MessageFormatter.format fuel (js "{name}") [(js "name", js "{name}")] = None.
Proof.
  unfold MessageFormatter.format. simpl MessageFormatter.format_keys.
  rewrite (replace_while_stuck (js "{name}") (js "{" ++ js "name" ++ js "}")
             (js "{name}")); reflexivity.
Qed.

(** ** Chunked delivery *)

Lemma currentPart_take l :
  LineService.currentPart l = take LineService.MAX_MESSAGE_LENGTH l.
Proof.
  unfold LineService.currentPart.
  destruct (Nat.ltb_spec LineService.MAX_MESSAGE_LENGTH (length l)); [reflexivity|].
  symmetry. apply take_ge. lia.
Qed.

Lemma slices_cons c rest :
  slices (c :: rest)
  = take LineService.MAX_MESSAGE_LENGTH (c :: rest)
    :: slices (drop LineService.MAX_MESSAGE_LENGTH (c :: rest)).
Proof. now simp slices. Qed.

Lemma drop_max_shorter c (rest : jsstring) :
  (length (drop LineService.MAX_MESSAGE_LENGTH (c :: rest)) < length (c :: rest))%nat.
Proof.
  rewrite length_drop. unfold LineService.MAX_MESSAGE_LENGTH. simpl length. lia.
Qed.

Lemma slices_concat l : mjoin (slices l) = l.
Proof.
  induction l as [l IH] using (Nat.measure_induction _ (@length code_unit)).
  destruct l as [|c rest]; [reflexivity|].
  rewrite slices_cons. cbn [mjoin list_join].
  rewrite IH by apply drop_max_shorter. apply take_drop.
Qed.

Lemma slices_bounds l :
  Forall (fun part => (0 < length part <= LineService.MAX_MESSAGE_LENGTH)%nat)
    (slices l).
Proof.
  induction l as [l IH] using (Nat.measure_induction _ (@length code_unit)).
  destruct l as [|c rest]; [simp slices; constructor|].
  rewrite slices_cons. constructor; [|apply IH, drop_max_shorter].
  rewrite length_take. unfold LineService.MAX_MESSAGE_LENGTH. simpl length. lia.
Qed.

Lemma slices_short l :
  (0 < length l <= LineService.MAX_MESSAGE_LENGTH)%nat -> slices l = [l].
Proof.
  intros H. destruct l as [|c rest]; [simpl in H; lia|].
  rewrite slices_cons. rewrite take_ge by lia. rewrite drop_ge by lia.
  reflexivity.
Qed.

Lemma push_step_returns userId text w :
  exists res w',
    (do* Utilities_sleep 500 in LineService.pushText userId text) w = (Ok res, w')
    /\ fetched w' = fetched w ++ [Push userId text]
    /\ sheetUsers w' = sheetUsers w /\ sheetMessages w' = sheetMessages w
    /\ now w' = now w + 500.
Proof.
  unfold Utilities_sleep, LineService.pushText. unfold_M.
  match goal with |- context [LineService.post ?r ?w0] =>
    destruct (post_returns r w0) as (res & w1 & -> & H) end.
  exists res, w1. split; [reflexivity|].
  destruct w; unfold sent_only in H; simpl in *. intuition.
Qed.

(** The loop of [sendLongMessage] finishes: it pushes the slices of the
    remainder one after the other, each behind the marker, sleeping 500 ms
    before each, and counts them. *)
Lemma push_loop_slices userId remainingText :
  forall messageCount w,
  exists w',
    LineService.push_loop userId remainingText messageCount w
    = (Ok (messageCount + Z.of_nat (length (slices remainingText))), w')
    /\ fetched w' = fetched w ++ (continued_push userId <$> slices remainingText)
    /\ sheetUsers w' = sheetUsers w /\ sheetMessages w' = sheetMessages w
    /\ now w' = now w + 500 * Z.of_nat (length (slices remainingText)).
Proof.
  induction remainingText as [l IH] using (Nat.measure_induction _ (@length code_unit)).
  intros messageCount w. destruct l as [|c rest].
  - simp push_loop slices. simpl. eexists. split; [do 2 f_equal; lia|].
    rewrite app_nil_r. repeat split. lia.
  - simp push_loop.
    destruct (push_step_returns userId
                (MessageConstants.ANALYSIS_CONTINUED ++ LineService.currentPart (c :: rest)) w)
      as (res & w1 & E & Hf & Hu & Hm & Hn).
    rewrite E. cbn [LineService.push_loop_unfold_clause_2].
    rewrite currentPart_take in *. rewrite length_take.
    assert (Hd : drop (LineService.MAX_MESSAGE_LENGTH `min` length (c :: rest)) (c :: rest)
                 = drop LineService.MAX_MESSAGE_LENGTH (c :: rest)).
    { destruct (Nat.le_ge_cases LineService.MAX_MESSAGE_LENGTH (length (c :: rest))).
      - now rewrite Nat.min_l.
      - rewrite Nat.min_r by assumption. rewrite !drop_ge; [reflexivity|lia|lia]. }
    rewrite Hd.
    destruct (IH _ (drop_max_shorter c rest) (messageCount + 1) w1)
      as (w' & E' & Hf' & Hu' & Hm' & Hn').
    exists w'. rewrite E', slices_cons. cbn [length fmap list_fmap].
    split; [do 2 f_equal; lia|].
    rewrite Hf', Hf, <- app_assoc. unfold continued_push at 2.
    repeat split; try congruence. rewrite Hn', Hn. lia.
Qed.

Lemma sendLongMessage_runs userId replyToken text w :
  exists w',
    LineService.sendLongMessage userId replyToken text w = (Ok true, w')
    /\ fetched w' = fetched w ++ chunk_requests userId replyToken text
    /\ sheetUsers w' = sheetUsers w /\ sheetMessages w' = sheetMessages w.
Proof.
  unfold LineService.sendLongMessage, LineService.replyText, chunk_requests.
  unfold_M.
  destruct (Nat.leb_spec (length text) LineService.MAX_MESSAGE_LENGTH) as [Hle|Hgt].
  - destruct (post_returns (Reply replyToken text) w) as (res & w1 & -> & H).
    exists w1. split; [reflexivity|].
    rewrite take_ge, drop_ge by lia. simp slices. cbn [fmap list_fmap].
    unfold sent_only in H. intuition.
  - destruct (post_returns (Reply replyToken (take LineService.MAX_MESSAGE_LENGTH text)) w)
      as (res & w1 & -> & H).
    destruct (push_loop_slices userId (drop LineService.MAX_MESSAGE_LENGTH text) 1 w1)
      as (w2 & -> & Hf & Hu & Hm & _).
    match goal with |- context [Logger.log ?m ?w0] =>
      destruct (Logger_log_only m w0) as (w3 & -> & H3) end.
    exists w3. split; [reflexivity|].
    unfold sent_only in H. unfold log_only in H3.
    destruct H as (_ & _ & Hu1 & Hm1 & _ & _ & _ & _ & Hf1 & _).
    destruct H3 as (_ & _ & Hu3 & Hm3 & _ & _ & _ & _ & Hf3 & _).
    rewrite Hf3, Hf, Hf1, <- app_assoc. repeat split; congruence.
Qed.

Lemma sent_slice_continued userId part :
  sent_slice (continued_push userId part) = part.
Proof. unfold sent_slice, continued_push. apply drop_app_length. Qed.

Lemma chunk_requests_rebuild userId replyToken text :
  mjoin (sent_slice <$> chunk_requests userId replyToken text) = text.
Proof.
  unfold chunk_requests. cbn [fmap list_fmap mjoin list_join sent_slice].
  rewrite <- list_fmap_compose.
  rewrite (list_fmap_ext _ id (slices (drop LineService.MAX_MESSAGE_LENGTH text)))
    by (intros ? part _; apply sent_slice_continued).
  rewrite list_fmap_id, slices_concat. apply take_drop.
Qed.

Lemma chunk_requests_9000 userId replyToken text :
  Z.of_nat (length text) = 9000 ->
  chunk_requests userId replyToken text
  = [Reply replyToken (take 4000 text);
     continued_push userId (take 4000 (drop 4000 text));
     continued_push userId (drop 4000 (drop 4000 text))]
  /\ length (take 4000 text) = 4000%nat
  /\ length (take 4000 (drop 4000 text)) = 4000%nat
  /\ length (drop 4000 (drop 4000 text)) = 1000%nat.
Proof.
  intros Hlen. unfold chunk_requests.
  change LineService.MAX_MESSAGE_LENGTH with 4000%nat.
  assert (H1 : Z.of_nat (length (drop 4000 text)) = 5000)
    by (rewrite length_drop; lia).
  assert (H2 : Z.of_nat (length (drop 4000 (drop 4000 text))) = 1000)
    by (rewrite length_drop; lia).
  split.
  - destruct (drop 4000 text) as [|c rest] eqn:E1; [simpl in H1; lia|].
    rewrite slices_cons. change LineService.MAX_MESSAGE_LENGTH with 4000%nat.
    rewrite slices_short
      by (unfold LineService.MAX_MESSAGE_LENGTH; lia).
    reflexivity.
  - rewrite !length_take. lia.
Qed.

(** C3. [sendLongMessage] hands to the transport exactly one reply carrying
    the first 4000 code units and then one push per further slice of up to
    4000 code units, each behind the continuation marker, until the text is
    used up; a text of at most 4000 code units is one reply with the whole
    text and no push; taking the markers off and joining what was sent gives
    the text back; and a text of 9000 code units makes exactly three
    requests, a reply of 4000 and pushes of 4000 and 1000. *)
Theorem sendLongMessage_chunks (userId replyToken text : jsstring) (w : World) :
  let w' := (LineService.sendLongMessage userId replyToken text w).2 in
  let sends := chunk_requests userId replyToken text in
  fetched w' = fetched w ++ sends
  /\ Forall (fun part => (0 < length part <= 4000)%nat)
       (slices (drop LineService.MAX_MESSAGE_LENGTH text))
  /\ ((length text <= 4000)%nat -> sends = [Reply replyToken text])
  /\ mjoin (sent_slice <$> sends) = text
  /\ (Z.of_nat (length text) = 9000 ->
      sends = [Reply replyToken (take 4000 text);
               continued_push userId (take 4000 (drop 4000 text));
               continued_push userId (drop 4000 (drop 4000 text))]
      /\ length (take 4000 text) = 4000%nat
      /\ length (take 4000 (drop 4000 text)) = 4000%nat
      /\ length (drop 4000 (drop 4000 text)) = 1000%nat).
Proof.
  cbv zeta.
  destruct (sendLongMessage_runs userId replyToken text w) as (w' & -> & Hf & _).
  split; [exact Hf|]. split; [apply slices_bounds|].
  split.
  - intros Hle. unfold chunk_requests, LineService.MAX_MESSAGE_LENGTH.
    rewrite take_ge, drop_ge by lia. now simp slices.
  - split; [apply chunk_requests_rebuild|apply chunk_requests_9000].
Qed.

Lemma sendLongMessage_chunks_witness :
  Z.of_nat (length text_9000) = 9000
  /\ length (chunk_requests (js "U1") (js "token") text_9000) = 3%nat
  /\ (length (js "short") <= 4000)%nat
  /\ chunk_requests (js "U1") (js "token") (js "short")
     = [Reply (js "token") (js "short")].
Proof.
  assert (H9 : Z.of_nat (length text_9000) = 9000) by (vm_compute; reflexivity).
  assert (Hs : (length (js "short") <= 4000)%nat) by (vm_compute; lia).
  split; [exact H9|].
  destruct (sendLongMessage_chunks (js "U1") (js "token") text_9000 fresh_world)
    as (_ & _ & _ & _ & H).
  destruct (sendLongMessage_chunks (js "U1") (js "token") (js "short") fresh_world)
    as (_ & _ & H' & _).
  destruct (H H9) as (-> & _). split; [reflexivity|].
  split; [exact Hs|]. exact (H' Hs).
Defined.

(** C6, where it fails: with a transport that raises on every request,
    [sendLongMessage] still hands over every chunk request and returns
    [true]. *)
Theorem sendLongMessage_true_when_transport_raises
  (userId replyToken text : jsstring) (w : World) :
  let r := LineService.sendLongMessage userId replyToken text (transport_down w) in
  (forall n req, UrlFetch (transport_down w) n req = FetchRaises (js "Timeout"))
  /\ r.1 = Ok true
  /\ fetched r.2 = fetched w ++ chunk_requests userId replyToken text.
Proof.
  cbv zeta. split; [reflexivity|].
  destruct (sendLongMessage_runs userId replyToken text (transport_down w))
    as (w' & -> & Hf & _).
  split; [reflexivity|exact Hf].
Qed.

(** ** The row store *)

Lemma same_rows_refl w : same_rows w w.
Proof. solve_frame. Qed.

Lemma getSpreadsheet_ok w :
  store_ok w -> SpreadsheetService.getSpreadsheet w = (Ok tt, w).
Proof.
  intros [[sid Hs] He]. unfold SpreadsheetService.getSpreadsheet. unfold_M.
  now rewrite Hs, He.
Qed.

Lemma getSpreadsheet_fails w :
  ~ store_ok w -> exists e, SpreadsheetService.getSpreadsheet w = (Throw e, w).
Proof.
  intros H. unfold SpreadsheetService.getSpreadsheet. unfold_M.
  destruct (spreadsheetId w) eqn:Hs; [|eauto].
  destruct (openByIdError w) eqn:He; [eauto|].
  exfalso. apply H. split; [rewrite Hs; eauto|assumption].
Qed.

Lemma ensure_Users w :
  exists w', SpreadsheetService.ensureSheetExists (js "Users") sheetUsers
               set_sheetUsers w = (Ok tt, w')
             /\ sheetUsers w' = Some (users w) /\ same_rows w w'.
Proof.
  unfold SpreadsheetService.ensureSheetExists. unfold_M.
  destruct w as [sid err su sm sl li ld co nw uf fe]; simpl.
  destruct su; simpl; eexists; (split; [reflexivity|]); split;
    try reflexivity; solve_frame.
Qed.

Lemma ensure_Messages w :
  exists w', SpreadsheetService.ensureSheetExists (js "Messages") sheetMessages
               set_sheetMessages w = (Ok tt, w')
             /\ sheetMessages w' = Some (messages w) /\ same_rows w w'.
Proof.
  unfold SpreadsheetService.ensureSheetExists. unfold_M.
  destruct w as [sid err su sm sl li ld co nw uf fe]; simpl.
  destruct sm; simpl; eexists; (split; [reflexivity|]); split;
    try reflexivity; solve_frame.
Qed.

(** *** Sorting *)

Lemma sort_insert_perm {A} (compareFn : A -> A -> Z) a l :
  sort_insert compareFn a l ≡ₚ a :: l.
Proof.
  induction l as [|b l IH]; simpl; [reflexivity|].
  destruct (compareFn a b <=? 0); [reflexivity|].
  rewrite IH. apply Permutation_swap.
Qed.

Lemma Array_sort_perm {A} (compareFn : A -> A -> Z) l :
  Array_sort compareFn l ≡ₚ l.
Proof.
  induction l as [|a l IH]; simpl; [reflexivity|].
  rewrite sort_insert_perm. now rewrite IH.
Qed.

Lemma sort_insert_sorted a l :
  StronglySorted not_older l -> StronglySorted not_older (sort_insert newest_first a l).
Proof.
  induction 1 as [|b l Hs IH Hb]; simpl; [repeat constructor|].
  unfold newest_first at 1.
  destruct (Z.leb_spec (mr_timestamp b - mr_timestamp a) 0) as [Hle|Hgt].
  - constructor; [now constructor|].
    constructor; [unfold not_older; lia|].
    eapply Forall_impl; [exact Hb|]. unfold not_older. intros; simpl in *; lia.
  - constructor; [exact IH|].
    rewrite sort_insert_perm. constructor; [unfold not_older; lia|exact Hb].
Qed.

Lemma Array_sort_sorted l : StronglySorted not_older (Array_sort newest_first l).
Proof.
  induction l as [|a l IH]; simpl; [constructor|]. now apply sort_insert_sorted.
Qed.

(** Three rows with increasing timestamps, in whatever order they are
    stored, come out newest first. *)
Lemma Array_sort_three l m1 m2 m3 :
  l ≡ₚ [m1; m2; m3] ->
  mr_timestamp m1 < mr_timestamp m2 -> mr_timestamp m2 < mr_timestamp m3 ->
  Array_sort newest_first l = [m3; m2; m1].
Proof.
  intros Hp H12 H23.
  apply (StronglySorted_unique_strong not_older).
  - intros x1 x2 Hx1 Hx2 Ha Hb.
    rewrite Array_sort_perm, Hp in Hx1.
    unfold not_older in *.
    repeat match goal with
           | H : _ ∈ _ :: _ |- _ => apply elem_of_cons in H; destruct H as [->|H]
           | H : _ ∈ [] |- _ => apply elem_of_nil in H; destruct H
           end; try reflexivity; lia.
  - apply Array_sort_sorted.
  - unfold not_older. repeat constructor; lia.
  - rewrite Array_sort_perm, Hp. exact (Permutation_rev [m1; m2; m3]).
Qed.

Lemma getMessagesByUserId_runs userId limit w :
  store_ok w ->
  exists w',
    SpreadsheetService.getMessagesByUserId userId limit w
    = (Ok (slice0
             (Array_sort newest_first
                (filter (fun row => mr_userId row = userId) (messages w)))
             (default 10 limit)), w')
    /\ same_rows w w'.
Proof.
  intros Hok. unfold SpreadsheetService.getMessagesByUserId,
    SpreadsheetService.rethrow. unfold_M.
  rewrite (getSpreadsheet_ok w Hok).
  destruct (ensure_Messages w) as (w' & -> & Hm & Hs).
  exists w'. split; [|exact Hs].
  destruct Hs as (_ & _ & _ & -> & _). reflexivity.
Qed.

(** C8. With the spreadsheet available, [getMessagesByUserId(userId, limit)]
    returns, from all message rows, exactly those of the user, newest first,
    cut to the first [limit] (10 when no limit is given), and leaves the rows
    as they were; for a user with three messages at timestamps t1 < t2 < t3
    and limit 2 the result is the messages at t3 and t2, in that order. *)
Theorem getMessagesByUserId_newest_first
  (userId : jsstring) (limit : option Z) (w : World) :
  store_ok w ->
  let r := SpreadsheetService.getMessagesByUserId userId limit w in
  let mine := filter (fun row => mr_userId row = userId) (messages w) in
  exists result sorted,
    r.1 = Ok result
    /\ messages r.2 = messages w
    /\ sorted ≡ₚ mine
    /\ StronglySorted not_older sorted
    /\ result = slice0 sorted (default 10 limit)
    /\ (0 <= default 10 limit -> result = take (Z.to_nat (default 10 limit)) sorted)
    /\ (forall m1 m2 m3,
          mine ≡ₚ [m1; m2; m3] ->
          mr_timestamp m1 < mr_timestamp m2 -> mr_timestamp m2 < mr_timestamp m3 ->
          limit = Some 2 -> result = [m3; m2]).
Proof.
  intros Hok. cbv zeta.
  destruct (getMessagesByUserId_runs userId limit w Hok) as (w' & -> & Hs).
  eexists _, _. split; [reflexivity|].
  split; [apply Hs|]. split; [apply Array_sort_perm|].
  split; [apply Array_sort_sorted|]. split; [reflexivity|]. split.
  - intros Hl. unfold slice0. destruct (Z.ltb_spec (default 10 limit) 0); [lia|].
    destruct (Z.le_ge_cases (default 10 limit)
                (Z.of_nat (length (Array_sort newest_first
                   (filter (fun row => mr_userId row = userId) (messages w))))))
      as [Hc|Hc].
    + now rewrite Z.min_l.
    + rewrite Z.min_r by lia. rewrite Nat2Z.id.
      rewrite !take_ge; [reflexivity|lia|lia].
  - intros m1 m2 m3 Hp H12 H23 ->.
    rewrite (Array_sort_three _ m1 m2 m3 Hp H12 H23). reflexivity.
Qed.

Lemma getMessagesByUserId_newest_first_witness :
  store_ok history_world
  /\ (SpreadsheetService.getMessagesByUserId (js "U1") (Some 2) history_world).1
     = Ok [msg_t3; msg_t2].
Proof.
  assert (Hok : store_ok history_world)
    by (split; [eexists; reflexivity|reflexivity]).
  split; [exact Hok|].
  destruct (getMessagesByUserId_newest_first (js "U1") (Some 2) history_world Hok)
    as (result & sorted & Hr & _ & _ & _ & _ & _ & H3).
  rewrite Hr. f_equal.
  apply (H3 msg_t1 msg_t2 msg_t3); [|reflexivity|reflexivity|reflexivity].
  exact (Permutation_sym (Permutation_middle [msg_t2; msg_t3] [] msg_t1)).
Defined.

(** *** Users *)

(** [findUserRow] is a scan for the first row with the id: it answers the
    sheet row number of that row, which is its index among the data rows
    plus 2, and 0 when there is none. *)
Lemma findUserRow_from_find i rows userId :
  SpreadsheetService.findUserRow_from i rows userId
  = match list_find (has_id userId) rows with
    | Some (k, _) => i + 1 + Z.of_nat k
    | None => 0
    end.
Proof.
  revert i. induction rows as [|r rows IH]; intros i; simpl; [reflexivity|].
  unfold has_id at 1. destruct (decide (ur_userId r = userId)) as [E|E].
  - lia.
  - rewrite IH.
    destruct (list_find (has_id userId) rows) as [[k r']|]; simpl; lia.
Qed.

Lemma findUserRow_find rows userId :
  SpreadsheetService.findUserRow rows userId
  = match list_find (has_id userId) rows with
    | Some (k, _) => Z.of_nat k + 2
    | None => 0
    end.
Proof.
  unfold SpreadsheetService.findUserRow. rewrite findUserRow_from_find.
  destruct (list_find (has_id userId) rows) as [[k r']|]; lia.
Qed.

Lemma list_find_upserted userData rows :
  exists k, list_find (has_id (ur_userId userData)) (upserted userData rows)
            = Some (k, userData).
Proof.
  unfold upserted.
  destruct (list_find (has_id (ur_userId userData)) rows) as [[k r]|] eqn:E.
  - exists k. apply list_find_Some in E as (Hk & Hr & Hbefore).
    apply list_find_Some. split; [|split; [reflexivity|]].
    + apply list_lookup_insert_eq. eapply lookup_lt_Some, Hk.
    + intros j y Hj Hlt. rewrite list_lookup_insert_ne in Hj by lia. eauto.
  - exists (length rows). apply list_find_None in E.
    apply list_find_Some. split; [|split; [reflexivity|]].
    + rewrite lookup_app_r by lia. now rewrite Nat.sub_diag.
    + intros j y Hj Hlt. rewrite lookup_app_l in Hj by lia.
      rewrite Forall_forall in E. apply E, list_elem_of_lookup. eauto.
Qed.

Lemma quiet_refl w : quiet w w.
Proof. unfold quiet, step. solve_frame. Qed.

Lemma step_quiet w w1 w2 us ms fs :
  step w w1 us ms fs -> quiet w1 w2 -> step w w2 us ms fs.
Proof.
  unfold quiet, step. intros (?&?&?&?&?&?&?&?&?&?) (?&?&?&?&?&?&?&?&?&?).
  repeat split; try congruence; eapply grows_trans; eassumption.
Qed.

Lemma quiet_step w w1 w2 us ms fs :
  quiet w w1 -> step w1 w2 us ms fs -> step w w2 us ms fs.
Proof.
  unfold quiet, step. intros (?&?&?&?&?&?&?&?&?&?) (?&?&?&?&?&?&?&?&?&?).
  repeat split; try congruence; eapply grows_trans; eassumption.
Qed.

Lemma quiet_trans w w1 w2 : quiet w w1 -> quiet w1 w2 -> quiet w w2.
Proof. apply step_quiet. Qed.

Lemma log_only_quiet w w' : log_only w w' -> quiet w w'.
Proof.
  unfold log_only, quiet, step, users, messages. intuition congruence.
Qed.

Lemma same_rows_quiet w w' : same_rows w w' -> quiet w w'.
Proof.
  unfold same_rows, quiet, step, grows.
  intros (?&?&?&?&E&?&?&?&?&?&?). rewrite E.
  repeat split; try congruence; try assumption; reflexivity.
Qed.

Lemma step_store_ok w w' us ms fs : step w w' us ms fs -> store_ok w <-> store_ok w'.
Proof.
  unfold step, store_ok. intros (-> & -> & _). reflexivity.
Qed.

Lemma Logger_log_quiet message w :
  exists w', Logger.log message w = (Ok tt, w') /\ quiet w w'.
Proof.
  destruct (Logger_log_only message w) as (w' & E & H).
  eauto using log_only_quiet.
Qed.

Lemma Logger_error_quiet message w :
  exists w', Logger.error message w = (Ok tt, w') /\ quiet w w'
             /\ (ConsoleError, js "[ERROR] " ++ message) ∈ console w'.
Proof.
  destruct (Logger_error_only message w) as (w' & E & H & Hc).
  eauto using log_only_quiet.
Qed.

Lemma post_step r w :
  exists res w', LineService.post r w = (Ok res, w')
                 /\ step w w' (users w) (messages w) (fetched w ++ [r]).
Proof.
  destruct (post_returns r w) as (res & w' & E & H).
  exists res, w'. split; [exact E|].
  unfold sent_only, step, users, messages in *. intuition congruence.
Qed.

(** Writing rows to the Users or Messages sheet of a world that stands in
    the [same_rows] relation to [w]. *)
Lemma step_set_users w w1 us :
  same_rows w w1 -> step w (set_sheetUsers (Some us) w1) us (messages w) (fetched w).
Proof.
  destruct w1. unfold same_rows, step, grows, users, messages, logs. simpl.
  intros (?&?&?&?&E&?&?&?&?&?&?). rewrite E.
  repeat split; try congruence; try assumption; reflexivity.
Qed.

Lemma step_set_messages w w1 ms :
  same_rows w w1 -> step w (set_sheetMessages (Some ms) w1) (users w) ms (fetched w).
Proof.
  destruct w1. unfold same_rows, step, grows, users, messages, logs. simpl.
  intros (?&?&?&?&E&?&?&?&?&?&?). rewrite E.
  repeat split; try congruence; try assumption; reflexivity.
Qed.

(** *** Writes and reads of the service, with the spreadsheet available *)

Lemma saveUserData_runs userData w :
  store_ok w ->
  exists w',
    SpreadsheetService.saveUserData userData w = (Ok tt, w')
    /\ step w w' (upserted userData (users w)) (messages w) (fetched w).
Proof.
  intros Hok. unfold SpreadsheetService.saveUserData, SpreadsheetService.rethrow.
  unfold_M. rewrite (getSpreadsheet_ok w Hok).
  destruct (ensure_Users w) as (w1 & -> & Hu & Hs).
  unfold SpreadsheetService.push_updatedAt_if_missing.
  change (UserRow_length userData <=? 5) with false. cbv iota. unfold_M.
  assert (Hrows : users w1 = users w) by apply Hs.
  rewrite findUserRow_find, Hrows. unfold upserted.
  destruct (list_find (has_id (ur_userId userData)) (users w)) as [[k r]|] eqn:E.
  - assert (Hpos : (0 <? Z.of_nat k + 2) = true) by (apply Z.ltb_lt; lia).
    rewrite Hpos. replace (Z.to_nat (Z.of_nat k + 2 - 2)) with k by lia.
    cbv beta. rewrite ?Hrows.
    eexists. split; [reflexivity|]. now apply step_set_users.
  - change (0 <? 0) with false. cbv beta iota. rewrite ?Hrows.
    eexists. split; [reflexivity|]. now apply step_set_users.
Qed.

Lemma getUserDataByUserId_runs userId w :
  store_ok w ->
  exists w',
    SpreadsheetService.getUserDataByUserId userId w
    = (Ok (snd <$> list_find (has_id userId) (users w)), w')
    /\ quiet w w'.
Proof.
  intros Hok. unfold SpreadsheetService.getUserDataByUserId,
    SpreadsheetService.rethrow. unfold_M.
  rewrite (getSpreadsheet_ok w Hok).
  destruct (ensure_Users w) as (w1 & -> & Hu & Hs).
  assert (Hrows : users w1 = users w) by apply Hs.
  rewrite findUserRow_find, Hrows.
  exists w1. split; [|now apply same_rows_quiet].
  destruct (list_find (has_id userId) (users w)) as [[k r]|] eqn:E.
  - assert (Hpos : (0 <? Z.of_nat k + 2) = true) by (apply Z.ltb_lt; lia).
    rewrite Hpos. replace (Z.to_nat (Z.of_nat k + 2 - 2)) with k by lia.
    apply list_find_Some in E as (-> & _). reflexivity.
  - reflexivity.
Qed.

Lemma saveMessageData_runs messageData w :
  store_ok w ->
  exists w',
    SpreadsheetService.saveMessageData messageData w = (Ok tt, w')
    /\ step w w' (users w) (messages w ++ [messageData]) (fetched w).
Proof.
  intros Hok. unfold SpreadsheetService.saveMessageData, SpreadsheetService.rethrow.
  unfold_M. rewrite (getSpreadsheet_ok w Hok).
  destruct (ensure_Messages w) as (w1 & -> & Hu & Hs).
  assert (Hm : messages w1 = messages w) by apply Hs.
  cbv beta. rewrite ?Hm.
  eexists. split; [reflexivity|]. now apply step_set_messages.
Qed.

(** *** The same calls with the spreadsheet unavailable: they raise *)

Lemma saveUserData_raises userData w :
  ~ store_ok w ->
  exists e w', SpreadsheetService.saveUserData userData w = (Throw e, w')
               /\ quiet w w'
               /\ console w' = console w
                    ++ [(ConsoleError, js "Error saving user data: " ++ e)].
Proof.
  intros Hbad. unfold SpreadsheetService.saveUserData, SpreadsheetService.rethrow.
  unfold_M. destruct (getSpreadsheet_fails w Hbad) as (e & ->).
  exists e. eexists. split; [reflexivity|].
  destruct w; unfold quiet, step; solve_frame.
Qed.

Lemma saveMessageData_raises messageData w :
  ~ store_ok w ->
  exists e w', SpreadsheetService.saveMessageData messageData w = (Throw e, w')
               /\ quiet w w'
               /\ console w' = console w
                    ++ [(ConsoleError, js "Error saving message data: " ++ e)].
Proof.
  intros Hbad. unfold SpreadsheetService.saveMessageData, SpreadsheetService.rethrow.
  unfold_M. destruct (getSpreadsheet_fails w Hbad) as (e & ->).
  exists e. eexists. split; [reflexivity|].
  destruct w; unfold quiet, step; solve_frame.
Qed.

Lemma getUserDataByUserId_raises userId w :
  ~ store_ok w ->
  exists e w', SpreadsheetService.getUserDataByUserId userId w = (Throw e, w')
               /\ quiet w w'.
Proof.
  intros Hbad. unfold SpreadsheetService.getUserDataByUserId,
    SpreadsheetService.rethrow.
  unfold_M. destruct (getSpreadsheet_fails w Hbad) as (e & ->).
  exists e. eexists. split; [reflexivity|].
  destruct w; unfold quiet, step; solve_frame.
Qed.

(** C2 as worded fails: saving the row of a freshly constructed [User]
    (updatedAt [null]) over the stored row of the same id overwrites that row
    and leaves its updated-timestamp unset. *)
Lemma overwrite_keeps_null_updatedAt :
  ~ overwrite_sets_updatedAt new_U1 world_with_U1.
Proof.
  intros H. destruct H as (r & Hr & Hs).
  - eexists. vm_compute. reflexivity.
  - vm_compute in Hr. injection Hr as <-. destruct Hs as [d Hd]. discriminate.
Qed.

(** C2, amended. With the spreadsheet available, [saveUserData u] succeeds
    and [getUserDataByUserId] of [u]'s id then returns the row of [u] as the
    sheet hands it back: the values of [u], with [''] where [u] has a [null]
    display name or updated-timestamp, the updated-timestamp not refreshed;
    the row is appended when no row has the id, and otherwise written over
    the first row with that id, every other row and every message row
    staying as it was. *)
Theorem saveUserData_then_get (userData : UserRow) (w : World) :
  store_ok w ->
  let w1 := (SpreadsheetService.saveUserData userData w).2 in
  (SpreadsheetService.saveUserData userData w).1 = Ok tt
  /\ (exists r,
        (SpreadsheetService.getUserDataByUserId (ur_userId userData) w1).1
        = Ok (Some r)
        /\ getValues_row r = getValues_row userData)
  /\ (list_find (has_id (ur_userId userData)) (users w) = None ->
      users w1 = users w ++ [userData])
  /\ (forall k r,
        list_find (has_id (ur_userId userData)) (users w) = Some (k, r) ->
        users w1 = <[k := userData]> (users w)
        /\ length (users w1) = length (users w)
        /\ forall j, j <> k -> users w1 !! j = users w !! j)
  /\ messages w1 = messages w.
Proof.
  intros Hok. cbv zeta.
  destruct (saveUserData_runs userData w Hok) as (w1 & -> & Hstep).
  cbn [fst snd].
  assert (Hok1 : store_ok w1) by (apply (step_store_ok _ _ _ _ _ Hstep), Hok).
  destruct (getUserDataByUserId_runs (ur_userId userData) w1 Hok1) as (w2 & -> & _).
  assert (Hu : users w1 = upserted userData (users w)) by apply Hstep.
  assert (Hm : messages w1 = messages w) by apply Hstep.
  split; [reflexivity|]. split.
  - exists userData. split; [|reflexivity]. cbn [fst]. rewrite Hu.
    destruct (list_find_upserted userData (users w)) as (k & ->). reflexivity.
  - rewrite Hu. unfold upserted. repeat split.
    + intros ->. reflexivity.
    + rewrite H. reflexivity.
    + rewrite H. apply length_insert.
    + intros j Hj. rewrite H. apply list_lookup_insert_ne. congruence.
    + exact Hm.
Qed.

Lemma saveUserData_then_get_witness :
  store_ok world_with_U1
  /\ (exists r,
        (SpreadsheetService.getUserDataByUserId (js "U1")
           (SpreadsheetService.saveUserData new_U1 world_with_U1).2).1
        = Ok (Some r)
        /\ getValues_row r
           = mkUserValues (js "U1") [] StatusConstants.INITIAL ∅ 900 None)
  /\ users (SpreadsheetService.saveUserData new_U1 world_with_U1).2 = [new_U1].
Proof.
  assert (Hok : store_ok world_with_U1)
    by (split; [eexists; reflexivity|reflexivity]).
  destruct (saveUserData_then_get new_U1 world_with_U1 Hok)
    as (_ & (r & Hget & Hr) & _ & Hover & _).
  split; [exact Hok|]. split; [exists r; split; [exact Hget|exact Hr]|].
  destruct (Hover 0%nat stored_U1) as (-> & _); reflexivity.
Defined.

(** ** The models: [save] reports a failure, it does not raise *)

Lemma step_decide_store_ok {A} w w' us ms fs (a b : A) :
  step w w' us ms fs ->
  (if decide (store_ok w') then a else b) = (if decide (store_ok w) then a else b).
Proof.
  intros H. pose proof (step_store_ok _ _ _ _ _ H) as Hiff.
  destruct (decide (store_ok w)), (decide (store_ok w')); tauto.
Qed.

(** A failed write of the service is caught by [save], logged, and turned
    into the result [false]. *)
Lemma User_save_swallows this w e w1 :
  SpreadsheetService.saveUserData (User.to_row this) w = (Throw e, w1) ->
  exists w', User.save this w = (Ok false, w') /\ quiet w1 w'
             /\ (ConsoleError, js "[ERROR] " ++ js "User save error: " ++ e)
                ∈ console w'.
Proof.
  intros H. unfold User.save. unfold_M. rewrite H.
  destruct (Logger_error_quiet (js "User save error: " ++ e) w1)
    as (w' & -> & Hq & Hc).
  eauto.
Qed.

Lemma Message_save_swallows this w e w1 :
  SpreadsheetService.saveMessageData (Message_row this) w = (Throw e, w1) ->
  exists w', Message.save this w = (Ok false, w') /\ quiet w1 w'
             /\ (ConsoleError, js "[ERROR] " ++ js "Message save error: " ++ e)
                ∈ console w'.
Proof.
  intros H. unfold Message.save. fold (Message_row this). unfold_M. rewrite H.
  destruct (Logger_error_quiet (js "Message save error: " ++ e) w1)
    as (w' & -> & Hq & Hc).
  eauto.
Qed.

Lemma User_save_runs this w :
  exists w',
    User.save this w = (Ok (bool_decide (store_ok w)), w')
    /\ step w w' (saved_users w (User.to_row this)) (messages w) (fetched w).
Proof.
  unfold saved_users. destruct (decide (store_ok w)) as [Hok|Hbad].
  - rewrite bool_decide_eq_true_2 by assumption.
    destruct (saveUserData_runs (User.to_row this) w Hok) as (w' & E & H).
    exists w'. split; [|exact H]. unfold User.save. unfold_M. now rewrite E.
  - rewrite bool_decide_eq_false_2 by assumption.
    destruct (saveUserData_raises (User.to_row this) w Hbad) as (e & w1 & E & H & _).
    destruct (User_save_swallows this w e w1 E) as (w' & E' & H' & _).
    exists w'. split; [exact E'|]. eapply quiet_trans; eassumption.
Qed.

Lemma Message_save_runs this w :
  exists w',
    Message.save this w = (Ok (bool_decide (store_ok w)), w')
    /\ step w w' (users w) (saved_messages w (Message_row this)) (fetched w).
Proof.
  unfold saved_messages. destruct (decide (store_ok w)) as [Hok|Hbad].
  - rewrite bool_decide_eq_true_2 by assumption.
    destruct (saveMessageData_runs (Message_row this) w Hok) as (w' & E & H).
    exists w'. split; [|exact H]. unfold Message.save. fold (Message_row this).
    unfold_M. now rewrite E.
  - rewrite bool_decide_eq_false_2 by assumption.
    destruct (saveMessageData_raises (Message_row this) w Hbad) as (e & w1 & E & H & _).
    destruct (Message_save_swallows this w e w1 E) as (w' & E' & H' & _).
    exists w'. split; [exact E'|]. eapply quiet_trans; eassumption.
Qed.

Lemma findByUserId_runs userId w :
  exists w', User.findByUserId userId w = (Ok (found_user w userId), w')
             /\ quiet w w'.
Proof.
  unfold found_user, User.findByUserId. destruct (decide (store_ok w)) as [Hok|Hbad].
  - destruct (getUserDataByUserId_runs userId w Hok) as (w' & E & H).
    exists w'. split; [|exact H]. unfold_M. rewrite E.
    destruct (list_find (has_id userId) (users w)) as [[k r]|]; [|reflexivity].
    cbn [fmap option_fmap option_map snd]. unfold User.new. unfold_M.
    do 2 f_equal. f_equal. unfold User_of_row.
    destruct r as [i d s dt c [u|]]; reflexivity.
  - destruct (getUserDataByUserId_raises userId w Hbad) as (e & w1 & E & H).
    unfold_M. rewrite E.
    destruct (Logger_error_quiet (js "Find user error: " ++ e) w1)
      as (w' & -> & Hq & _).
    exists w'. split; [reflexivity|]. eapply quiet_trans; eassumption.
Qed.

Lemma updateState_runs newState this w :
  exists w',
    User.updateState newState this w
    = (Ok (bool_decide (store_ok w), state_updated w newState this), w')
    /\ step w w' (saved_users w (User.to_row (state_updated w newState this)))
         (messages w) (fetched w).
Proof.
  unfold User.updateState. unfold_M.
  destruct (User_save_runs (state_updated w newState this) w) as (w' & E & H).
  exists w'. split; [|exact H]. unfold state_updated in E. now rewrite E.
Qed.

Lemma updateData_runs newData this w :
  exists w',
    User.updateData newData this w
    = (Ok (bool_decide (store_ok w), data_updated w newData this), w')
    /\ step w w' (saved_users w (User.to_row (data_updated w newData this)))
         (messages w) (fetched w).
Proof.
  unfold User.updateData. unfold_M.
  destruct (User_save_runs (data_updated w newData this) w) as (w' & E & H).
  exists w'. split; [|exact H]. unfold data_updated in E. now rewrite E.
Qed.

(** ** TextHandler *)

Lemma Logger_log_exact message w :
  exists w',
    Logger.log message w = (Ok tt, w') /\ quiet w w'
    /\ console w ++ [(ConsoleLog, js "[INFO] " ++ message)] `prefix_of` console w'
    /\ logs w' = log_written w (js "INFO") message.
Proof.
  destruct (Logger_log_quiet message w) as (w' & E & Hq).
  exists w'. split; [exact E|]. split; [exact Hq|]. clear Hq. revert E.
  unfold Logger.log, Logger.saveToSheet, SpreadsheetService.saveLog,
    SpreadsheetService.getSpreadsheet, SpreadsheetService.ensureSheetExists,
    log_written.
  destruct w as [sid err su sm sl li ld co nw uf fe]. unfold_M. unfold logs. simpl.
  destruct li, sid, err, sl; simpl; intros [= <-]; simpl;
    (split; [solve_prefix|reflexivity]).
Qed.

Lemma truthy_default (s : option jsstring) :
  truthy (Some (default [] s)) = truthy s.
Proof. destruct s as [[|c s]|]; reflexivity. Qed.

Lemma handle_ignored fuel event w :
  ignored event ->
  TextHandler.handle fuel event w = Logger.log (handling_message event) w.
Proof.
  intros Hig. unfold TextHandler.handle, handling_message. unfold_M.
  destruct (Logger_log_quiet
              (js "TextHandler handling message: "
               ++ default (js "undefined") (TextHandler.event_text event)) w)
    as (w' & -> & _).
  rewrite truthy_default.
  destruct Hig as [-> | ->]; [reflexivity|].
  now rewrite orb_true_r.
Qed.

(** C10 as worded fails: with the logger initialised and the spreadsheet
    available, an event without a user id still adds a row to the Logs
    sheet. *)
Lemma ignored_event_is_logged :
  ~ ignored_event_changes_nothing 0 event_without_user fresh_world.
Proof.
  intros H. destruct H as (_ & _ & Hl & _); [left; reflexivity|].
  vm_compute in Hl. discriminate.
Qed.

(** C10, amended. For an event without a user id, or whose text is absent or
    empty, [handle] returns at once: no message row is added, no user row is
    added or changed and no request is sent.  Its opening log line is still
    written: to the console, and as one INFO row of the Logs sheet when the
    logger is initialised and the spreadsheet available. *)
Theorem handle_ignored_event (fuel : nat) (event : LineEvent) (w : World) :
  ignored event ->
  let r := TextHandler.handle fuel event w in
  r.1 = Ok tt
  /\ users r.2 = users w /\ messages r.2 = messages w /\ fetched r.2 = fetched w
  /\ logs r.2 = log_written w (js "INFO") (handling_message event)
  /\ console w ++ [(ConsoleLog, js "[INFO] " ++ handling_message event)]
     `prefix_of` console r.2.
Proof.
  intros Hig. cbv zeta. rewrite (handle_ignored fuel event w Hig).
  destruct (Logger_log_exact (handling_message event) w) as (w' & -> & Hq & Hc & Hl).
  cbn [fst snd]. unfold quiet, step in Hq. intuition.
Qed.

Lemma handle_ignored_event_witness :
  ignored event_without_user
  /\ users (TextHandler.handle 0 event_without_user fresh_world).2 = []
  /\ logs (TextHandler.handle 0 event_without_user fresh_world).2
     = [mkLogRow 1000 (js "INFO") (js "TextHandler handling message: hello")].
Proof.
  assert (Hig : ignored event_without_user) by (left; reflexivity).
  destruct (handle_ignored_event 0 event_without_user fresh_world Hig)
    as (_ & Hu & _ & _ & Hl & _).
  split; [exact Hig|]. split; [exact Hu|]. rewrite Hl. reflexivity.
Defined.

(** *** An accepted event: up to the switch on the user's state *)

Lemma try_bind {A B} (c : M A) (k : A -> M B) h w a w' :
  c w = (Ok a, w') -> try_catch (bind c k) h w = try_catch (k a) h w'.
Proof. intros E. unfold try_catch, bind. now rewrite E. Qed.

Lemma bind_run {A B} (c : M A) (k : A -> M B) w a w' :
  c w = (Ok a, w') -> bind c k w = k a w'.
Proof. intros E. unfold bind. now rewrite E. Qed.

Lemma found_user_step w w' ms fs userId :
  step w w' (users w) ms fs -> found_user w' userId = found_user w userId.
Proof.
  intros H. unfold found_user. rewrite (step_decide_store_ok _ _ _ _ _ _ _ H).
  destruct H as (_&_&_&_&_&_&->&_). reflexivity.
Qed.

Lemma saved_users_step w w' ms fs row :
  step w w' (users w) ms fs -> saved_users w' row = saved_users w row.
Proof.
  intros H. unfold saved_users. rewrite (step_decide_store_ok _ _ _ _ _ _ _ H).
  destruct H as (_&_&_&_&_&_&->&_). reflexivity.
Qed.

Lemma saved_messages_step w w' us fs row :
  step w w' us (messages w) fs -> saved_messages w' row = saved_messages w row.
Proof.
  intros H. unfold saved_messages. rewrite (step_decide_store_ok _ _ _ _ _ _ _ H).
  destruct H as (_&_&_&_&_&_&_&->&_). reflexivity.
Qed.

Lemma step_now w w' us ms fs : step w w' us ms fs -> now w' = now w.
Proof. intros H. apply H. Qed.

Lemma step_self w w' us ms fs :
  step w w' us ms fs -> step w w' (users w') (messages w') (fetched w').
Proof. unfold step. intuition. Qed.

Lemma step_trans w w1 w2 us ms fs us' ms' fs' :
  step w w1 us ms fs -> step w1 w2 us' ms' fs' -> step w w2 us' ms' fs'.
Proof.
  unfold step. intros (?&?&?&?&?&?&?&?&?&?) (?&?&?&?&?&?&?&?&?&?).
  repeat split; try congruence; eapply grows_trans; eassumption.
Qed.

Lemma find_or_create_runs userId w :
  exists w',
    TextHandler.find_or_create userId w = (Ok (current_user w userId), w')
    /\ step w w' (users_with_current w userId) (messages w) (fetched w).
Proof.
  unfold TextHandler.find_or_create, current_user, users_with_current.
  destruct (findByUserId_runs userId w) as (w1 & E1 & H1).
  rewrite (bind_run _ _ _ _ _ E1).
  destruct (found_user w userId) as [u|].
  - exists w1. split; [reflexivity|exact H1].
  - unfold User.new. unfold_M.
    destruct (User_save_runs (fresh_user w1 userId) w1) as (w2 & E2 & H2).
    unfold fresh_user in E2 at 1. rewrite E2.
    exists w2. split.
    + unfold fresh_user. now rewrite (step_now _ _ _ _ _ H1).
    + eapply step_trans; [exact H1|].
      rewrite (saved_users_step _ _ _ _ _ H1) in H2.
      destruct H1 as (_&_&_&_&_&Hn&_&Hm&Hf&_).
      unfold fresh_user in H2. rewrite Hn, Hm, Hf in H2. exact H2.
Qed.

Lemma handle_accepted fuel event w userId text :
  accepted event userId text ->
  exists w1,
    step w w1 (users_with_current w userId)
      (saved_messages w (text_message_row w userId text)) (fetched w)
    /\ TextHandler.handle fuel event w
       = handle_rest fuel event text (current_user w userId) w1.
Proof.
  intros (Hu & Hune & Ht & Htne). unfold TextHandler.handle.
  destruct (Logger_log_quiet
              (js "TextHandler handling message: "
               ++ default (js "undefined") (TextHandler.event_text event)) w)
    as (wa & Ea & Ha).
  rewrite (try_bind _ _ _ _ _ _ Ea). rewrite Hu, Ht. cbn [default].
  destruct userId as [|c0 userId]; [congruence|].
  destruct text as [|t0 text]; [congruence|].
  cbn [from_option id truthy negb orb].
  rewrite (try_bind _ _ _ wa
             (Message.mk (c0 :: userId) (js "text")
                {[js "text" := JStr (t0 :: text)]} (now wa)) wa) by reflexivity.
  destruct (Message_save_runs
              (Message.mk (c0 :: userId) (js "text")
                 {[js "text" := JStr (t0 :: text)]} (now wa)) wa)
    as (wb & Eb & Hb).
  rewrite (try_bind _ _ _ _ _ _ Eb).
  destruct (find_or_create_runs (c0 :: userId) wb) as (wc & Ec & Hc).
  rewrite (try_bind _ _ _ _ _ _ Ec).
  exists wc. split.
  - assert (Hab : step w wb (users w)
                    (saved_messages w (text_message_row w (c0 :: userId) (t0 :: text)))
                    (fetched w)).
    { eapply quiet_step; [exact Ha|].
      rewrite (saved_messages_step _ _ _ _ _ Ha) in Hb.
      unfold Message_row in Hb. cbn in Hb.
      pose proof Ha as (_&_&_&_&_&Hn&Hua&_&Hfa&_).
      unfold text_message_row. rewrite Hn, Hua, Hfa in Hb. exact Hb. }
    eapply step_trans; [exact Hab|].
    assert (Hf : found_user wb (c0 :: userId) = found_user w (c0 :: userId))
      by (eapply found_user_step; exact Hab).
    unfold users_with_current in *. rewrite Hf in Hc.
    rewrite (saved_users_step _ _ _ _ _ Hab) in Hc.
    unfold fresh_user in *. rewrite (step_now _ _ _ _ _ Hab) in Hc.
    destruct Hab as (_&_&_&_&_&_&Hu'&Hm'&Hf'&_).
    rewrite Hu', Hm', Hf' in Hc. exact Hc.
  - assert (Hab : step w wb (users w) (messages wb) (fetched wb)).
    { pose proof (quiet_step _ _ _ _ _ _ Ha (step_self _ _ _ _ _ Hb)) as H.
      replace (users w) with (users wb); [exact H|].
      destruct Hb as (_&_&_&_&_&_&->&_). apply Ha. }
    unfold current_user.
    rewrite (found_user_step _ _ _ _ _ Hab).
    unfold fresh_user. rewrite (step_now _ _ _ _ _ Hab). reflexivity.
Qed.

(** *** Nothing is raised out of [handle] *)

Lemma reply_to_runs event response w :
  exists w', reply_to event response w = (Ok tt, w')
             /\ step w w' (users w) (messages w)
                  (fetched w ++ [Reply (default [] (event_replyToken event)) response]).
Proof.
  unfold reply_to, LineService.replyText.
  destruct (post_step (Reply (default [] (event_replyToken event)) response) w)
    as (res & w' & E & H).
  rewrite (bind_run _ _ _ _ _ E). eauto.
Qed.

Lemma on_error_runs event e w : exists w', on_error event e w = (Ok tt, w').
Proof.
  unfold on_error.
  destruct (Logger_error_quiet (js "TextHandler error: " ++ e) w) as (w1 & E & _).
  rewrite (bind_run _ _ _ _ _ E).
  destruct (truthy (event_replyToken event)); [|eexists; reflexivity].
  destruct (reply_to_runs event MessageConstants.ERROR w1) as (w2 & E2 & _).
  exists w2. exact E2.
Qed.

Lemma try_catch_on_error (c : M unit) event w (e : jsstring) :
  (try_catch c (on_error event) w).1 <> Throw e.
Proof.
  unfold try_catch. destruct (c w) as [[a|e'|] w1]; cbn; try discriminate.
  destruct (on_error_runs event e' w1) as (w2 & ->). discriminate.
Qed.

Lemma handle_never_raises fuel event w e :
  (TextHandler.handle fuel event w).1 <> Throw e.
Proof. apply try_catch_on_error. Qed.

(** C4 as worded fails: with the spreadsheet id not set, every write raises,
    yet [handle] goes on and answers the greeting with the welcome text. *)
Lemma failed_write_not_fatal :
  ~ failed_write_is_fatal 0 hello_event store_down_world.
Proof.
  intros H.
  destruct (H (ltac:(exists (Message_row hello_message); eexists; eexists;
                     vm_compute; reflexivity))
              (Reply (js "token") MessageConstants.WELCOME)) as (tok & Htok).
  - vm_compute. apply list_elem_of_here.
  - vm_compute in Htok. discriminate.
Qed.

(** C4, amended. When the spreadsheet is unavailable the service's write
    raises, after a line on the console, to its caller; that caller is the
    model's [save], which logs the error and returns [false] instead of
    raising; and no call of [handle] ends by raising. *)
Theorem failed_write_is_reported_not_raised
  (user : User.t) (message : Message.t) (w : World) :
  (~ store_ok w ->
   exists e w1 w2,
     SpreadsheetService.saveUserData (User.to_row user) w = (Throw e, w1)
     /\ console w1
        = console w ++ [(ConsoleError, js "Error saving user data: " ++ e)]
     /\ SpreadsheetService.saveMessageData (Message_row message) w = (Throw e, w2)
     /\ console w2
        = console w ++ [(ConsoleError, js "Error saving message data: " ++ e)])
  /\ (forall e w1,
        SpreadsheetService.saveUserData (User.to_row user) w = (Throw e, w1) ->
        exists w', User.save user w = (Ok false, w')
                   /\ (ConsoleError, js "[ERROR] " ++ js "User save error: " ++ e)
                      ∈ console w')
  /\ (forall e w1,
        SpreadsheetService.saveMessageData (Message_row message) w = (Throw e, w1) ->
        exists w', Message.save message w = (Ok false, w')
                   /\ (ConsoleError, js "[ERROR] " ++ js "Message save error: " ++ e)
                      ∈ console w')
  /\ (forall fuel event e, (TextHandler.handle fuel event w).1 <> Throw e).
Proof.
  split; [|split; [|split]].
  - intros Hbad.
    unfold SpreadsheetService.saveUserData, SpreadsheetService.saveMessageData,
      SpreadsheetService.rethrow. unfold_M.
    destruct (getSpreadsheet_fails w Hbad) as (e & ->).
    exists e. do 2 eexists. repeat split.
  - intros e w1 E. destruct (User_save_swallows user w e w1 E) as (w' & ? & _ & ?).
    eauto.
  - intros e w1 E. destruct (Message_save_swallows message w e w1 E) as (w' & ? & _ & ?).
    eauto.
  - intros fuel event e. apply handle_never_raises.
Qed.

Lemma failed_write_is_reported_not_raised_witness :
  ~ store_ok store_down_world
  /\ (exists w', User.save user_U1 store_down_world = (Ok false, w'))
  /\ (exists w', Message.save hello_message store_down_world = (Ok false, w')).
Proof.
  assert (Hbad : ~ store_ok store_down_world)
    by (intros [[sid Hs] _]; discriminate).
  destruct (failed_write_is_reported_not_raised user_U1 hello_message
              store_down_world) as (Hraise & Hu & Hm & _).
  destruct (Hraise Hbad) as (e & w1 & w2 & E1 & _ & E2 & _).
  split; [exact Hbad|]. split.
  - destruct (Hu e w1 E1) as (w' & E & _). eauto.
  - destruct (Hm e w2 E2) as (w' & E & _). eauto.
Defined.

(** *** The switch on the user's state *)

Lemma states_distinct :
  StatusConstants.INITIAL <> StatusConstants.WAITING_NAME
  /\ StatusConstants.INITIAL <> StatusConstants.WAITING_AGE
  /\ StatusConstants.INITIAL <> StatusConstants.REGISTERED
  /\ StatusConstants.WAITING_NAME <> StatusConstants.WAITING_AGE
  /\ StatusConstants.WAITING_NAME <> StatusConstants.REGISTERED
  /\ StatusConstants.WAITING_AGE <> StatusConstants.REGISTERED.
Proof. repeat split; intros H; vm_compute in H; discriminate. Qed.

Ltac pick_state E :=
  unfold TextHandler.respond; rewrite E;
  repeat match goal with
         | |- context [decide (?a = ?a)] => rewrite (decide_True (P := a = a)) by reflexivity
         | |- context [decide (?a = ?b)] =>
             rewrite (decide_False (P := a = b))
               by (intros Hs; vm_compute in Hs; discriminate)
         end.

Lemma respond_INITIAL fuel text user :
  User.state user = StatusConstants.INITIAL ->
  TextHandler.respond fuel text user = TextHandler.handleInitialState text user.
Proof. intros E. now pick_state E. Qed.

Lemma respond_WAITING_NAME fuel text user :
  User.state user = StatusConstants.WAITING_NAME ->
  TextHandler.respond fuel text user
  = TextHandler.handleWaitingNameState fuel text user.
Proof. intros E. now pick_state E. Qed.

Lemma respond_WAITING_AGE fuel text user :
  User.state user = StatusConstants.WAITING_AGE ->
  TextHandler.respond fuel text user
  = TextHandler.handleWaitingAgeState fuel text user.
Proof. intros E. now pick_state E. Qed.

Lemma respond_REGISTERED fuel text user :
  User.state user = StatusConstants.REGISTERED ->
  TextHandler.respond fuel text user
  = TextHandler.handleRegisteredState fuel text user.
Proof. intros E. now pick_state E. Qed.

(** After the switch: the response is sent as one reply; a formatter that
    does not come back leaves [handle] hanging with nothing sent. *)
Lemma handle_rest_replies fuel event text user w1 response user' w2 :
  TextHandler.respond fuel text user w1 = (Ok (response, user'), w2) ->
  exists w3,
    handle_rest fuel event text user w1 = (Ok tt, w3)
    /\ step w2 w3 (users w2) (messages w2)
         (fetched w2 ++ [Reply (default [] (event_replyToken event)) response]).
Proof.
  intros E. unfold handle_rest. rewrite (try_bind _ _ _ _ _ _ E). cbn [fst].
  destruct (reply_to_runs event response w2) as (w3 & E3 & H3).
  exists w3. split; [|exact H3]. unfold try_catch. now rewrite E3.
Qed.

Lemma handle_rest_hangs fuel event text user w1 w2 :
  TextHandler.respond fuel text user w1 = (Hang, w2) ->
  handle_rest fuel event text user w1 = (Hang, w2).
Proof. intros E. unfold handle_rest, try_catch, bind. now rewrite E. Qed.

Lemma update_twice_runs newData newState user w :
  exists w1 w2,
    User.updateData newData user w
    = (Ok (bool_decide (store_ok w), data_updated w newData user), w1)
    /\ User.updateState newState (data_updated w newData user) w1
       = (Ok (bool_decide (store_ok w), twice_updated w newData newState user), w2)
    /\ step w w2
         (saved_twice w (User.to_row (data_updated w newData user))
            (User.to_row (twice_updated w newData newState user)))
         (messages w) (fetched w).
Proof.
  destruct (updateData_runs newData user w) as (w1 & E1 & H1).
  destruct (updateState_runs newState (data_updated w newData user) w1)
    as (w2 & E2 & H2).
  exists w1, w2. unfold twice_updated.
  pose proof (step_now _ _ _ _ _ H1) as Hn.
  unfold state_updated in *. rewrite Hn in E2, H2.
  split; [exact E1|]. split.
  - rewrite E2. do 3 f_equal.
    unfold bool_decide. apply (step_decide_store_ok _ _ _ _ _ _ _ H1).
  - eapply step_trans; [exact H1|]. unfold saved_twice, saved_users in *.
    rewrite (step_decide_store_ok _ _ _ _ _ _ _ H1) in H2.
    destruct H1 as (_&_&_&_&_&_&Hu&Hm&Hf&_). rewrite Hu, Hm, Hf in H2.
    destruct (decide (store_ok w)); exact H2.
Qed.

Lemma upserted_at (r : UserRow) us k row :
  list_find (has_id (ur_userId r)) us = Some (k, row) ->
  upserted r us = <[k := r]> us
  /\ list_find (has_id (ur_userId r)) (<[k := r]> us) = Some (k, r).
Proof.
  intros E. unfold upserted. rewrite E. split; [reflexivity|].
  apply list_find_Some in E as (Hk & Hr & Hbefore).
  apply list_find_Some. split; [|split; [reflexivity|]].
  - apply list_lookup_insert_eq. eapply lookup_lt_Some, Hk.
  - intros j y Hj Hlt. rewrite list_lookup_insert_ne in Hj by lia. eauto.
Qed.

Lemma upserted_twice_at (r1 r2 : UserRow) us k row :
  ur_userId r1 = ur_userId r2 ->
  list_find (has_id (ur_userId r2)) us = Some (k, row) ->
  upserted r2 (upserted r1 us) = <[k := r2]> us.
Proof.
  intros Hid E. rewrite <- Hid in E.
  destruct (upserted_at r1 us k row E) as (-> & E1).
  rewrite Hid in E1. destruct (upserted_at r2 _ k r1 E1) as (-> & _).
  apply list_insert_insert_eq.
Qed.

(** *** The four state handlers *)

Lemma handleInitialState_runs text user w :
  exists w',
    TextHandler.handleInitialState text user w
    = (Ok (if decide (text = js "登録") then
             (MessageConstants.REGISTRATION_START,
              state_updated w StatusConstants.WAITING_NAME user)
           else if decide (text = js "ヘルプ") then (MessageConstants.HELP, user)
           else (MessageConstants.WELCOME, user)), w')
    /\ step w w'
         (if decide (text = js "登録") then
            saved_users w
              (User.to_row (state_updated w StatusConstants.WAITING_NAME user))
          else users w)
         (messages w) (fetched w).
Proof.
  unfold TextHandler.handleInitialState.
  destruct (decide (text = js "登録")).
  - destruct (updateState_runs StatusConstants.WAITING_NAME user w) as (w' & E & H).
    rewrite (bind_run _ _ _ _ _ E). eauto.
  - exists w. split; [|apply quiet_refl]. now destruct (decide (text = js "ヘルプ")).
Qed.

Lemma handleWaitingNameState_rejects fuel text user w :
  (length (trim text) < 2)%nat ->
  TextHandler.handleWaitingNameState fuel text user w
  = (Ok (MessageConstants.INVALID_NAME, user), w).
Proof.
  intros H. unfold TextHandler.handleWaitingNameState.
  destruct (Nat.ltb_spec (length (trim text)) 2); [reflexivity|lia].
Qed.

Lemma handleWaitingNameState_accepts fuel text user w :
  (2 <= length (trim text))%nat ->
  let user' :=
    twice_updated w {[ js "name" := JStr text ]} StatusConstants.WAITING_AGE user in
  exists w',
    step w w'
      (saved_twice w
         (User.to_row (data_updated w {[ js "name" := JStr text ]} user))
         (User.to_row user'))
      (messages w) (fetched w)
    /\ TextHandler.handleWaitingNameState fuel text user w
       = match MessageFormatter.format fuel MessageConstants.NAME_CONFIRMED
                 [(js "name", text)] with
         | Some response => (Ok (response, user'), w')
         | None => (Hang, w')
         end.
Proof.
  intros H. cbv zeta. unfold TextHandler.handleWaitingNameState.
  destruct (Nat.ltb_spec (length (trim text)) 2); [lia|].
  destruct (update_twice_runs {[ js "name" := JStr text ]}
              StatusConstants.WAITING_AGE user w) as (w1 & w2 & E1 & E2 & Hs).
  exists w2. split; [exact Hs|].
  rewrite (bind_run _ _ _ _ _ E1). cbn [snd].
  rewrite (bind_run _ _ _ _ _ E2). cbn [snd].
  unfold bind, lift_option, ret.
  now destruct (MessageFormatter.format fuel MessageConstants.NAME_CONFIRMED
                  [(js "name", text)]).
Qed.

Lemma handleWaitingAgeState_rejects fuel text user w :
  age_refused text ->
  TextHandler.handleWaitingAgeState fuel text user w
  = (Ok (MessageConstants.INVALID_AGE, user), w).
Proof.
  unfold TextHandler.handleWaitingAgeState.
  intros [-> | (age & -> & Hage)]; [reflexivity|].
  destruct (Z.ltb_spec age 1), (Z.ltb_spec 120 age); try reflexivity; lia.
Qed.

Lemma handleWaitingAgeState_accepts fuel text user w age :
  parseInt text = Some age -> 1 <= age <= 120 ->
  let user' :=
    twice_updated w {[ js "age" := JNum age ]} StatusConstants.REGISTERED user in
  exists w',
    step w w'
      (saved_twice w
         (User.to_row (data_updated w {[ js "age" := JNum age ]} user))
         (User.to_row user'))
      (messages w) (fetched w)
    /\ TextHandler.handleWaitingAgeState fuel text user w
       = match MessageFormatter.format fuel
                 MessageConstants.REGISTRATION_COMPLETED
                 [(js "name", or_empty (User.data user' !! js "name"));
                  (js "age", Z_to_js age)] with
         | Some response => (Ok (response, user'), w')
         | None => (Hang, w')
         end.
Proof.
  intros Hp Hage. cbv zeta. unfold TextHandler.handleWaitingAgeState. rewrite Hp.
  destruct (Z.ltb_spec age 1); [lia|]. destruct (Z.ltb_spec 120 age); [lia|].
  cbn [orb].
  destruct (update_twice_runs {[ js "age" := JNum age ]}
              StatusConstants.REGISTERED user w) as (w1 & w2 & E1 & E2 & Hs).
  exists w2. split; [exact Hs|].
  rewrite (bind_run _ _ _ _ _ E1). cbn [snd].
  rewrite (bind_run _ _ _ _ _ E2). cbn [snd].
  unfold bind, lift_option, ret.
  now destruct (MessageFormatter.format fuel _ _).
Qed.

(** The default response has no placeholder, so formatting it returns it. *)
Lemma format_DEFAULT_RESPONSE fuel name :
  MessageFormatter.format fuel MessageConstants.DEFAULT_RESPONSE [(js "name", name)]
  = Some MessageConstants.DEFAULT_RESPONSE.
Proof.
  unfold MessageFormatter.format. cbn [MessageFormatter.format_keys].
  assert (H : includes MessageConstants.DEFAULT_RESPONSE (js "{" ++ js "name" ++ js "}")
              = false) by (vm_compute; reflexivity).
  destruct fuel; cbn [MessageFormatter.replace_while]; now rewrite H.
Qed.

Lemma handleRegisteredState_runs fuel text user w :
  TextHandler.handleRegisteredState fuel text user w
  = (Ok (if decide (text = js "ヘルプ") then MessageConstants.HELP
         else MessageConstants.DEFAULT_RESPONSE, user), w).
Proof.
  unfold TextHandler.handleRegisteredState.
  destruct (decide (text = js "ヘルプ")); [reflexivity|].
  unfold bind, lift_option. now rewrite format_DEFAULT_RESPONSE.
Qed.

(** *** [handle] for a user who has a row *)

Lemma found_user_stored w userId k row :
  store_ok w -> list_find (has_id userId) (users w) = Some (k, row) ->
  found_user w userId = Some (User_of_row row).
Proof.
  intros Hok E. unfold found_user. rewrite decide_True by assumption.
  now rewrite E.
Qed.

(** Whether the formatter comes back or not, the user rows are those left
    by the state handler. *)
Lemma handle_rest_users fuel event text user w1 (o : option jsstring) user' w2 :
  TextHandler.respond fuel text user w1
  = match o with
    | Some response => (Ok (response, user'), w2)
    | None => (Hang, w2)
    end ->
  users (handle_rest fuel event text user w1).2 = users w2
  /\ match o with
     | Some response =>
         (handle_rest fuel event text user w1).1 = Ok tt
         /\ fetched (handle_rest fuel event text user w1).2
            = fetched w2 ++ [Reply (default [] (event_replyToken event)) response]
     | None =>
         (handle_rest fuel event text user w1).1 = Hang
         /\ fetched (handle_rest fuel event text user w1).2 = fetched w2
     end.
Proof.
  intros E. destruct o as [response|].
  - destruct (handle_rest_replies fuel event text user w1 response user' w2 E)
      as (w3 & -> & H3). cbn [fst snd]. split; [apply H3|].
    split; [reflexivity|apply H3].
  - rewrite (handle_rest_hangs fuel event text user w1 w2 E). now cbn.
Qed.

Lemma saved_twice_stored w w1 ms fs userId k row newData newState :
  store_ok w -> step w w1 (users w) ms fs ->
  list_find (has_id userId) (users w) = Some (k, row) ->
  saved_twice w1
    (User.to_row (data_updated w1 newData (User_of_row row)))
    (User.to_row (twice_updated w1 newData newState (User_of_row row)))
  = <[k := row_updated w row newData newState]> (users w).
Proof.
  intros Hok Hs E. unfold saved_twice.
  rewrite (step_decide_store_ok _ _ _ _ _ _ _ Hs), decide_True by assumption.
  pose proof (step_now _ _ _ _ _ Hs) as Hn.
  destruct Hs as (_&_&_&_&_&_&->&_).
  assert (Hid : ur_userId row = userId)
    by (apply list_find_Some in E as (_ & H & _); exact H).
  unfold twice_updated, state_updated, data_updated. rewrite Hn.
  erewrite upserted_twice_at; [reflexivity|reflexivity|].
  cbn. rewrite Hid. exact E.
Qed.

Lemma handle_rest_INITIAL fuel event text user w1 :
  User.state user = StatusConstants.INITIAL ->
  let r := handle_rest fuel event text user w1 in
  r.1 = Ok tt
  /\ fetched r.2
     = fetched w1 ++ [Reply (default [] (event_replyToken event)) (initial_reply text)]
  /\ users r.2
     = (if decide (text = js "登録") then
          saved_users w1
            (User.to_row (state_updated w1 StatusConstants.WAITING_NAME user))
        else users w1)
  /\ messages r.2 = messages w1.
Proof.
  intros Hstate. cbv zeta.
  destruct (handleInitialState_runs text user w1) as (w2 & E2 & H2).
  rewrite <- (respond_INITIAL fuel text user Hstate) in E2.
  assert (E2' : TextHandler.respond fuel text user w1
                = (Ok (initial_reply text,
                       if decide (text = js "登録")
                       then state_updated w1 StatusConstants.WAITING_NAME user
                       else user), w2)).
  { rewrite E2. unfold initial_reply.
    destruct (decide (text = js "登録")); [reflexivity|].
    now destruct (decide (text = js "ヘルプ")). }
  destruct (handle_rest_replies fuel event text user w1 _ _ w2 E2')
    as (w3 & -> & H3).
  cbn [fst snd]. split; [reflexivity|].
  destruct H3 as (_&_&_&_&_&_&->&->&->&_).
  destruct H2 as (_&_&_&_&_&_&->&->&->&_). repeat split.
Qed.

Section stored_user.

(** An accepted text event of a user whose row is the [k]-th of the Users
    sheet, the spreadsheet being available. *)
Context (fuel : nat) (event : LineEvent) (w : World)
  (userId text : jsstring) (k : nat) (row : UserRow).
Hypothesis Hacc : accepted event userId text.
Hypothesis Hok : store_ok w.
Hypothesis E : list_find (has_id userId) (users w) = Some (k, row).

Lemma handle_existing :
  exists w1,
    step w w1 (users w) (messages w ++ [text_message_row w userId text]) (fetched w)
    /\ TextHandler.handle fuel event w
       = handle_rest fuel event text (User_of_row row) w1.
Proof.
  destruct (handle_accepted fuel event w userId text Hacc) as (w1 & Hs & Hh).
  exists w1. unfold users_with_current, current_user, saved_messages in *.
  rewrite (found_user_stored w userId k row Hok E) in *.
  rewrite decide_True in Hs by assumption. split; assumption.
Qed.

(** X27. INITIAL: the register keyword moves the user to WAITING_NAME and is
    answered with the registration-start text; the help keyword is answered
    with the help text and anything else with the welcome text, the rows
    staying as they are. *)
Lemma initial_transition :
  ur_state row = StatusConstants.INITIAL ->
  let r := TextHandler.handle fuel event w in
  r.1 = Ok tt
  /\ fetched r.2
     = fetched w ++ [Reply (default [] (event_replyToken event)) (initial_reply text)]
  /\ users r.2
     = (if decide (text = js "登録")
        then <[k := row_in_state w row StatusConstants.WAITING_NAME]> (users w)
        else users w).
Proof.
  intros Hstate. cbv zeta.
  destruct handle_existing as (w1 & Hs & ->).
  destruct (handle_rest_INITIAL fuel event text (User_of_row row) w1 Hstate)
    as (-> & -> & -> & _).
  split; [reflexivity|].
  pose proof (step_now _ _ _ _ _ Hs) as Hn.
  split; [f_equal; apply Hs|].
  destruct (decide (text = js "登録")); [|apply Hs].
  unfold saved_users. rewrite (step_decide_store_ok _ _ _ _ _ _ _ Hs).
  rewrite decide_True by assumption.
  destruct Hs as (_&_&_&_&_&_&->&_).
  assert (Hid : ur_userId row = userId)
    by (apply list_find_Some in E as (_ & H & _); exact H).
  unfold state_updated. rewrite Hn.
  refine (proj1 (upserted_at _ (users w) k row _)). cbn. rewrite Hid. exact E.
Qed.

(** WAITING_NAME: a text whose trimmed length is below 2 is answered with the
    validation error and changes nothing; any other text is stored as the
    name, untrimmed, and the state becomes WAITING_AGE, after which the
    confirmation is formatted and, if the formatter comes back, sent. *)
Lemma waiting_name_transition :
  ur_state row = StatusConstants.WAITING_NAME ->
  let r := TextHandler.handle fuel event w in
  ((length (trim text) < 2)%nat ->
   r.1 = Ok tt
   /\ fetched r.2 = fetched w ++ [Reply (default [] (event_replyToken event))
                                    MessageConstants.INVALID_NAME]
   /\ users r.2 = users w)
  /\ ((2 <= length (trim text))%nat ->
      users r.2
      = <[k := row_updated w row {[ js "name" := JStr text ]}
                 StatusConstants.WAITING_AGE]> (users w)
      /\ match MessageFormatter.format fuel MessageConstants.NAME_CONFIRMED
                 [(js "name", text)] with
         | Some response =>
             r.1 = Ok tt
             /\ fetched r.2
                = fetched w ++ [Reply (default [] (event_replyToken event)) response]
         | None => r.1 = Hang /\ fetched r.2 = fetched w
         end).
Proof.
  intros Hstate. cbv zeta.
  destruct handle_existing as (w1 & Hs & ->).
  assert (Hr : TextHandler.respond fuel text (User_of_row row)
               = TextHandler.handleWaitingNameState fuel text (User_of_row row))
    by (apply respond_WAITING_NAME; exact Hstate).
  split.
  - intros Hshort.
    pose proof (handleWaitingNameState_rejects fuel text (User_of_row row) w1 Hshort)
      as E1.
    rewrite <- Hr in E1.
    destruct (handle_rest_replies fuel event text _ w1 _ _ w1 E1) as (w3 & -> & H3).
    cbn [fst snd]. split; [reflexivity|].
    destruct H3 as (_&_&_&_&_&_&->&_&->&_).
    destruct Hs as (_&_&_&_&_&_&->&_&->&_). split; reflexivity.
  - intros Hlong.
    destruct (handleWaitingNameState_accepts fuel text (User_of_row row) w1 Hlong)
      as (w2 & H2 & E2).
    rewrite <- Hr in E2.
    destruct (handle_rest_users fuel event text _ w1 _ _ w2 E2) as (-> & Hout).
    destruct H2 as (_&_&_&_&_&_&->&_&Hf2&_). split.
    + eapply (saved_twice_stored w w1 _ _ userId k row); eassumption.
    + destruct Hs as (_&_&_&_&_&_&_&_&Hf1&_). rewrite Hf2, Hf1 in Hout.
      exact Hout.
Qed.

(** C5, amended. For a stored user in state WAITING_AGE and every text: when
    [parseInt(text)] is NaN or lies outside [1,120], the one request sent is
    the reply with the validation error and the user rows stay as they are;
    when [parseInt(text)] lies in [1,120], the user's row is rewritten with
    that age in its data and state REGISTERED.  One of the two always
    applies.  [parseInt] reads the longest leading integer and ignores what
    follows it; "thirty", "0" and "121" are refused, "1" and "120" are read
    as 1 and 120. *)
Theorem waiting_age_transition :
  ur_state row = StatusConstants.WAITING_AGE ->
  let r := TextHandler.handle fuel event w in
  (age_refused text ->
   r.1 = Ok tt
   /\ fetched r.2 = fetched w ++ [Reply (default [] (event_replyToken event))
                                    MessageConstants.INVALID_AGE]
   /\ users r.2 = users w)
  /\ (forall age,
        parseInt text = Some age -> 1 <= age <= 120 ->
        users r.2
        = <[k := row_updated w row {[ js "age" := JNum age ]}
                   StatusConstants.REGISTERED]> (users w))
  /\ (age_refused text \/ exists age, parseInt text = Some age /\ 1 <= age <= 120)
  /\ age_refused (js "thirty") /\ age_refused (js "0") /\ age_refused (js "121")
  /\ parseInt (js "1") = Some 1 /\ parseInt (js "120") = Some 120.
Proof.
  intros Hstate. cbv zeta.
  destruct handle_existing as (w1 & Hs & ->).
  assert (Hr : TextHandler.respond fuel text (User_of_row row)
               = TextHandler.handleWaitingAgeState fuel text (User_of_row row))
    by (apply respond_WAITING_AGE; exact Hstate).
  split; [|split; [|split]].
  - intros Href.
    pose proof (handleWaitingAgeState_rejects fuel text (User_of_row row) w1 Href)
      as E1.
    rewrite <- Hr in E1.
    destruct (handle_rest_replies fuel event text _ w1 _ _ w1 E1) as (w3 & -> & H3).
    cbn [fst snd]. split; [reflexivity|].
    destruct H3 as (_&_&_&_&_&_&->&_&->&_).
    destruct Hs as (_&_&_&_&_&_&->&_&->&_). split; reflexivity.
  - intros age Hp Hage.
    destruct (handleWaitingAgeState_accepts fuel text (User_of_row row) w1 age
                Hp Hage) as (w2 & H2 & E2).
    rewrite <- Hr in E2.
    destruct (handle_rest_users fuel event text _ w1 _ _ w2 E2) as (-> & _).
    destruct H2 as (_&_&_&_&_&_&->&_).
    eapply (saved_twice_stored w w1 _ _ userId k row); eassumption.
  - unfold age_refused.
    destruct (parseInt text) as [age|]; [|left; left; reflexivity].
    destruct (Z.lt_ge_cases age 1);
      [left; right; exists age; split; [reflexivity|lia]|].
    destruct (Z.lt_ge_cases 120 age);
      [left; right; exists age; split; [reflexivity|lia]|].
    right. exists age. split; [reflexivity|lia].
  - unfold age_refused. repeat split; try reflexivity.
    + now left.
    + right. exists 0. split; [reflexivity|lia].
    + right. exists 121. split; [reflexivity|lia].
Qed.

(** X28. REGISTERED: the help keyword is answered with the help text, anything
    else with the default response; the user rows stay as they are. *)
Lemma registered_transition :
  ur_state row = StatusConstants.REGISTERED ->
  let r := TextHandler.handle fuel event w in
  r.1 = Ok tt
  /\ fetched r.2
     = fetched w ++ [Reply (default [] (event_replyToken event)) (registered_reply text)]
  /\ users r.2 = users w.
Proof.
  intros Hstate. cbv zeta.
  destruct handle_existing as (w1 & Hs & ->).
  pose proof (handleRegisteredState_runs fuel text (User_of_row row) w1) as E1.
  rewrite <- (respond_REGISTERED fuel text (User_of_row row) Hstate) in E1.
  destruct (handle_rest_replies fuel event text _ w1 _ _ w1 E1) as (w3 & -> & H3).
  cbn [fst snd]. split; [reflexivity|].
  destruct H3 as (_&_&_&_&_&_&->&_&->&_).
  destruct Hs as (_&_&_&_&_&_&->&_&->&_). split; reflexivity.
Qed.

End stored_user.

(** X29. A user without a row: the row is created in state INITIAL, and the
    INITIAL row of the table is applied to it. *)
Lemma new_user_transition (fuel : nat) (event : LineEvent) (w : World)
  (userId text : jsstring) :
  accepted event userId text -> store_ok w ->
  list_find (has_id userId) (users w) = None ->
  let created := User.to_row (fresh_user w userId) in
  let r := TextHandler.handle fuel event w in
  ur_state created = StatusConstants.INITIAL
  /\ r.1 = Ok tt
  /\ fetched r.2
     = fetched w ++ [Reply (default [] (event_replyToken event)) (initial_reply text)]
  /\ users r.2
     = users w ++ [if decide (text = js "登録")
                   then row_in_state w created StatusConstants.WAITING_NAME
                   else created].
Proof.
  intros Hacc Hok E. cbv zeta. split; [reflexivity|].
  destruct (handle_accepted fuel event w userId text Hacc) as (w1 & Hs & ->).
  unfold users_with_current, current_user, found_user, saved_users in Hs |- *.
  rewrite decide_True in Hs |- * by assumption. rewrite E in Hs |- *.
  cbn [fmap option_fmap option_map from_option] in Hs |- *.
  rewrite decide_True in Hs by assumption.
  unfold upserted in Hs. cbn [User.to_row fresh_user ur_userId User.userId] in Hs.
  rewrite E in Hs.
  destruct (handle_rest_INITIAL fuel event text (fresh_user w userId) w1 eq_refl)
    as (-> & -> & -> & _).
  split; [reflexivity|].
  pose proof (step_now _ _ _ _ _ Hs) as Hn.
  split; [f_equal; apply Hs|].
  assert (Hu : users w1 = users w ++ [User.to_row (fresh_user w userId)])
    by apply Hs.
  destruct (decide (text = js "登録")); [|exact Hu].
  unfold saved_users. rewrite (step_decide_store_ok _ _ _ _ _ _ _ Hs).
  rewrite decide_True by assumption. rewrite Hu.
  unfold state_updated. rewrite Hn.
  assert (Hfind : list_find (has_id userId)
                    (users w ++ [User.to_row (fresh_user w userId)])
                  = Some (length (users w), User.to_row (fresh_user w userId))).
  { apply list_find_Some. split; [|split; [reflexivity|]].
    - rewrite lookup_app_r by lia. now rewrite Nat.sub_diag.
    - intros j y Hj Hlt. rewrite lookup_app_l in Hj by lia.
      apply list_find_None in E. rewrite Forall_forall in E.
      apply E, list_elem_of_lookup. eauto. }
  unfold upserted. cbn [User.to_row User.set_updatedAt User.set_state fresh_user
                        ur_userId User.userId]. rewrite Hfind.
  rewrite insert_app_r_alt by lia. rewrite Nat.sub_diag. reflexivity.
Qed.

(** *** The transitions at concrete inputs *)

Lemma U1_says_accepted text :
  js text <> [] -> accepted (U1_says text) (js "U1") (js text).
Proof.
  intros H. repeat split; try assumption.
  intros H'. vm_compute in H'. discriminate.
Qed.

Lemma fresh_world_users_ok us : store_ok (set_sheetUsers (Some us) fresh_world).
Proof. split; [eexists; reflexivity|reflexivity]. Qed.

(** C5 as worded fails: "30abc" is not an integer, yet [parseInt] reads 30
    from it and the user is registered with age 30. *)
Lemma age_with_trailing_text_accepted :
  ~ non_integer_age_rejected 10 (U1_says "30abc") world_awaiting_age.
Proof.
  intros H. specialize (H (js "30abc") eq_refl eq_refl).
  vm_compute in H. discriminate.
Qed.

Lemma waiting_age_transition_witness :
  accepted (U1_says "30") (js "U1") (js "30")
  /\ store_ok world_awaiting_age
  /\ users (TextHandler.handle 10 (U1_says "30") world_awaiting_age).2
     = [registered_U1]
  /\ age_refused (js "thirty")
  /\ fetched (TextHandler.handle 10 (U1_says "thirty") world_awaiting_age).2
     = [Reply (js "token") MessageConstants.INVALID_AGE].
Proof.
  assert (H30 : accepted (U1_says "30") (js "U1") (js "30"))
    by (apply U1_says_accepted; intros H; vm_compute in H; discriminate).
  assert (Hth : accepted (U1_says "thirty") (js "U1") (js "thirty"))
    by (apply U1_says_accepted; intros H; vm_compute in H; discriminate).
  assert (Hok : store_ok world_awaiting_age) by apply fresh_world_users_ok.
  assert (Hfind : list_find (has_id (js "U1")) (users world_awaiting_age)
                  = Some (0%nat, awaiting_age_U1)) by reflexivity.
  destruct (waiting_age_transition 10 (U1_says "30") world_awaiting_age
              (js "U1") (js "30") 0 awaiting_age_U1 H30 Hok Hfind eq_refl)
    as (_ & Hacc & _).
  destruct (waiting_age_transition 10 (U1_says "thirty") world_awaiting_age
              (js "U1") (js "thirty") 0 awaiting_age_U1 Hth Hok Hfind eq_refl)
    as (Hrej & _ & _ & Hthirty & _).
  split; [exact H30|]. split; [exact Hok|]. split.
  - rewrite (Hacc 30 eq_refl ltac:(lia)). reflexivity.
  - split; [exact Hthirty|]. destruct (Hrej Hthirty) as (_ & -> & _). reflexivity.
Defined.

(** Formatting the name confirmation with the name "{name}" does not come
    back. *)
Lemma format_NAME_CONFIRMED_stuck fuel :
  MessageFormatter.format fuel MessageConstants.NAME_CONFIRMED
    [(js "name", js "{name}")] = None.
Proof.
  unfold MessageFormatter.format. cbn [MessageFormatter.format_keys].
  rewrite replace_while_stuck; [reflexivity| |]; vm_compute; reflexivity.
Qed.

(** C1, at the input where it fails: user U1 is in state WAITING_NAME and
    sends the text "{name}".  The name is stored and the state moved to
    WAITING_AGE, but [handle] then hangs in the formatter for any number of
    loop iterations allowed, and no reply is sent. *)
Theorem handle_hangs_on_placeholder_name (fuel : nat) :
  let r := TextHandler.handle fuel (U1_says "{name}") world_with_U1 in
  r.1 = Hang /\ fetched r.2 = [] /\ users r.2 = [placeholder_named_U1].
Proof.
  cbv zeta.
  assert (Hacc : accepted (U1_says "{name}") (js "U1") (js "{name}"))
    by (apply U1_says_accepted; intros H; vm_compute in H; discriminate).
  assert (Hok : store_ok world_with_U1) by apply fresh_world_users_ok.
  assert (Hfind : list_find (has_id (js "U1")) (users world_with_U1)
                  = Some (0%nat, stored_U1)) by reflexivity.
  destruct (waiting_name_transition fuel (U1_says "{name}") world_with_U1
              (js "U1") (js "{name}") 0 stored_U1 Hacc Hok Hfind eq_refl)
    as (_ & Hlong).
  destruct Hlong as (Hu & Hout); [vm_compute; lia|].
  rewrite format_NAME_CONFIRMED_stuck in Hout. destruct Hout as (-> & ->).
  rewrite Hu. repeat split.
Qed.

(** *** When the formatter does come back *)

Lemma startsWith_split p s :
  startsWith p s = true -> s = p ++ drop (length p) s.
Proof.
  revert s. induction p as [|a p IH]; intros s H; [reflexivity|].
  destruct s as [|b s]; [discriminate|]. simpl in H.
  destruct (N.eqb_spec a b) as [->|]; [|discriminate].
  cbn [length drop app]. f_equal. now apply IH.
Qed.

Lemma find_first_split p s before after :
  find_first p s = Some (before, after) -> s = before ++ p ++ after.
Proof.
  revert before after. induction s as [|c s IH]; intros before after H.
  - simpl in H. destruct (startsWith p []) eqn:E; [|discriminate].
    injection H as <- <-. now apply startsWith_split.
  - simpl in H. destruct (startsWith p (c :: s)) eqn:E.
    + injection H as <- <-. now apply startsWith_split.
    + destruct (find_first p s) as [[b a]|]; [|discriminate].
      injection H as <- <-. cbn [app]. f_equal. now apply IH.
Qed.

Lemma GetSubstitution_plain matched before after v :
  36%N ∉ v -> GetSubstitution matched before after v = v.
Proof.
  induction v as [|c v IH]; intros H; [reflexivity|].
  apply not_elem_of_cons in H as [Hc Hv]. simpl.
  destruct (N.eqb_spec c 36) as [->|_]; [congruence|]. f_equal. now apply IH.
Qed.

Lemma count_brace_app (s t : list N) :
  count_brace (s ++ t) = (count_brace s + count_brace t)%nat.
Proof. unfold count_brace. now rewrite filter_app, length_app. Qed.

Lemma count_brace_plain (v : list N) : 123%N ∉ v -> count_brace v = 0%nat.
Proof.
  unfold count_brace. induction v as [|c v IH]; intros H; [reflexivity|].
  apply not_elem_of_cons in H as [Hc Hv].
  rewrite filter_cons_False by congruence. now apply IH.
Qed.

(** With parameter values free of opening braces and dollar signs, each turn
    of the loop removes one opening brace, so the formatter returns once the
    iterations allowed reach the number of opening braces of the template. *)
Lemma replace_while_returns key value :
  plain value ->
  forall fuel result,
    (count_brace result <= fuel)%nat ->
    exists r,
      MessageFormatter.replace_while fuel result (js "{" ++ key ++ js "}") value
      = Some r
      /\ (count_brace r <= count_brace result)%nat.
Proof.
  change (js "{") with [123%N]. change (js "}") with [125%N].
  intros [Hb Hd] fuel. induction fuel as [|fuel IH]; intros result Hc.
  - simpl. unfold includes.
    destruct (find_first _ result) as [[b a]|] eqn:E; [|eauto].
    apply find_first_split in E. rewrite E in Hc.
    rewrite !count_brace_app in Hc. unfold count_brace at 2 in Hc.
    rewrite filter_cons_True in Hc by reflexivity. simpl in Hc. lia.
  - simpl. unfold includes, replace.
    destruct (find_first _ result) as [[b a]|] eqn:E; [|eauto].
    apply find_first_split in E. rewrite GetSubstitution_plain by assumption.
    destruct (IH (b ++ value ++ a)) as (r & Hr & Hle).
    + rewrite E in Hc. rewrite !count_brace_app in *.
      rewrite (count_brace_plain value) by assumption.
      unfold count_brace at 2 in Hc.
      rewrite filter_cons_True in Hc by reflexivity. simpl in Hc. lia.
    + exists r. split; [exact Hr|]. rewrite E. rewrite !count_brace_app in *.
      rewrite (count_brace_plain value) in Hle by assumption. lia.
Qed.

Lemma format_returns params :
  Forall (fun kv => plain kv.2) params ->
  forall fuel template,
    (count_brace template <= fuel)%nat ->
    exists r, MessageFormatter.format fuel template params = Some r.
Proof.
  unfold MessageFormatter.format.
  induction 1 as [|[key value] params Hv _ IH]; intros fuel template Hc.
  - simpl. eauto.
  - cbn [MessageFormatter.format_keys]. cbv zeta.
    destruct (replace_while_returns key value Hv fuel template Hc) as (r & -> & Hle).
    apply IH. lia.
Qed.

(** In state WAITING_NAME a name of two or more characters that holds
    neither an opening brace nor a dollar sign is confirmed with one reply,
    once a single loop iteration is allowed. *)
Lemma waiting_name_plain_reply (fuel : nat) (event : LineEvent) (w : World)
  (userId text : jsstring) (k : nat) (row : UserRow) :
  accepted event userId text -> store_ok w ->
  list_find (has_id userId) (users w) = Some (k, row) ->
  ur_state row = StatusConstants.WAITING_NAME ->
  (2 <= length (trim text))%nat -> plain text -> (1 <= fuel)%nat ->
  let r := TextHandler.handle fuel event w in
  exists response,
    MessageFormatter.format fuel MessageConstants.NAME_CONFIRMED [(js "name", text)]
    = Some response
    /\ r.1 = Ok tt
    /\ fetched r.2
       = fetched w ++ [Reply (default [] (event_replyToken event)) response].
Proof.
  intros Hacc Hok E Hstate Hlong Hplain Hfuel. cbv zeta.
  destruct (waiting_name_transition fuel event w userId text k row Hacc Hok E Hstate)
    as (_ & H).
  destruct (H Hlong) as (_ & Hout).
  destruct (format_returns [(js "name", text)]
              ltac:(repeat constructor; apply Hplain) fuel
              MessageConstants.NAME_CONFIRMED) as (response & Hr).
  { change (count_brace MessageConstants.NAME_CONFIRMED) with 1%nat. exact Hfuel. }
  rewrite Hr in Hout. exists response. split; [exact Hr|exact Hout].
Qed.

(** *** The scenario of the specification *)

Example registration_scenario :
  ur_state <$> users scenario_1 = [StatusConstants.WAITING_NAME]
  /\ last_reply scenario_1 = Some MessageConstants.REGISTRATION_START
  /\ ur_state <$> users scenario_2 = [StatusConstants.WAITING_AGE]
  /\ last_reply_includes scenario_2 "Al" = true
  /\ users scenario_3 = users scenario_2
  /\ last_reply scenario_3 = Some MessageConstants.INVALID_AGE
  /\ ur_state <$> users scenario_4 = [StatusConstants.REGISTERED]
  /\ last_reply_includes scenario_4 "Al" = true
  /\ last_reply_includes scenario_4 "30" = true
  /\ length (messages scenario_4) = 4%nat.
Proof. vm_compute. repeat split. Qed.

(** *** The same round trip through the model *)

(** X30. With the spreadsheet available, saving a [User] and finding it
    again by its id gives a user with the same id, state, data, creation
    time and updated-timestamp (absent when it was absent), and with the
    same display name as text: a [null] display name comes back as [''],
    the value the sheet hands back for the empty cell. *)
Lemma User_save_then_find (this : User.t) (w : World) :
  store_ok w ->
  exists found,
    (User.findByUserId (User.userId this) (User.save this w).2).1
    = Ok (Some found)
    /\ User.userId found = User.userId this
    /\ default [] (User.displayName found) = default [] (User.displayName this)
    /\ User.state found = User.state this
    /\ User.data found = User.data this
    /\ User.createdAt found = User.createdAt this
    /\ User.updatedAt found = User.updatedAt this.
Proof.
  intros Hok. destruct (User_save_runs this w) as (w1 & -> & H1). cbn [snd].
  destruct (findByUserId_runs (User.userId this) w1) as (w2 & -> & _). cbn [fst].
  unfold found_user. rewrite (step_decide_store_ok _ _ _ _ _ _ _ H1).
  rewrite decide_True by assumption.
  unfold saved_users in H1. rewrite decide_True in H1 by assumption.
  destruct H1 as (_&_&_&_&_&_&->&_).
  destruct (list_find_upserted (User.to_row this) (users w)) as (k & Hk).
  cbn [User.to_row ur_userId] in Hk. rewrite Hk.
  exists (User_of_row (User.to_row this)). now destruct this.
Qed.

(** It is [updateState] and [updateData] that stamp [updatedAt]; a freshly
    constructed user has none. *)
Lemma update_stamps_updatedAt (this : User.t) (w : World) newState newData :
  User.updatedAt (state_updated w newState this) = Some (now w)
  /\ User.updatedAt (data_updated w newData this) = Some (now w)
  /\ User.updatedAt (fresh_user w (User.userId this)) = None.
Proof. repeat split. Qed.

(** ** TextHandler: what every event leaves behind *)

Lemma upserts_trans userId us1 us2 us3 :
  upserts userId us1 us2 -> upserts userId us2 us3 -> upserts userId us1 us3.
Proof.
  induction 1; [easy|]. intros H3. eapply upserts_more; eauto.
Qed.

Lemma upserts_one userId row us :
  ur_userId row = userId -> upserts userId us (upserted row us).
Proof. intros. eapply upserts_more; [eassumption|constructor]. Qed.

Lemma upserts_saved_users userId w row :
  ur_userId row = userId -> upserts userId (users w) (saved_users w row).
Proof.
  intros. unfold saved_users. destruct (decide (store_ok w)).
  - now apply upserts_one.
  - constructor.
Qed.

Lemma upserts_saved_twice userId w r1 r2 :
  ur_userId r1 = userId -> ur_userId r2 = userId ->
  upserts userId (users w) (saved_twice w r1 r2).
Proof.
  intros. unfold saved_twice. destruct (decide (store_ok w)).
  - apply (upserts_more _ _ r1); [assumption|]. now apply upserts_one.
  - constructor.
Qed.

Lemma step_users w w' us ms fs : step w w' us ms fs -> users w' = us.
Proof. intros H. apply H. Qed.

Lemma step_messages w w' us ms fs : step w w' us ms fs -> messages w' = ms.
Proof. intros H. apply H. Qed.

Lemma step_fetched w w' us ms fs : step w w' us ms fs -> fetched w' = fs.
Proof. intros H. apply H. Qed.

(** Whatever the state of the user, the switch raises nothing, sends nothing
    and leaves the message rows alone; the user rows change by writes of the
    user's own row only. *)
Lemma respond_frame fuel text user w :
  let r := TextHandler.respond fuel text user w in
  (forall e, r.1 <> Throw e)
  /\ messages r.2 = messages w /\ fetched r.2 = fetched w
  /\ upserts (User.userId user) (users w) (users r.2).
Proof.
  cbv zeta. unfold TextHandler.respond.
  destruct (decide (User.state user = StatusConstants.INITIAL)).
  { destruct (handleInitialState_runs text user w) as (w' & -> & Hs).
    cbn [fst snd]. split; [discriminate|].
    rewrite (step_messages _ _ _ _ _ Hs), (step_fetched _ _ _ _ _ Hs),
      (step_users _ _ _ _ _ Hs).
    repeat split. destruct (decide (text = js "登録")).
    - now apply upserts_saved_users.
    - constructor. }
  destruct (decide (User.state user = StatusConstants.WAITING_NAME)).
  { destruct (Nat.lt_ge_cases (length (trim text)) 2) as [Hl|Hl].
    - rewrite (handleWaitingNameState_rejects fuel text user w Hl).
      cbn [fst snd]. repeat split; [discriminate|constructor].
    - destruct (handleWaitingNameState_accepts fuel text user w Hl)
        as (w' & Hs & ->).
      rewrite <- (step_messages _ _ _ _ _ Hs), <- (step_fetched _ _ _ _ _ Hs).
      assert (Hu : upserts (User.userId user) (users w) (users w')).
      { rewrite (step_users _ _ _ _ _ Hs). now apply upserts_saved_twice. }
      destruct (MessageFormatter.format _ _ _); cbn [fst snd];
        repeat split; try discriminate; assumption. }
  destruct (decide (User.state user = StatusConstants.WAITING_AGE)).
  { destruct (parseInt text) as [age|] eqn:Ep.
    - destruct (decide (1 <= age <= 120)) as [Hr|Hr].
      + destruct (handleWaitingAgeState_accepts fuel text user w age Ep Hr)
          as (w' & Hs & ->).
        rewrite <- (step_messages _ _ _ _ _ Hs), <- (step_fetched _ _ _ _ _ Hs).
        assert (Hu : upserts (User.userId user) (users w) (users w')).
        { rewrite (step_users _ _ _ _ _ Hs). now apply upserts_saved_twice. }
        destruct (MessageFormatter.format _ _ _); cbn [fst snd];
          repeat split; try discriminate; assumption.
      + rewrite (handleWaitingAgeState_rejects fuel text user w).
        * cbn [fst snd]. repeat split; [discriminate|constructor].
        * right. exists age. split; [assumption|lia].
    - rewrite (handleWaitingAgeState_rejects fuel text user w).
      + cbn [fst snd]. repeat split; [discriminate|constructor].
      + now left. }
  destruct (decide (User.state user = StatusConstants.REGISTERED)).
  { rewrite handleRegisteredState_runs. cbn [fst snd].
    repeat split; [discriminate|constructor]. }
  cbn [fst snd ret]. repeat split; [discriminate|constructor].
Qed.

(** The same for the rest of [handle]: one reply goes out unless the
    formatter does not come back. *)
Lemma handle_rest_frame fuel event text user w1 :
  let r := handle_rest fuel event text user w1 in
  messages r.2 = messages w1
  /\ upserts (User.userId user) (users w1) (users r.2)
  /\ ((r.1 = Ok tt
       /\ exists response,
            fetched r.2
            = fetched w1 ++ [Reply (default [] (event_replyToken event)) response])
      \/ (r.1 = Hang /\ fetched r.2 = fetched w1)).
Proof.
  cbv zeta.
  destruct (respond_frame fuel text user w1) as (Hne & Hm & Hf & Hu).
  destruct (TextHandler.respond fuel text user w1) as [[[response user']|e|] w2] eqn:E;
    cbn [fst snd] in *.
  - destruct (handle_rest_replies fuel event text user w1 _ _ w2 E)
      as (w3 & -> & H3). cbn [fst snd].
    rewrite (step_messages _ _ _ _ _ H3), (step_users _ _ _ _ _ H3),
      (step_fetched _ _ _ _ _ H3), Hm, Hf.
    split; [reflexivity|]. split; [assumption|]. left. split; [reflexivity|].
    now exists response.
  - now destruct (Hne e).
  - rewrite (handle_rest_hangs fuel event text user w1 w2 E). cbn [fst snd].
    split; [assumption|]. split; [assumption|]. right. now split.
Qed.

Lemma found_user_id w userId u : found_user w userId = Some u -> User.userId u = userId.
Proof.
  unfold found_user. destruct (decide (store_ok w)); [|discriminate].
  destruct (list_find _ _) as [[k r]|] eqn:E; [|discriminate].
  cbn. intros [= <-]. apply list_find_Some in E. apply E.
Qed.

Lemma current_user_id w userId : User.userId (current_user w userId) = userId.
Proof.
  unfold current_user. destruct (found_user w userId) eqn:E; cbn.
  - eapply found_user_id; eassumption.
  - reflexivity.
Qed.

Lemma handle_frame fuel event w userId text :
  accepted event userId text ->
  let r := TextHandler.handle fuel event w in
  messages r.2 = saved_messages w (text_message_row w userId text)
  /\ upserts userId (users w) (users r.2)
  /\ ((r.1 = Ok tt
       /\ exists response,
            fetched r.2
            = fetched w ++ [Reply (default [] (event_replyToken event)) response])
      \/ (r.1 = Hang /\ fetched r.2 = fetched w)).
Proof.
  intros Hacc. cbv zeta.
  destruct (handle_accepted fuel event w userId text Hacc) as (w1 & Hs & ->).
  destruct (handle_rest_frame fuel event text (current_user w userId) w1)
    as (Hm & Hu & Hf).
  rewrite current_user_id in Hu.
  rewrite (step_messages _ _ _ _ _ Hs), (step_users _ _ _ _ _ Hs),
    (step_fetched _ _ _ _ _ Hs) in *.
  split; [assumption|]. split; [|assumption].
  eapply upserts_trans; [|eassumption].
  unfold users_with_current. destruct (found_user w userId).
  - constructor.
  - now apply upserts_saved_users.
Qed.

Lemma ids_upserted row us :
  ((ur_userId row ∈ ids us) /\ ids (upserted row us) = ids us)
  \/ ((ur_userId row ∉ ids us) /\ ids (upserted row us) = ids us ++ [ur_userId row]).
Proof.
  unfold upserted, ids.
  destruct (list_find (has_id (ur_userId row)) us) as [[k r]|] eqn:E.
  - apply list_find_Some in E as (Hk & Hid & _). left. split.
    + rewrite <- Hid. apply list_elem_of_fmap. exists r. split; [reflexivity|].
      eapply list_elem_of_lookup_2; eassumption.
    + rewrite list_fmap_insert. apply list_insert_id.
      rewrite list_lookup_fmap, Hk. cbn. now rewrite Hid.
  - right. apply list_find_None in E. split.
    + intros Hin. apply list_elem_of_fmap in Hin as (r & Hr & Hin).
      rewrite Forall_forall in E. apply (E r Hin). now symmetry.
    + now rewrite fmap_app.
Qed.

Lemma others_kept_upserted row us : others_kept (ur_userId row) us (upserted row us).
Proof.
  intros j r Hj Hne. unfold upserted.
  destruct (list_find (has_id (ur_userId row)) us) as [[k r0]|] eqn:E.
  - apply list_find_Some in E as (Hk & Hid & _).
    destruct (decide (k = j)) as [->|Hkj].
    + rewrite Hj in Hk. injection Hk as ->. now destruct Hne.
    + now rewrite list_lookup_insert_ne.
  - rewrite lookup_app_l; [assumption|]. eapply lookup_lt_Some; eassumption.
Qed.

Lemma upserts_ids userId us us' :
  upserts userId us us' ->
  ids us' = ids us \/ ((userId ∉ ids us) /\ ids us' = ids us ++ [userId]).
Proof.
  induction 1 as [us|us row us' <- _ IH]; [now left|].
  destruct (ids_upserted row us) as [[Hin E]|[Hout E]]; rewrite E in IH.
  - destruct IH as [IH|[Hout _]]; [now left|now destruct Hout].
  - destruct IH as [IH|[Hout' _]]; [right; now split|].
    destruct Hout'. apply elem_of_app. right. apply list_elem_of_singleton.
    reflexivity.
Qed.

Lemma upserts_others userId us us' :
  upserts userId us us' -> others_kept userId us us'.
Proof.
  induction 1 as [us|us row us' <- _ IH]; [intros j r Hj _; exact Hj|].
  intros j r Hj Hne. apply IH; [|assumption].
  now apply others_kept_upserted.
Qed.

Lemma ignored_or_accepted event :
  ignored event \/ exists userId text, accepted event userId text.
Proof.
  unfold ignored, accepted.
  destruct (source_userId (event_source event)) as [[|c userId]|];
    [left; now left| |left; now left].
  destruct (TextHandler.event_text event) as [[|d text]|];
    [left; now right| |left; now right].
  right. exists (c :: userId), (d :: text). repeat split; discriminate.
Qed.

(** X1. Every text event that carries a user id and a non-empty text leaves
    exactly one new row in the Messages sheet when the spreadsheet is
    available, [userId, 'text', {text}, now], after the rows already there,
    and no row otherwise; that holds in every conversation state, also when
    the reply is never sent. *)
Theorem handle_appends_one_message (fuel : nat) (event : LineEvent) (w : World)
  (userId text : jsstring) :
  accepted event userId text ->
  messages (TextHandler.handle fuel event w).2
  = if decide (store_ok w)
    then messages w
         ++ [mkMessageRow userId (js "text") {[ js "text" := JStr text ]} (now w)]
    else messages w.
Proof.
  intros Hacc. destruct (handle_frame fuel event w userId text Hacc) as (Hm & _).
  exact Hm.
Qed.

Lemma handle_appends_one_message_witness :
  accepted hello_event (js "U1") (js "hello")
  /\ messages (TextHandler.handle 10 hello_event fresh_world).2
     = [Message_row hello_message].
Proof.
  assert (Hacc : accepted hello_event (js "U1") (js "hello"))
    by (apply (U1_says_accepted "hello"); intros H; vm_compute in H; discriminate).
  split; [exact Hacc|].
  rewrite (handle_appends_one_message 10 hello_event fresh_world _ _ Hacc).
  reflexivity.
Defined.

(** X2. Whatever the event, [TextHandler.handle] hands at most one request to
    the transport, and that request is a reply to the event's own token (the
    empty token when the event has none): no push, no loading animation. *)
Theorem handle_sends_at_most_one_reply (fuel : nat) (event : LineEvent) (w : World) :
  let r := TextHandler.handle fuel event w in
  fetched r.2 = fetched w
  \/ exists response,
       fetched r.2
       = fetched w ++ [Reply (default [] (event_replyToken event)) response].
Proof.
  cbv zeta. destruct (ignored_or_accepted event) as [Hig|(userId & text & Hacc)].
  - left. rewrite (handle_ignored fuel event w Hig).
    destruct (Logger_log_quiet (handling_message event) w) as (w' & -> & Hq).
    apply (step_fetched _ _ _ _ _ Hq).
  - destruct (handle_frame fuel event w userId text Hacc)
      as (_ & _ & [[_ Hf]|[_ Hf]]); [right; exact Hf|left; exact Hf].
Qed.

(** X3. A text event changes no user row but the sender's: every row of
    another user stays at its position, no row is removed, the list of user
    ids is as before or has the sender's id added at the end, and user ids
    that were unique stay unique. *)
Theorem handle_touches_only_sender_row (fuel : nat) (event : LineEvent) (w : World)
  (userId text : jsstring) :
  accepted event userId text ->
  let us := users w in
  let us' := users (TextHandler.handle fuel event w).2 in
  (forall j r, us !! j = Some r -> ur_userId r <> userId -> us' !! j = Some r)
  /\ (ur_userId <$> us' = ur_userId <$> us
      \/ ((userId ∉ ur_userId <$> us)
          /\ ur_userId <$> us' = (ur_userId <$> us) ++ [userId]))
  /\ (NoDup (ur_userId <$> us) -> NoDup (ur_userId <$> us')).
Proof.
  intros Hacc. cbv zeta.
  destruct (handle_frame fuel event w userId text Hacc) as (_ & Hu & _).
  pose proof (upserts_ids _ _ _ Hu) as Hids. unfold ids in Hids.
  split; [exact (upserts_others _ _ _ Hu)|]. split; [exact Hids|].
  intros Hnd. destruct Hids as [->|[Hout ->]]; [assumption|].
  apply NoDup_app. split; [assumption|]. split.
  - intros x Hx Hx'. apply list_elem_of_singleton in Hx'. now subst.
  - apply NoDup_singleton.
Qed.

Lemma handle_touches_only_sender_row_witness :
  accepted (U1_says "Al") (js "U1") (js "Al")
  /\ users (TextHandler.handle 10 (U1_says "Al") two_users_world).2 !! 0%nat
     = Some stored_U2.
Proof.
  assert (Hacc : accepted (U1_says "Al") (js "U1") (js "Al"))
    by (apply (U1_says_accepted "Al"); intros H; vm_compute in H; discriminate).
  split; [exact Hacc|].
  destruct (handle_touches_only_sender_row 10 (U1_says "Al") two_users_world
              _ _ Hacc) as (Hkept & _).
  apply Hkept; [reflexivity|]. intros H; vm_compute in H; discriminate.
Defined.

(** X4. A stored user whose state is none of INITIAL, WAITING_NAME,
    WAITING_AGE and REGISTERED gets the generic error text as the reply to
    every message, and the row is never changed: the conversation cannot
    leave such a state. *)
Theorem handle_unknown_state (fuel : nat) (event : LineEvent) (w : World)
  (userId text : jsstring) (k : nat) (row : UserRow) :
  accepted event userId text -> store_ok w ->
  list_find (has_id userId) (users w) = Some (k, row) ->
  unknown_state (ur_state row) ->
  let r := TextHandler.handle fuel event w in
  r.1 = Ok tt
  /\ fetched r.2
     = fetched w ++ [Reply (default [] (event_replyToken event)) MessageConstants.ERROR]
  /\ users r.2 = users w.
Proof.
  intros Hacc Hok E (H1 & H2 & H3 & H4). cbv zeta.
  destruct (handle_existing fuel event w userId text k row Hacc Hok E)
    as (w1 & Hs & ->).
  assert (E1 : TextHandler.respond fuel text (User_of_row row) w1
               = (Ok (MessageConstants.ERROR, User_of_row row), w1)).
  { unfold TextHandler.respond. cbn [User_of_row User.state].
    rewrite !decide_False by assumption. reflexivity. }
  destruct (handle_rest_replies fuel event text _ w1 _ _ w1 E1) as (w3 & -> & H).
  cbn [fst snd]. split; [reflexivity|].
  rewrite (step_fetched _ _ _ _ _ H), (step_users _ _ _ _ _ H),
    (step_fetched _ _ _ _ _ Hs), (step_users _ _ _ _ _ Hs). split; reflexivity.
Qed.

Lemma handle_unknown_state_witness :
  accepted hello_event (js "U1") (js "hello")
  /\ store_ok archived_world
  /\ unknown_state (ur_state archived_U1)
  /\ fetched (TextHandler.handle 10 hello_event archived_world).2
     = [Reply (js "token") MessageConstants.ERROR].
Proof.
  assert (Hacc : accepted hello_event (js "U1") (js "hello"))
    by (apply (U1_says_accepted "hello"); intros H; vm_compute in H; discriminate).
  assert (Hok : store_ok archived_world) by apply fresh_world_users_ok.
  assert (Hun : unknown_state (ur_state archived_U1))
    by (repeat split; intros H; vm_compute in H; discriminate).
  split; [exact Hacc|]. split; [exact Hok|]. split; [exact Hun|].
  destruct (handle_unknown_state 10 hello_event archived_world (js "U1") (js "hello")
              0 archived_U1 Hacc Hok eq_refl Hun) as (_ & -> & _).
  reflexivity.
Defined.

(** X5. While the spreadsheet is unavailable every sender is treated as a new
    user in state INITIAL: the event is answered with the INITIAL reply for
    its text, and neither a user row nor a message row is written, so a
    registration cannot make progress. *)
Theorem handle_without_store (fuel : nat) (event : LineEvent) (w : World)
  (userId text : jsstring) :
  accepted event userId text -> ~ store_ok w ->
  let r := TextHandler.handle fuel event w in
  r.1 = Ok tt
  /\ fetched r.2
     = fetched w ++ [Reply (default [] (event_replyToken event)) (initial_reply text)]
  /\ users r.2 = users w /\ messages r.2 = messages w.
Proof.
  intros Hacc Hno. cbv zeta.
  destruct (handle_accepted fuel event w userId text Hacc) as (w1 & Hs & ->).
  unfold users_with_current, current_user, found_user, saved_users, saved_messages
    in Hs |- *.
  rewrite !(decide_False (P := store_ok w)) in Hs |- * by assumption.
  cbn [from_option] in Hs |- *.
  destruct (handle_rest_INITIAL fuel event text (fresh_user w userId) w1 eq_refl)
    as (-> & -> & -> & ->).
  rewrite (step_fetched _ _ _ _ _ Hs), (step_messages _ _ _ _ _ Hs).
  repeat split.
  unfold saved_users. rewrite (step_decide_store_ok _ _ _ _ _ _ _ Hs).
  rewrite (decide_False (P := store_ok w)) by assumption.
  rewrite (step_users _ _ _ _ _ Hs).
  - rewrite !(decide_False (P := store_ok w)) by assumption.
    now destruct (decide (text = js "登録")).
  - now rewrite (decide_False (P := store_ok w)) by assumption.
Qed.

Lemma handle_without_store_witness :
  accepted hello_event (js "U1") (js "hello")
  /\ ~ store_ok store_down_world
  /\ fetched (TextHandler.handle 10 hello_event store_down_world).2
     = [Reply (js "token") MessageConstants.WELCOME].
Proof.
  assert (Hacc : accepted hello_event (js "U1") (js "hello"))
    by (apply (U1_says_accepted "hello"); intros H; vm_compute in H; discriminate).
  assert (Hno : ~ store_ok store_down_world)
    by (intros [[x Hx] _]; discriminate).
  split; [exact Hacc|]. split; [exact Hno|].
  destruct (handle_without_store 10 hello_event store_down_world _ _ Hacc Hno)
    as (_ & -> & _).
  reflexivity.
Defined.

(** ** ImageHandler, DefaultHandler and the transport *)

(** X6. For an image event with a user id and a message id the handler
    writes the row [userId, 'image', {messageId}, now] to the Messages sheet
    when the spreadsheet is available, and hands exactly one request to the
    transport: the start of a loading animation of 20 seconds for the user.
    It sends no reply, touches no user row and returns normally even when the
    transport raises. *)
Theorem ImageHandler_handle_accepted (event : LineEvent) (w : World)
  (userId messageId : jsstring) :
  image_ids event userId messageId ->
  let r := ImageHandler.handle event w in
  r.1 = Ok tt
  /\ fetched r.2 = fetched w ++ [LoadingStart userId 20]
  /\ messages r.2
     = (if decide (store_ok w)
        then messages w
             ++ [mkMessageRow userId (js "image")
                   {[ js "messageId" := JStr messageId ]} (now w)]
        else messages w)
  /\ users r.2 = users w.
Proof.
  intros (Hu & Hune & Hm & Hmne). cbv zeta. unfold ImageHandler.handle.
  destruct (Logger_log_quiet (js "ImageHandler handling image message") w)
    as (wa & Ea & Ha).
  rewrite (try_bind _ _ _ _ _ _ Ea). rewrite Hu, Hm.
  destruct userId as [|c0 userId]; [congruence|].
  destruct messageId as [|m0 messageId]; [congruence|].
  cbn [from_option id default truthy negb orb].
  rewrite (try_bind _ _ _ wa
             (Message.mk (c0 :: userId) (js "image")
                {[js "messageId" := JStr (m0 :: messageId)]} (now wa)) wa)
    by reflexivity.
  destruct (Message_save_runs
              (Message.mk (c0 :: userId) (js "image")
                 {[js "messageId" := JStr (m0 :: messageId)]} (now wa)) wa)
    as (wb & Eb & Hb).
  rewrite (try_bind _ _ _ _ _ _ Eb).
  unfold LineService.sendLoadingAnimation. cbn [from_option id default].
  destruct (post_step (LoadingStart (c0 :: userId) 20) wb) as (res & wc & Ec & Hc).
  rewrite (try_bind _ _ _ _ _ _ Ec). cbn [try_catch ret fst snd].
  split; [reflexivity|].
  rewrite (step_fetched _ _ _ _ _ Hc), (step_messages _ _ _ _ _ Hc),
    (step_users _ _ _ _ _ Hc), (step_fetched _ _ _ _ _ Hb),
    (step_messages _ _ _ _ _ Hb), (step_users _ _ _ _ _ Hb),
    (step_fetched _ _ _ _ _ Ha), (step_users _ _ _ _ _ Ha).
  split; [reflexivity|]. split; [|reflexivity].
  rewrite (saved_messages_step _ _ _ _ _ Ha). unfold saved_messages, Message_row.
  cbn [Message.userId Message.type Message.content Message.timestamp].
  now rewrite (step_now _ _ _ _ _ Ha).
Qed.

Lemma ImageHandler_handle_accepted_witness :
  image_ids image_event (js "U1") (js "m7")
  /\ fetched (ImageHandler.handle image_event (transport_down fresh_world)).2
     = [LoadingStart (js "U1") 20]
  /\ messages (ImageHandler.handle image_event (transport_down fresh_world)).2
     = [mkMessageRow (js "U1") (js "image") {[ js "messageId" := JStr (js "m7") ]}
          1000].
Proof.
  assert (Hids : image_ids image_event (js "U1") (js "m7"))
    by (repeat split; intros H; vm_compute in H; discriminate).
  split; [exact Hids|].
  destruct (ImageHandler_handle_accepted image_event (transport_down fresh_world)
              _ _ Hids) as (_ & -> & -> & _).
  split; reflexivity.
Defined.

(** X7. An image event without a user id or without a message id is only
    logged: the handler returns normally, writes the error line
    [Missing userId or messageId], stores no row and sends nothing, not
    even the error reply. *)
Theorem ImageHandler_handle_missing_ids (event : LineEvent) (w : World) :
  image_ids_missing event ->
  let r := ImageHandler.handle event w in
  r.1 = Ok tt
  /\ users r.2 = users w /\ messages r.2 = messages w /\ fetched r.2 = fetched w
  /\ (ConsoleError, js "[ERROR] " ++ js "Missing userId or messageId")
     ∈ console r.2.
Proof.
  intros Hmiss. cbv zeta. unfold ImageHandler.handle.
  destruct (Logger_log_quiet (js "ImageHandler handling image message") w)
    as (wa & Ea & Ha).
  rewrite (try_bind _ _ _ _ _ _ Ea).
  assert (Hc : negb (truthy (source_userId (event_source event)))
               || negb (truthy (message_id <$> event_message event)) = true).
  { destruct Hmiss as [-> | ->]; [reflexivity|apply orb_true_r]. }
  rewrite Hc.
  destruct (Logger_error_quiet (js "Missing userId or messageId") wa)
    as (wb & Eb & Hb & Hin).
  rewrite (try_bind _ _ _ _ _ _ Eb). cbn [try_catch ret fst snd].
  split; [reflexivity|].
  rewrite (step_users _ _ _ _ _ Hb), (step_messages _ _ _ _ _ Hb),
    (step_fetched _ _ _ _ _ Hb), (step_users _ _ _ _ _ Ha),
    (step_messages _ _ _ _ _ Ha), (step_fetched _ _ _ _ _ Ha).
  repeat split. exact Hin.
Qed.

Lemma ImageHandler_handle_missing_ids_witness :
  image_ids_missing event_without_message
  /\ fetched (ImageHandler.handle event_without_message fresh_world).2 = []
  /\ messages (ImageHandler.handle event_without_message fresh_world).2 = [].
Proof.
  assert (Hmiss : image_ids_missing event_without_message) by (right; reflexivity).
  split; [exact Hmiss|].
  destruct (ImageHandler_handle_missing_ids event_without_message fresh_world Hmiss)
    as (_ & _ & -> & -> & _).
  split; reflexivity.
Defined.

(** X8. The default handler answers nobody: for every event, with or without
    a reply token, it returns normally, logs the event type, and leaves the
    user rows, the message rows and the transport untouched. *)
Theorem DefaultHandler_handle_only_logs (event : LineEvent) (w : World) :
  let r := DefaultHandler.handle event w in
  r.1 = Ok tt
  /\ users r.2 = users w /\ messages r.2 = messages w /\ fetched r.2 = fetched w
  /\ console w
     ++ [(ConsoleLog,
          js "[INFO] "
          ++ js "DefaultHandler handling event type: "
          ++ event_type_name (event_type event))]
     `prefix_of` console r.2.
Proof.
  cbv zeta. unfold DefaultHandler.handle.
  destruct (Logger_log_exact
              (js "DefaultHandler handling event type: "
               ++ event_type_name (event_type event)) w)
    as (wa & Ea & Ha & Hca & _).
  rewrite (try_bind _ _ _ _ _ _ Ea).
  destruct (truthy (event_replyToken event)).
  - match goal with |- context [Logger.log ?m] =>
      destruct (Logger_log_quiet m wa) as (wb & Eb & Hb) end.
    unfold try_catch. rewrite Eb. cbn [fst snd]. split; [reflexivity|].
    rewrite (step_users _ _ _ _ _ Hb), (step_messages _ _ _ _ _ Hb),
      (step_fetched _ _ _ _ _ Hb), (step_users _ _ _ _ _ Ha),
      (step_messages _ _ _ _ _ Ha), (step_fetched _ _ _ _ _ Ha).
    repeat split. etransitivity; [exact Hca|]. apply Hb.
  - cbn [try_catch ret fst snd]. split; [reflexivity|].
    rewrite (step_users _ _ _ _ _ Ha), (step_messages _ _ _ _ _ Ha),
      (step_fetched _ _ _ _ _ Ha). repeat split. exact Hca.
Qed.

(** X9. [post] never raises and hands the request to the transport exactly
    once.  An answer of the platform is returned with its code and body as
    they are, also when the code is 400 or more, in which case the body is
    logged as an error; when the fetch itself raises, the result is code 500
    with the error's message as the body. *)
Theorem post_result (r : Request) (w : World) :
  let res := LineService.post r w in
  fetched res.2 = fetched w ++ [r]
  /\ users res.2 = users w /\ messages res.2 = messages w
  /\ match UrlFetch w (length (fetched w)) r with
     | Response responseCode responseBody =>
         res.1 = Ok (responseCode, responseBody)
         /\ (400 <= responseCode ->
             (ConsoleError, js "[ERROR] " ++ js "LINE API error: " ++ responseBody)
             ∈ console res.2)
     | FetchRaises m =>
         res.1 = Ok (500, m)
         /\ (ConsoleError, js "[ERROR] " ++ js "Error in post: " ++ m)
            ∈ console res.2
     end.
Proof.
  cbv zeta.
  destruct (post_step r w) as (res & w' & E & Hs).
  rewrite E. cbn [fst snd].
  rewrite (step_users _ _ _ _ _ Hs), (step_messages _ _ _ _ _ Hs),
    (step_fetched _ _ _ _ _ Hs).
  repeat (split; [reflexivity|]).
  revert E. unfold LineService.post. unfold_M.
  destruct (UrlFetch w (length (fetched w)) r) as [code body|m].
  - match goal with |- context [Logger.log ?m ?w0] =>
      destruct (Logger_log_quiet m w0) as (w1 & -> & H1) end.
    destruct (Z.leb_spec 400 code).
    + destruct (Logger_error_quiet (js "LINE API error: " ++ body) w1)
        as (w2 & -> & H2 & Hin).
      intros [= <- <-]. split; [reflexivity|]. intros _. exact Hin.
    + intros [= <- <-]. split; [reflexivity|]. lia.
  - match goal with |- context [Logger.error ?m ?w0] =>
      destruct (Logger_error_quiet m w0) as (w1 & -> & H1 & Hin) end.
    intros [= <- <-]. split; [reflexivity|]. exact Hin.
Qed.

(** ** The logger, the message history and the sheets *)

(** X10. A logger that is initialised while the spreadsheet cannot be opened
    still returns normally from [error]: the line goes to the console,
    followed by one console line that reports the failed sheet write, and
    the Logs sheet is left as it is. *)
Theorem Logger_error_with_unreachable_sheet (message e : jsstring) (w : World) :
  loggerInitialized w = true -> is_Some (spreadsheetId w) ->
  openByIdError w = Some e ->
  let r := Logger.error message w in
  r.1 = Ok tt
  /\ sheetLogs r.2 = sheetLogs w
  /\ console r.2
     = console w
       ++ [(ConsoleError, js "[ERROR] " ++ message);
           (ConsoleError, js "Failed to save log to sheet: " ++ e)].
Proof.
  destruct w as [sid err su sm sl li ld co nw uf fe]. cbn [loggerInitialized
    spreadsheetId openByIdError]. intros -> [id ->] ->. cbv zeta.
  unfold Logger.error, Logger.saveToSheet, SpreadsheetService.saveLog,
    SpreadsheetService.getSpreadsheet. unfold_M. simpl.
  rewrite <- app_assoc. repeat split.
Qed.

Lemma Logger_error_with_unreachable_sheet_witness :
  loggerInitialized sheet_gone_world = true
  /\ console (Logger.error (js "boom") sheet_gone_world).2
     = [(ConsoleError, js "[ERROR] boom");
        (ConsoleError, js "Failed to save log to sheet: Document is missing")].
Proof.
  split; [reflexivity|].
  destruct (Logger_error_with_unreachable_sheet (js "boom")
              (js "Document is missing") sheet_gone_world eq_refl
              ltac:(eexists; reflexivity) eq_refl) as (_ & _ & ->).
  reflexivity.
Defined.

(** X11. Log lines reach the Logs sheet only after [initialize]: with the
    spreadsheet available, [log] on an uninitialised logger leaves the sheet
    alone, and after [initialize] it appends the row [now, 'INFO', message];
    [debug] after an [initialize] without debug mode does nothing at all. *)
Theorem Logger_initialize_enables_sheet (isDebugMode : option bool)
  (message : jsstring) (w : World) :
  store_ok w ->
  let w1 := (Logger.initialize isDebugMode w).2 in
  (loggerInitialized w = false -> logs (Logger.log message w).2 = logs w)
  /\ logs (Logger.log message w1).2
     = logs w ++ [mkLogRow (now w) (js "INFO") message]
  /\ (default false isDebugMode = false -> Logger.debug message w1 = (Ok tt, w1)).
Proof.
  intros Hok. cbv zeta. split; [|split].
  - intros Hli. destruct (Logger_log_exact message w) as (w' & -> & _ & _ & Hl).
    cbn [snd]. rewrite Hl. unfold log_written. now rewrite Hli.
  - destruct (Logger_log_exact message (Logger.initialize isDebugMode w).2)
      as (w' & -> & _ & _ & Hl).
    cbn [snd] in *. rewrite Hl. unfold log_written. cbn [Logger.initialize modify snd set_logger
      loggerInitialized andb].
    rewrite bool_decide_eq_true_2; [reflexivity|].
    destruct Hok as [H1 H2]. split; assumption.
  - intros Hd. unfold Logger.debug, Logger.initialize. unfold_M.
    cbn [snd set_logger loggerDebugMode]. now rewrite Hd.
Qed.

Lemma Logger_initialize_enables_sheet_witness :
  store_ok uninitialised_world
  /\ logs (Logger.log (js "up") uninitialised_world).2 = []
  /\ logs (Logger.log (js "up") (Logger.initialize None uninitialised_world).2).2
     = [mkLogRow 1000 (js "INFO") (js "up")].
Proof.
  assert (Hok : store_ok uninitialised_world)
    by (split; [eexists; reflexivity|reflexivity]).
  split; [exact Hok|].
  destruct (Logger_initialize_enables_sheet None (js "up") uninitialised_world Hok)
    as (H0 & H1 & _).
  split; [exact (H0 eq_refl)|exact H1].
Defined.

Lemma getMessagesByUserId_raises userId limit w :
  ~ store_ok w ->
  exists e w', SpreadsheetService.getMessagesByUserId userId limit w = (Throw e, w')
               /\ quiet w w'.
Proof.
  intros Hbad. unfold SpreadsheetService.getMessagesByUserId,
    SpreadsheetService.rethrow.
  unfold_M. destruct (getSpreadsheet_fails w Hbad) as (e & ->).
  exists e. eexists. split; [reflexivity|].
  destruct w; unfold quiet, step; solve_frame.
Qed.

(** X12. [Message.getHistoryByUserId] does not raise when the spreadsheet is
    unavailable: it logs the error and answers with the empty history,
    which a caller cannot tell from a user who never wrote. *)
Theorem getHistoryByUserId_store_down (userId : jsstring) (limit : option Z)
  (w : World) :
  ~ store_ok w ->
  let r := Message.getHistoryByUserId userId limit w in
  r.1 = Ok []
  /\ users r.2 = users w /\ messages r.2 = messages w /\ fetched r.2 = fetched w
  /\ exists e,
       (ConsoleError, js "[ERROR] " ++ js "Get message history error: " ++ e)
       ∈ console r.2.
Proof.
  intros Hbad. cbv zeta.
  destruct (getMessagesByUserId_raises userId (Some (default 10 limit)) w Hbad)
    as (e & w1 & E & H1).
  unfold Message.getHistoryByUserId. unfold_M. rewrite E.
  destruct (Logger_error_quiet (js "Get message history error: " ++ e) w1)
    as (w2 & -> & H2 & Hin).
  cbn [fst snd].
  rewrite (step_users _ _ _ _ _ H2), (step_messages _ _ _ _ _ H2),
    (step_fetched _ _ _ _ _ H2), (step_users _ _ _ _ _ H1),
    (step_messages _ _ _ _ _ H1), (step_fetched _ _ _ _ _ H1).
  repeat split. now exists e.
Qed.

Lemma getHistoryByUserId_store_down_witness :
  ~ store_ok store_down_world
  /\ (Message.getHistoryByUserId (js "U1") None store_down_world).1 = Ok [].
Proof.
  assert (Hno : ~ store_ok store_down_world)
    by (intros [[x Hx] _]; discriminate).
  split; [exact Hno|].
  destruct (getHistoryByUserId_store_down (js "U1") None store_down_world Hno)
    as (-> & _).
  reflexivity.
Defined.

Lemma sort_insert_older a row rest :
  mr_timestamp a < mr_timestamp row ->
  sort_insert newest_first a (row :: rest)
  = row :: sort_insert newest_first a rest.
Proof.
  intros H. cbn [sort_insert]. unfold newest_first at 1.
  destruct (Z.leb_spec (mr_timestamp row - mr_timestamp a) 0); [lia|reflexivity].
Qed.

Lemma Array_sort_newest l row :
  Forall (fun r => mr_timestamp r < mr_timestamp row) l ->
  exists rest, Array_sort newest_first (l ++ [row]) = row :: rest.
Proof.
  unfold Array_sort. induction 1 as [|a l Ha _ (rest & IH)].
  - now exists [].
  - cbn [app foldr]. rewrite IH. rewrite sort_insert_older by assumption. eauto.
Qed.

Lemma slice0_head {A} (x : A) rest L :
  1 <= L -> exists rest', slice0 (x :: rest) L = x :: rest'.
Proof.
  intros HL. unfold slice0. destruct (Z.ltb_spec L 0); [lia|].
  destruct (Z.to_nat (Z.min L (Z.of_nat (length (x :: rest))))) eqn:E;
    [cbn [length] in E; lia|].
  eexists; reflexivity.
Qed.

(** X13. Save and read back: once a message whose time is later than that of
    every stored message of the same user has been saved, the history of
    that user, read with any limit of at least one, starts with this very
    message. *)
Theorem saved_message_heads_history (m : Message.t) (limit : option Z) (w : World) :
  store_ok w ->
  all_older (Message.userId m) (Message.timestamp m) (messages w) ->
  1 <= default 10 limit ->
  exists rest,
    (Message.getHistoryByUserId (Message.userId m) limit (Message.save m w).2).1
    = Ok (m :: rest).
Proof.
  intros Hok Hold Hl.
  destruct (Message_save_runs m w) as (w1 & -> & H1). cbn [snd].
  assert (Hok1 : store_ok w1) by (apply (step_store_ok _ _ _ _ _ H1); exact Hok).
  destruct (getMessagesByUserId_runs (Message.userId m) (Some (default 10 limit))
              w1 Hok1) as (w2 & E & _).
  unfold Message.getHistoryByUserId. unfold_M. rewrite E. cbn [fst default].
  rewrite (step_messages _ _ _ _ _ H1). unfold saved_messages.
  rewrite decide_True by assumption.
  rewrite filter_app. rewrite (filter_cons_True _ (Message_row m)) by reflexivity.
  rewrite filter_nil.
  destruct (Array_sort_newest
              (filter (fun row => mr_userId row = Message.userId m) (messages w))
              (Message_row m)) as (rest & ->).
  { apply Forall_forall. intros r Hr. apply list_elem_of_filter in Hr as [Hid Hin].
    unfold all_older in Hold. rewrite Forall_forall in Hold.
    exact (Hold r Hin Hid). }
  destruct (slice0_head (Message_row m) rest (default 10 limit) Hl) as (rest' & Hs).
  change (id (default 10 limit)) with (default 10 limit). rewrite Hs.
  cbn [fmap list_fmap].
  exists (Message.of_row <$> rest'). f_equal. f_equal. now destruct m.
Qed.

Lemma saved_message_heads_history_witness :
  store_ok history_world
  /\ all_older (js "U1") 40 (messages history_world)
  /\ exists rest,
       (Message.getHistoryByUserId (js "U1") (Some 2)
          (Message.save msg_t4 history_world).2).1 = Ok (msg_t4 :: rest).
Proof.
  assert (Hok : store_ok history_world)
    by (split; [eexists; reflexivity|reflexivity]).
  assert (Hold : all_older (js "U1") 40 (messages history_world))
    by (repeat constructor; cbn; intros _; lia).
  split; [exact Hok|]. split; [exact Hold|].
  apply (saved_message_heads_history msg_t4 (Some 2) history_world Hok Hold).
  cbn. lia.
Defined.

(** X14. With the spreadsheet available [initializeSheets] returns normally
    and leaves all three sheets in existence with the data rows they had
    (none for a sheet it had to create); calling it again changes nothing,
    not even the console. *)
Theorem initializeSheets_idempotent (w : World) :
  store_ok w ->
  let r := SpreadsheetService.initializeSheets w in
  r.1 = Ok tt
  /\ sheetUsers r.2 = Some (users w)
  /\ sheetMessages r.2 = Some (messages w)
  /\ sheetLogs r.2 = Some (logs w)
  /\ fetched r.2 = fetched w
  /\ SpreadsheetService.initializeSheets r.2 = (Ok tt, r.2).
Proof.
  destruct w as [sid err su sm sl li ld co nw uf fe].
  intros [[id Hid] Herr]. cbn in Hid, Herr. subst. cbv zeta.
  destruct su, sm, sl; cbv -[js app]; repeat split.
Qed.

Lemma initializeSheets_idempotent_witness :
  store_ok fresh_world
  /\ sheetUsers (SpreadsheetService.initializeSheets fresh_world).2 = Some []
  /\ SpreadsheetService.initializeSheets
       (SpreadsheetService.initializeSheets fresh_world).2
     = (Ok tt, (SpreadsheetService.initializeSheets fresh_world).2).
Proof.
  assert (Hok : store_ok fresh_world)
    by (split; [eexists; reflexivity|reflexivity]).
  split; [exact Hok|].
  destruct (initializeSheets_idempotent fresh_world Hok) as (_ & Hu & _ & _ & _ & Hi).
  split; [exact Hu|exact Hi].
Defined.

(** X15. When the spreadsheet id is not set or the spreadsheet cannot be
    opened, [initializeSheets] raises that error again after writing one
    line to the console, and creates no sheet. *)
Theorem initializeSheets_unavailable (w : World) :
  ~ store_ok w ->
  let r := SpreadsheetService.initializeSheets w in
  r.1 = Throw (match spreadsheetId w with
               | None => js "Spreadsheet ID is not set"
               | Some _ => default [] (openByIdError w)
               end)
  /\ sheetUsers r.2 = sheetUsers w /\ sheetMessages r.2 = sheetMessages w
  /\ sheetLogs r.2 = sheetLogs w
  /\ exists e, r.1 = Throw e
               /\ console r.2
                  = console w ++ [(ConsoleError, js "Initialize sheets error: " ++ e)].
Proof.
  destruct w as [sid err su sm sl li ld co nw uf fe]. intros Hbad. cbv zeta.
  unfold SpreadsheetService.initializeSheets, SpreadsheetService.rethrow,
    SpreadsheetService.getSpreadsheet.
  unfold_M. cbn.
  destruct sid as [id|]; [destruct err as [e|]|]; cbn.
  - repeat split. now exists e.
  - destruct Hbad. split; [eexists; reflexivity|reflexivity].
  - repeat split. eexists. split; reflexivity.
Qed.

Lemma initializeSheets_unavailable_witness :
  ~ store_ok store_down_world
  /\ (SpreadsheetService.initializeSheets store_down_world).1
     = Throw (js "Spreadsheet ID is not set").
Proof.
  assert (Hno : ~ store_ok store_down_world)
    by (intros [[x Hx] _]; discriminate).
  split; [exact Hno|].
  destruct (initializeSheets_unavailable store_down_world Hno) as (-> & _).
  reflexivity.
Defined.

(** X16. The store never holds two rows for one user id because of a save:
    with the spreadsheet available, [saveUserData] keeps user ids unique if
    they were, leaves the rows of all other users where they are and removes
    no row. *)
Theorem saveUserData_keeps_ids_unique (userData : UserRow) (w : World) :
  store_ok w ->
  let us := users w in
  let us' := users (SpreadsheetService.saveUserData userData w).2 in
  (NoDup (ur_userId <$> us) -> NoDup (ur_userId <$> us'))
  /\ (forall j r, us !! j = Some r -> ur_userId r <> ur_userId userData ->
                  us' !! j = Some r)
  /\ (length us <= length us')%nat.
Proof.
  intros Hok. cbv zeta.
  destruct (saveUserData_runs userData w Hok) as (w' & -> & Hs). cbn [snd].
  rewrite (step_users _ _ _ _ _ Hs).
  split; [|split].
  - intros Hnd. fold (ids (users w)) in Hnd. fold (ids (upserted userData (users w))).
    destruct (ids_upserted userData (users w)) as [[_ ->]|[Hout ->]]; [assumption|].
    apply NoDup_app. split; [assumption|]. split; [|apply NoDup_singleton].
    intros x Hx Hx'. apply list_elem_of_singleton in Hx'. now subst.
  - apply others_kept_upserted.
  - unfold upserted. destruct (list_find _ _) as [[k r]|].
    + now rewrite length_insert.
    + rewrite length_app. lia.
Qed.

Lemma saveUserData_keeps_ids_unique_witness :
  store_ok two_users_world
  /\ users (SpreadsheetService.saveUserData new_U1 two_users_world).2 !! 0%nat
     = Some stored_U2.
Proof.
  assert (Hok : store_ok two_users_world) by apply fresh_world_users_ok.
  split; [exact Hok|].
  destruct (saveUserData_keeps_ids_unique new_U1 two_users_world Hok)
    as (_ & Hkept & _).
  apply Hkept; [reflexivity|]. intros H; vm_compute in H; discriminate.
Defined.

(** ** Truncation, placeholders and the length of a long delivery *)

(** X17. [truncate] leaves a text that fits as it is; a longer text is cut so
    that, with the suffix appended, it is exactly [maxLength] code units
    long, provided the suffix itself fits into [maxLength]. *)
Theorem truncate_fits (text : jsstring) (maxLength : Z) (suffix : option jsstring) :
  let s := default (js "...") suffix in
  let r := MessageFormatter.truncate text maxLength suffix in
  Z.of_nat (length s) <= maxLength ->
  (Z.of_nat (length text) <= maxLength -> r = text)
  /\ (maxLength < Z.of_nat (length text) ->
      r = take (Z.to_nat (maxLength - Z.of_nat (length s))) text ++ s
      /\ Z.of_nat (length r) = maxLength)
  /\ Z.of_nat (length r) <= maxLength.
Proof.
  cbv zeta. intros Hs. unfold MessageFormatter.truncate, substring0.
  destruct (Z.leb_spec (Z.of_nat (length text)) maxLength) as [Hle|Hgt].
  - split; [reflexivity|]. split; [lia|assumption].
  - assert (Hlen : Z.of_nat
                     (length (take (Z.to_nat (maxLength
                                      - Z.of_nat (length (default (js "...") suffix))))
                                text ++ default (js "...") suffix)) = maxLength).
    { rewrite length_app, length_take. lia. }
    split; [intros; lia|]. split; [intros _; split; [reflexivity|exact Hlen]|].
    rewrite Hlen. lia.
Qed.

Lemma truncate_fits_witness :
  Z.of_nat (length (js "...")) <= 8
  /\ MessageFormatter.truncate (js "hello, world") 8 None = js "hello...".
Proof.
  assert (Hs : Z.of_nat (length (default (js "...") None)) <= 8)
    by (vm_compute; discriminate).
  split; [exact Hs|].
  destruct (truncate_fits (js "hello, world") 8 None Hs) as (_ & Hcut & _).
  destruct Hcut as [-> _]; [vm_compute; reflexivity|]. reflexivity.
Defined.

(** X18. When [maxLength] is smaller than the suffix, a text longer than
    [maxLength] is replaced by the suffix alone, so the result is longer than
    the [maxLength] asked for. *)
Theorem truncate_exceeds (text : jsstring) (maxLength : Z) (suffix : option jsstring) :
  let s := default (js "...") suffix in
  maxLength < Z.of_nat (length s) -> maxLength < Z.of_nat (length text) ->
  MessageFormatter.truncate text maxLength suffix = s
  /\ maxLength < Z.of_nat (length (MessageFormatter.truncate text maxLength suffix)).
Proof.
  cbv zeta. intros Hs Ht. unfold MessageFormatter.truncate, substring0.
  destruct (Z.leb_spec (Z.of_nat (length text)) maxLength) as [Hle|Hgt]; [lia|].
  replace (Z.to_nat (maxLength - Z.of_nat (length (default (js "...") suffix))))
    with 0%nat by lia.
  rewrite take_0. split; [reflexivity|assumption].
Qed.

Lemma truncate_exceeds_witness :
  2 < Z.of_nat (length (js "..."))
  /\ MessageFormatter.truncate (js "hello") 2 None = js "...".
Proof.
  assert (Hs : 2 < Z.of_nat (length (default (js "...") None)))
    by (vm_compute; reflexivity).
  split; [exact Hs|].
  destruct (truncate_exceeds (js "hello") 2 None Hs) as (-> & _);
    [vm_compute; reflexivity|].
  reflexivity.
Defined.

Lemma find_first_eq p s :
  find_first p s
  = if startsWith p s then Some ([], drop (length p) s)
    else match s with
         | [] => None
         | c :: s' =>
             match find_first p s' with
             | Some (before, after) => Some (c :: before, after)
             | None => None
             end
         end.
Proof. destruct s; reflexivity. Qed.

Lemma startsWith_app p post : startsWith p (p ++ post) = true.
Proof.
  induction p as [|a p IH]; [reflexivity|]. cbn. now rewrite N.eqb_refl.
Qed.

Lemma find_first_pre p' (pre rest : list N) :
  brace_free pre ->
  find_first (123%N :: p') (pre ++ rest)
  = match find_first (123%N :: p') rest with
    | Some (before, after) => Some (pre ++ before, after)
    | None => None
    end.
Proof.
  unfold brace_free. induction pre as [|c pre IH]; intros H.
  - cbn [app]. now destruct (find_first _ rest) as [[b a]|].
  - apply not_elem_of_cons in H as [Hc Hpre].
    cbn [app]. rewrite find_first_eq. cbn [startsWith].
    destruct (N.eqb_spec 123 c) as [<-|_]; [congruence|].
    rewrite (IH Hpre). now destruct (find_first _ rest) as [[b a]|].
Qed.

Lemma find_first_brace_free p' (s : list N) :
  brace_free s -> find_first (123%N :: p') s = None.
Proof.
  intros H. rewrite <- (app_nil_r s). rewrite (find_first_pre p' s [] H).
  reflexivity.
Qed.

Lemma find_first_here (p post : list N) : find_first p (p ++ post) = Some ([], post).
Proof.
  rewrite find_first_eq, startsWith_app. now rewrite drop_app_length.
Qed.

Lemma brace_free_app (s t : list N) : brace_free s -> brace_free t -> brace_free (s ++ t).
Proof. unfold brace_free. intros Hs Ht H. apply elem_of_app in H. tauto. Qed.

Lemma brace_free_check (s : list N) :
  forallb (fun c => negb (c =? 123)%N) s = true -> brace_free s.
Proof.
  unfold brace_free. induction s as [|c s IH]; cbn; intros H.
  - apply not_elem_of_nil.
  - apply andb_true_iff in H as [Hc Hs]. apply not_elem_of_cons. split; [|auto].
    intros <-. discriminate.
Qed.

(** One placeholder between two texts free of braces, a value without
    brace and dollar sign: one turn of the loop puts the value in its
    place. *)
Lemma replace_while_one key (pre post value : list N) fuel :
  brace_free pre -> brace_free post -> plain value ->
  MessageFormatter.replace_while (S fuel) (pre ++ (js "{" ++ key ++ js "}") ++ post)
    (js "{" ++ key ++ js "}") value
  = Some (pre ++ value ++ post).
Proof.
  change (js "{" ++ key ++ js "}") with (123%N :: key ++ js "}").
  intros Hpre Hpost [Hb Hd].
  cbn [MessageFormatter.replace_while]. unfold includes, replace.
  unfold jsstring, code_unit in *.
  rewrite (find_first_pre _ pre _ Hpre).
  rewrite (find_first_here (123%N :: key ++ js "}") post), app_nil_r.
  rewrite GetSubstitution_plain by assumption.
  assert (Hnone : find_first (123%N :: key ++ js "}") (pre ++ value ++ post) = None).
  { apply find_first_brace_free. repeat apply brace_free_app; assumption. }
  destruct fuel; cbn [MessageFormatter.replace_while]; unfold includes;
    now rewrite Hnone.
Qed.

(** X19. [format] on a template with one placeholder: when the texts before
    and after the placeholder hold no opening brace and the value holds
    neither an opening brace nor a dollar sign, the call returns, after one
    replacement, the template with the value in the placeholder's place. *)
Theorem format_one_placeholder (key pre post value : jsstring) (fuel : nat) :
  brace_free pre -> brace_free post -> plain value -> (1 <= fuel)%nat ->
  MessageFormatter.format fuel (pre ++ (js "{" ++ key ++ js "}") ++ post)
    [(key, value)]
  = Some (pre ++ value ++ post).
Proof.
  intros Hpre Hpost Hv Hf. destruct fuel as [|fuel]; [lia|].
  unfold MessageFormatter.format. cbn [MessageFormatter.format_keys]. cbv zeta.
  pose proof (replace_while_one key pre post value fuel Hpre Hpost Hv) as E.
  unfold jsstring, code_unit in *. now rewrite E.
Qed.

Lemma format_one_placeholder_witness :
  plain (js "Al")
  /\ MessageFormatter.format 1 MessageConstants.NAME_CONFIRMED [(js "name", js "Al")]
     = Some (js "名前「Al」を確認しました。年齢を教えてください。").
Proof.
  assert (Hv : plain (js "Al"))
    by (split; intros H; vm_compute in H;
        repeat (apply elem_of_cons in H as [H|H]; [discriminate|]);
        inversion H).
  split; [exact Hv|].
  assert (Et : MessageConstants.NAME_CONFIRMED
               = js "名前「" ++ (js "{" ++ js "name" ++ js "}")
                 ++ js "」を確認しました。年齢を教えてください。")
    by (vm_compute; reflexivity).
  rewrite Et.
  rewrite (format_one_placeholder (js "name") (js "名前「")
             (js "」を確認しました。年齢を教えてください。") (js "Al") 1
             ltac:(apply brace_free_check; vm_compute; reflexivity)
             ltac:(apply brace_free_check; vm_compute; reflexivity)
             Hv ltac:(lia)).
  vm_compute. reflexivity.
Defined.

(** X20. A template that holds none of the placeholders of the map is
    returned unchanged, whatever the values are and without a single turn of
    the replacement loop. *)
Theorem format_without_placeholder (template : jsstring)
  (params : list (jsstring * jsstring)) (fuel : nat) :
  Forall (fun kv => includes template (js "{" ++ kv.1 ++ js "}") = false) params ->
  MessageFormatter.format fuel template params = Some template.
Proof.
  unfold MessageFormatter.format.
  induction 1 as [|[key value] params Hk _ IH]; [reflexivity|].
  cbn [MessageFormatter.format_keys]. cbv zeta. cbn [fst] in Hk.
  assert (E : MessageFormatter.replace_while fuel template
                (js "{" ++ key ++ js "}") value = Some template)
    by (destruct fuel; cbn [MessageFormatter.replace_while]; now rewrite Hk).
  now rewrite E.
Qed.

Lemma format_without_placeholder_witness :
  MessageFormatter.format 0 MessageConstants.HELP [(js "name", js "{name}")]
  = Some MessageConstants.HELP.
Proof.
  apply format_without_placeholder.
  constructor; [vm_compute; reflexivity|constructor].
Defined.

Lemma slices_length l : length (slices l) = slice_count (length l).
Proof.
  unfold slice_count, LineService.MAX_MESSAGE_LENGTH.
  induction l as [l IH] using (Nat.measure_induction _ (@length code_unit)).
  destruct l as [|c rest]; [reflexivity|].
  rewrite slices_cons. cbn [length]. rewrite IH by apply drop_max_shorter.
  rewrite length_drop. unfold LineService.MAX_MESSAGE_LENGTH. cbn [length].
  destruct (Nat.le_gt_cases 4000 (S (length rest))) as [Hge|Hlt].
  - replace (S (length rest) + (4000 - 1))%nat
      with ((S (length rest) - 4000 + (4000 - 1)) + 1 * 4000)%nat by lia.
    rewrite Nat.div_add by lia. lia.
  - replace (S (length rest) - 4000)%nat with 0%nat by lia.
    rewrite (Nat.div_small (0 + (4000 - 1))) by lia.
    apply (Nat.div_unique _ _ 1 (length rest)); lia.
Qed.

(** X21. [sendLongMessage] hands [max 1 (ceil (L / 4000))] requests to the
    transport for a text of [L] code units, one of them the reply, and waits
    500 ms before each of the others: the clock ends
    [500 * (requests - 1)] ms later. *)
Theorem sendLongMessage_count_and_time (userId replyToken text : jsstring)
  (w : World) :
  let r := LineService.sendLongMessage userId replyToken text w in
  let n := Nat.max 1 (slice_count (length text)) in
  length (fetched r.2) = (length (fetched w) + n)%nat
  /\ now r.2 = now w + 500 * (Z.of_nat n - 1).
Proof.
  cbv zeta. unfold LineService.sendLongMessage, LineService.replyText.
  destruct (Nat.leb_spec (length text) LineService.MAX_MESSAGE_LENGTH) as [Hle|Hgt].
  - destruct (post_step (Reply replyToken text) w) as (res & w1 & E & H).
    rewrite (try_bind _ _ _ _ _ _ E). cbn [try_catch ret fst snd].
    rewrite (step_fetched _ _ _ _ _ H), (step_now _ _ _ _ _ H), length_app.
    assert (Hn : Nat.max 1 (slice_count (length text)) = 1%nat).
    { unfold slice_count, LineService.MAX_MESSAGE_LENGTH in *.
      destruct (length text) as [|n] eqn:El; [reflexivity|].
      rewrite <- (Nat.div_unique (S n + (4000 - 1)) 4000 1 n); lia. }
    rewrite Hn. cbn [length]. lia.
  - destruct (post_step (Reply replyToken (take LineService.MAX_MESSAGE_LENGTH text)) w)
      as (res & w1 & E & H).
    rewrite (try_bind _ _ _ _ _ _ E).
    destruct (push_loop_slices userId (drop LineService.MAX_MESSAGE_LENGTH text) 1 w1)
      as (w2 & E2 & Hf & _ & _ & Hnow).
    rewrite (try_bind _ _ _ _ _ _ E2).
    match goal with |- context [Logger.log ?m] =>
      destruct (Logger_log_quiet m w2) as (w3 & E3 & H3) end.
    rewrite (try_bind _ _ _ _ _ _ E3). cbn [try_catch ret fst snd].
    rewrite (step_fetched _ _ _ _ _ H3), (step_now _ _ _ _ _ H3), Hf, Hnow,
      (step_fetched _ _ _ _ _ H), (step_now _ _ _ _ _ H).
    rewrite !length_app, length_fmap, slices_length, length_drop. cbn [length].
    assert (Hn : slice_count (length text)
                 = S (slice_count (length text - LineService.MAX_MESSAGE_LENGTH))).
    { unfold slice_count, LineService.MAX_MESSAGE_LENGTH in *.
      replace (length text + (4000 - 1))%nat
        with ((length text - 4000 + (4000 - 1)) + 1 * 4000)%nat by lia.
      rewrite Nat.div_add by lia. lia. }
    rewrite Hn. lia.
Qed.

(** ** The texts of the registration replies *)




Lemma format_NAME_CONFIRMED fuel (name : jsstring) :
  plain name -> (1 <= fuel)%nat ->
  MessageFormatter.format fuel MessageConstants.NAME_CONFIRMED [(js "name", name)]
  = Some (name_confirmed_reply name).
Proof.
  intros Hv Hf.
  assert (Et : MessageConstants.NAME_CONFIRMED
               = js "名前「" ++ (js "{" ++ js "name" ++ js "}")
                 ++ js "」を確認しました。年齢を教えてください。")
    by (vm_compute; reflexivity).
  rewrite Et. destruct fuel as [|fuel]; [lia|].
  unfold MessageFormatter.format. cbn [MessageFormatter.format_keys]. cbv zeta.
  pose proof (replace_while_one (js "name") (js "名前「")
                (js "」を確認しました。年齢を教えてください。") name fuel
                ltac:(apply brace_free_check; vm_compute; reflexivity)
                ltac:(apply brace_free_check; vm_compute; reflexivity) Hv) as E.
  unfold jsstring, code_unit in *. now rewrite E.
Qed.

(** X22. WAITING_NAME, for a stored user: a text of at least two code units
    after trimming, free of opening braces and dollar signs, is stored as
    the name exactly as typed (not trimmed), the state becomes WAITING_AGE
    and the reply quotes the name as typed. *)
Theorem waiting_name_confirms_name (fuel : nat) (event : LineEvent) (w : World)
  (userId text : jsstring) (k : nat) (row : UserRow) :
  accepted event userId text -> store_ok w ->
  list_find (has_id userId) (users w) = Some (k, row) ->
  ur_state row = StatusConstants.WAITING_NAME ->
  (2 <= length (trim text))%nat -> plain text -> (1 <= fuel)%nat ->
  let r := TextHandler.handle fuel event w in
  r.1 = Ok tt
  /\ fetched r.2
     = fetched w ++ [Reply (default [] (event_replyToken event))
                       (name_confirmed_reply text)]
  /\ users r.2
     = <[k := mkUserRow (ur_userId row) (ur_displayName row)
                StatusConstants.WAITING_AGE
                ({[ js "name" := JStr text ]} ∪ ur_data row)
                (ur_createdAt row) (Some (now w))]> (users w).
Proof.
  intros Hacc Hok E Hstate Hlong Hplain Hfuel. cbv zeta.
  destruct (waiting_name_transition fuel event w userId text k row Hacc Hok E Hstate)
    as (_ & H).
  destruct (H Hlong) as (Hu & Hout).
  rewrite (format_NAME_CONFIRMED fuel text Hplain Hfuel) in Hout.
  destruct Hout as (H1 & H2). split; [exact H1|]. split; [exact H2|exact Hu].
Qed.

Lemma waiting_name_confirms_name_witness :
  accepted (U1_says " Al ") (js "U1") (js " Al ")
  /\ store_ok world_with_U1
  /\ plain (js " Al ")
  /\ users (TextHandler.handle 1 (U1_says " Al ") world_with_U1).2
     = [mkUserRow (js "U1") None StatusConstants.WAITING_AGE
          ({[ js "name" := JStr (js " Al ") ]} ∪ ∅) 100 (Some 1000)].
Proof.
  assert (Hacc : accepted (U1_says " Al ") (js "U1") (js " Al "))
    by (apply (U1_says_accepted " Al "); intros H; vm_compute in H; discriminate).
  assert (Hok : store_ok world_with_U1) by apply fresh_world_users_ok.
  assert (Hv : plain (js " Al "))
    by (split; intros H; vm_compute in H;
        repeat (apply elem_of_cons in H as [H|H]; [discriminate|]);
        inversion H).
  split; [exact Hacc|]. split; [exact Hok|]. split; [exact Hv|].
  destruct (waiting_name_confirms_name 1 (U1_says " Al ") world_with_U1 (js "U1")
              (js " Al ") 0 stored_U1 Hacc Hok eq_refl eq_refl
              ltac:(vm_compute; lia) Hv ltac:(lia)) as (_ & _ & ->).
  reflexivity.
Defined.



(** ** Postback data *)

Lemma split_on_free sep (s : list N) : sep ∉ s -> split_on sep s = [s].
Proof.
  induction s as [|c s IH]; intros H; [reflexivity|].
  apply not_elem_of_cons in H as [Hc Hs]. cbn [split_on].
  destruct (N.eqb_spec c sep) as [->|_]; [congruence|]. now rewrite (IH Hs).
Qed.

Lemma split_on_app sep (s t : list N) :
  sep ∉ s -> split_on sep (s ++ sep :: t) = s :: split_on sep t.
Proof.
  induction s as [|c s IH]; intros H.
  - cbn. now rewrite N.eqb_refl.
  - apply not_elem_of_cons in H as [Hc Hs]. cbn [app split_on].
    destruct (N.eqb_spec c sep) as [->|_]; [congruence|]. now rewrite (IH Hs).
Qed.

Lemma split_on_joined (parts : list (list N)) :
  parts <> [] -> Forall (fun part => 38%N ∉ part) parts ->
  split_on 38%N (joined parts) = parts.
Proof.
  induction parts as [|part parts IH]; [congruence|]. intros _ H.
  apply Forall_cons_1 in H as [Hp Hps]. cbn [joined].
  destruct parts as [|part' parts]; [now apply split_on_free|].
  change (part ++ [38%N] ++ joined (part' :: parts))
    with (part ++ 38%N :: joined (part' :: parts)).
  rewrite split_on_app by assumption. f_equal. now apply IH.
Qed.

Lemma decodeURIComponent_unescaped (s : list N) :
  37%N ∉ s -> decodeURIComponent s = Some s.
Proof.
  induction s as [|c s IH]; intros H; [reflexivity|].
  apply not_elem_of_cons in H as [Hc Hs]. cbn [decodeURIComponent].
  destruct (N.eqb_spec c 37) as [->|_]; [congruence|]. now rewrite (IH Hs).
Qed.

Lemma truthy_nonempty (s : list N) : s <> [] -> truthy (Some s) = true.
Proof. now destruct s. Qed.

Lemma parse_part_plain kv result :
  plain_entry kv ->
  PostbackHandler.parse_part (entry_text kv) result = inl (<[kv.1 := kv.2]> result).
Proof.
  destruct kv as [k v]. intros ((Hk & Hk37 & _ & Hk61) & (Hv & Hv37 & _ & Hv61) & Hp).
  cbn [fst snd] in *. unfold PostbackHandler.parse_part, entry_text. cbn [fst snd].
  change (k ++ [61%N] ++ v) with (k ++ 61%N :: v).
  rewrite split_on_app by assumption. rewrite split_on_free by assumption.
  cbn [lookup list_lookup default from_option id].
  rewrite !truthy_nonempty by assumption. cbn [andb].
  rewrite !decodeURIComponent_unescaped by assumption.
  unfold PostbackHandler.assign. now rewrite decide_False by assumption.
Qed.

Lemma forEach_parts_plain kvs rest result :
  Forall plain_entry kvs ->
  PostbackHandler.forEach_parts ((entry_text <$> kvs) ++ rest) result
  = PostbackHandler.forEach_parts rest (foldl (fun m kv => <[kv.1 := kv.2]> m) result kvs).
Proof.
  intros H. revert result. induction H as [|kv kvs Hkv _ IH]; intros result.
  - reflexivity.
  - cbn [fmap list_fmap app PostbackHandler.forEach_parts foldl].
    rewrite (parse_part_plain kv result Hkv). apply IH.
Qed.

Lemma entry_text_no_amp kv : plain_entry kv -> 38%N ∉ entry_text kv.
Proof.
  intros ((_ & _ & Hk & _) & (_ & _ & Hv & _) & _) H. unfold entry_text in H.
  apply elem_of_app in H as [H|H]; [tauto|].
  apply elem_of_cons in H as [H|H]; [discriminate|tauto].
Qed.

(** X24. Postback data made of [key=value] entries joined by [&], with keys
    and values that are not empty and contain no [%], [&] or [=], is parsed
    into the object that has each key assigned in order, so that of two
    entries with the same key the later one wins; nothing is logged. *)
Theorem parsePostbackData_entries (kvs : list (jsstring * jsstring)) (w : World) :
  Forall plain_entry kvs ->
  PostbackHandler.parsePostbackData (joined (entry_text <$> kvs)) w
  = (Ok (assigned kvs), w).
Proof.
  intros H. unfold PostbackHandler.parsePostbackData, assigned.
  destruct kvs as [|kv kvs]; [reflexivity|].
  rewrite split_on_joined.
  - rewrite <- (app_nil_r (entry_text <$> kv :: kvs)).
    rewrite (forEach_parts_plain (kv :: kvs) [] ∅ H). reflexivity.
  - discriminate.
  - apply Forall_fmap. eapply Forall_impl; [exact H|]. intros x Hx. cbn.
    now apply entry_text_no_amp.
Qed.

Lemma unescaped_check (s : list N) :
  match s with
  | [] => false
  | _ => forallb (fun c => negb ((c =? 37) || (c =? 38) || (c =? 61))%N) s
  end = true ->
  unescaped s.
Proof.
  intros H. split; [now destruct s|].
  assert (Hall : forallb (fun c => negb ((c =? 37) || (c =? 38) || (c =? 61))%N) s
                 = true) by now destruct s.
  clear H. rewrite forallb_forall in Hall.
  repeat split; intros Hin; apply list_elem_of_In in Hin;
    specialize (Hall _ Hin); discriminate.
Qed.

Lemma parsePostbackData_entries_witness :
  Forall plain_entry [(js "action", js "buy"); (js "action", js "help")]
  /\ (PostbackHandler.parsePostbackData (js "action=buy&action=help") fresh_world).1
     = Ok {[ js "action" := js "help" ]}.
Proof.
  assert (H : Forall plain_entry [(js "action", js "buy"); (js "action", js "help")]).
  { repeat constructor; cbn [fst snd];
      try (apply unescaped_check; vm_compute; reflexivity);
      intros E; vm_compute in E; discriminate. }
  split; [exact H|].
  assert (Ed : js "action=buy&action=help"
               = joined (entry_text <$> [(js "action", js "buy");
                                         (js "action", js "help")]))
    by (vm_compute; reflexivity).
  rewrite Ed, (parsePostbackData_entries _ fresh_world H).
  reflexivity.
Defined.

(** X25. A malformed escape sequence in a value ends the parse: the entries
    before it are kept, the entry itself and every entry after it are
    dropped, the error is logged, and the call still returns normally. *)
Theorem parsePostbackData_malformed (kvs : list (jsstring * jsstring))
  (key value : jsstring) (rest : list jsstring) (w : World) :
  Forall plain_entry kvs -> unescaped key ->
  value <> [] -> (38%N ∉ value) -> (61%N ∉ value) ->
  decodeURIComponent value = None ->
  Forall (fun part => 38%N ∉ part) rest ->
  let data := joined ((entry_text <$> kvs) ++ entry_text (key, value) :: rest) in
  let r := PostbackHandler.parsePostbackData data w in
  r.1 = Ok (assigned kvs)
  /\ users r.2 = users w /\ messages r.2 = messages w /\ fetched r.2 = fetched w
  /\ (ConsoleError,
      js "[ERROR] " ++ js "Parse postback data error: " ++ js "URI malformed")
     ∈ console r.2.
Proof.
  intros H (Hk & Hk37 & Hk38 & Hk61) Hv Hv38 Hv61 Hbad Hrest. cbv zeta.
  unfold PostbackHandler.parsePostbackData, assigned.
  rewrite split_on_joined.
  - rewrite (forEach_parts_plain kvs _ ∅ H).
    cbn [PostbackHandler.forEach_parts].
    assert (E : PostbackHandler.parse_part (entry_text (key, value))
                  (foldl (fun m kv => <[kv.1 := kv.2]> m) ∅ kvs)
                = inr (js "URI malformed")).
    { unfold PostbackHandler.parse_part, entry_text. cbn [fst snd].
      change (key ++ [61%N] ++ value) with (key ++ 61%N :: value).
      rewrite split_on_app by assumption. rewrite split_on_free by assumption.
      cbn [lookup list_lookup default from_option id].
      rewrite !truthy_nonempty by assumption. cbn [andb].
      rewrite decodeURIComponent_unescaped by assumption. now rewrite Hbad. }
    rewrite E.
    destruct (Logger_error_quiet
                (js "Parse postback data error: " ++ js "URI malformed") w)
      as (w' & E' & Hq & Hin).
    rewrite (bind_run _ _ _ _ _ E'). cbn [ret fst snd].
    rewrite (step_users _ _ _ _ _ Hq), (step_messages _ _ _ _ _ Hq),
      (step_fetched _ _ _ _ _ Hq). repeat split. exact Hin.
  - now destruct kvs.
  - apply Forall_app. split.
    + apply Forall_fmap. eapply Forall_impl; [exact H|]. intros x Hx. cbn.
      now apply entry_text_no_amp.
    + constructor; [|exact Hrest]. intros Hin. unfold entry_text in Hin.
      cbn [fst snd] in Hin. apply elem_of_app in Hin as [Hin|Hin]; [tauto|].
      apply elem_of_cons in Hin as [Hin|Hin]; [discriminate|tauto].
Qed.

(** X26. [parsePostbackData] never raises and touches neither the sheets of
    users and messages nor the transport, whatever the data. *)
Theorem parsePostbackData_never_raises (data : jsstring) (w : World) :
  let r := PostbackHandler.parsePostbackData data w in
  (exists result, r.1 = Ok result)
  /\ users r.2 = users w /\ messages r.2 = messages w /\ fetched r.2 = fetched w.
Proof.
  cbv zeta. unfold PostbackHandler.parsePostbackData.
  destruct (PostbackHandler.forEach_parts _ _) as [result [e|]].
  - destruct (Logger_error_quiet (js "Parse postback data error: " ++ e) w)
      as (w' & E' & Hq & _).
    rewrite (bind_run _ _ _ _ _ E'). cbn [ret fst snd].
    rewrite (step_users _ _ _ _ _ Hq), (step_messages _ _ _ _ _ Hq),
      (step_fetched _ _ _ _ _ Hq). repeat split. now exists result.
  - cbn [ret fst snd]. repeat split. now exists result.
Qed.

Lemma parsePostbackData_malformed_witness :
  decodeURIComponent (js "%") = None
  /\ (PostbackHandler.parsePostbackData (js "action=help&x=%&y=1") fresh_world).1
     = Ok {[ js "action" := js "help" ]}.
Proof.
  split; [reflexivity|].
  assert (H : Forall plain_entry [(js "action", js "help")]).
  { repeat constructor; cbn [fst snd];
      try (apply unescaped_check; vm_compute; reflexivity);
      intros E; vm_compute in E; discriminate. }
  assert (Ed : js "action=help&x=%&y=1"
               = joined ((entry_text <$> [(js "action", js "help")])
                         ++ entry_text (js "x", js "%") :: [js "y=1"]))
    by (vm_compute; reflexivity).
  rewrite Ed.
  destruct (parsePostbackData_malformed [(js "action", js "help")] (js "x") (js "%")
              [js "y=1"] fresh_world H
              ltac:(apply unescaped_check; vm_compute; reflexivity)
              ltac:(intros E; vm_compute in E; discriminate)
              ltac:(intros E; vm_compute in E;
                    repeat (apply elem_of_cons in E as [E|E]; [discriminate|]);
                    inversion E)
              ltac:(intros E; vm_compute in E;
                    repeat (apply elem_of_cons in E as [E|E]; [discriminate|]);
                    inversion E)
              eq_refl
              ltac:(repeat constructor; intros E; vm_compute in E;
                    repeat (apply elem_of_cons in E as [E|E]; [discriminate|]);
                    inversion E)) as (-> & _).
  reflexivity.
Defined.

(** ** The remaining transitions at concrete inputs *)

Lemma initial_transition_witness :
  accepted (U1_says "登録") (js "U1") (js "登録")
  /\ store_ok world_initial_U1
  /\ users (TextHandler.handle 10 (U1_says "登録") world_initial_U1).2
     = [mkUserRow (js "U1") None StatusConstants.WAITING_NAME ∅ 900 (Some 1000)]
  /\ fetched (TextHandler.handle 10 (U1_says "登録") world_initial_U1).2
     = [Reply (js "token") MessageConstants.REGISTRATION_START].
Proof.
  assert (Hacc : accepted (U1_says "登録") (js "U1") (js "登録"))
    by (apply (U1_says_accepted "登録"); intros H; vm_compute in H; discriminate).
  assert (Hok : store_ok world_initial_U1) by apply fresh_world_users_ok.
  split; [exact Hacc|]. split; [exact Hok|].
  destruct (initial_transition 10 (U1_says "登録") world_initial_U1 (js "U1")
              (js "登録") 0 new_U1 Hacc Hok eq_refl eq_refl) as (_ & -> & ->).
  split; vm_compute; reflexivity.
Defined.

Lemma registered_transition_witness :
  accepted hello_event (js "U1") (js "hello")
  /\ store_ok world_registered_U1
  /\ users (TextHandler.handle 10 hello_event world_registered_U1).2
     = [registered_U1]
  /\ fetched (TextHandler.handle 10 hello_event world_registered_U1).2
     = [Reply (js "token") MessageConstants.DEFAULT_RESPONSE].
Proof.
  assert (Hacc : accepted hello_event (js "U1") (js "hello"))
    by (apply (U1_says_accepted "hello"); intros H; vm_compute in H; discriminate).
  assert (Hok : store_ok world_registered_U1) by apply fresh_world_users_ok.
  split; [exact Hacc|]. split; [exact Hok|].
  destruct (registered_transition 10 hello_event world_registered_U1 (js "U1")
              (js "hello") 0 registered_U1 Hacc Hok eq_refl eq_refl)
    as (_ & -> & ->).
  split; vm_compute; reflexivity.
Defined.

Lemma new_user_transition_witness :
  accepted hello_event (js "U1") (js "hello")
  /\ store_ok fresh_world
  /\ users (TextHandler.handle 10 hello_event fresh_world).2
     = [User.to_row user_U1]
  /\ fetched (TextHandler.handle 10 hello_event fresh_world).2
     = [Reply (js "token") MessageConstants.WELCOME].
Proof.
  assert (Hacc : accepted hello_event (js "U1") (js "hello"))
    by (apply (U1_says_accepted "hello"); intros H; vm_compute in H; discriminate).
  assert (Hok : store_ok fresh_world)
    by (split; [eexists; reflexivity|reflexivity]).
  split; [exact Hacc|]. split; [exact Hok|].
  destruct (new_user_transition 10 hello_event fresh_world (js "U1") (js "hello")
              Hacc Hok eq_refl) as (_ & _ & -> & ->).
  split; vm_compute; reflexivity.
Defined.

Lemma User_save_then_find_witness :
  store_ok fresh_world
  /\ exists found,
       (User.findByUserId (js "U1") (User.save user_U1 fresh_world).2).1
       = Ok (Some found)
       /\ default [] (User.displayName found) = []
       /\ User.state found = StatusConstants.INITIAL
       /\ User.updatedAt found = None.
Proof.
  assert (Hok : store_ok fresh_world)
    by (split; [eexists; reflexivity|reflexivity]).
  split; [exact Hok|].
  destruct (User_save_then_find user_U1 fresh_world Hok)
    as (found & E & _ & Hn & Hs & _ & _ & Hu).
  exists found. split; [exact E|]. split; [exact Hn|]. split; [exact Hs|exact Hu].
Defined.
